(** * Apktool MCP server: the tool-dispatch and command-execution boundary

    A shallow embedding of [src/APktool.py] (class [ApktoolMCPServer]) and
    the properties of its tool dispatch, command runner, handlers, resource
    reader and prompt catalogue.  The resource listing, whose URIs go
    through the URL type of pydantic, and the transport ([run], [main]) are
    not embedded.

    Conventions of the embedding.
    - A Python [str] is a Rocq [string]; its characters are the code points
      below 256, and [str.lower], [str.strip] are the CPython functions on
      that range.
    - Argument values are the Python values the handler signatures mention:
      [None], booleans and strings.  Operations on a value of another type
      than the annotated one behave as CPython 3.11 does (a [TypeError] from
      [Path(True)], truthiness of a string used as a flag, ...).
    - The operating system is a record of oracles ([World]): [stat],
      [read_text], directory listing, globbing and process execution, each
      of which returns or raises.  One tool call observes one snapshot of
      it.  Every request to start a process is recorded in the trace of the
      call.
    - A Python exception is a value [Raise e] of the result type; only
      subclasses of [Exception] occur.  An [OSError] that the operating
      system raised carries its [errno], which is what [pathlib] looks at
      when [exists] and [is_dir] decide between [False] and the error. *)

From Stdlib Require Import String Ascii List Bool Arith ZArith NArith Lia.
From Stdlib Require Import DecimalString.
Import ListNotations.
Open Scope string_scope.

Set Implicit Arguments.

(* ================================================================= *)
(** ** Python strings *)

Module PyStr.

Definition nl : string := String (ascii_of_nat 10) EmptyString.
Definition dquote : string := String (ascii_of_nat 34) EmptyString.
Definition slash : ascii := ascii_of_nat 47.
Definition dot : ascii := ascii_of_nat 46.

(** [str(n)] for a non-negative integer. *)
Definition str_nat (n : nat) : string := NilEmpty.string_of_uint (Nat.to_uint n).
Definition str_N (n : N) : string := NilEmpty.string_of_uint (N.to_uint n).

(** [c.isspace()] on the code points below 256. *)
Definition isspace (c : ascii) : bool :=
  let n := nat_of_ascii c in
  (((9 <=? n) && (n <=? 13)) || ((28 <=? n) && (n <=? 32)) || (n =? 133) || (n =? 160))%nat.

(** [c.lower()] on the code points below 256: A-Z and the Latin-1 capitals
    (U+00C0-U+00DE without the multiplication sign U+00D7). *)
Definition lower_char (c : ascii) : ascii :=
  let n := nat_of_ascii c in
  if (((65 <=? n) && (n <=? 90)) || ((192 <=? n) && (n <=? 222) && negb (n =? 215)))%nat
  then ascii_of_nat (n + 32) else c.

Fixpoint lower (s : string) : string :=
  match s with
  | EmptyString => EmptyString
  | String c t => String (lower_char c) (lower t)
  end.

Fixpoint lstrip (s : string) : string :=
  match s with
  | EmptyString => EmptyString
  | String c t => if isspace c then lstrip t else s
  end.

Fixpoint rstrip (s : string) : string :=
  match s with
  | EmptyString => EmptyString
  | String c t =>
      match rstrip t with
      | EmptyString => if isspace c then EmptyString else String c EmptyString
      | r => String c r
      end
  end.

(** [s.strip()] *)
Definition strip (s : string) : string := rstrip (lstrip s).

(** [s.startswith(p)] *)
Definition startswith (s p : string) : bool := prefix p s.

(** [needle in hay] *)
Fixpoint in_str (needle hay : string) : bool :=
  prefix needle hay ||
  match hay with
  | EmptyString => false
  | String _ t => in_str needle t
  end.

(** [s.split(c)] for a one-character separator; never the empty list. *)
Fixpoint split (c : ascii) (s : string) : list string :=
  match s with
  | EmptyString => [EmptyString]
  | String a t =>
      if Ascii.eqb a c then EmptyString :: split c t
      else match split c t with
           | h :: r => String a h :: r
           | [] => [String a EmptyString]
           end
  end.

(** [sep.join(l)] for a list of strings. *)
Definition join (sep : string) (l : list string) : string := String.concat sep l.

(** [s.rfind(c)]; [None] stands for -1. *)
Fixpoint rfind (c : ascii) (s : string) : option nat :=
  match s with
  | EmptyString => None
  | String a t =>
      match rfind c t with
      | Some i => Some (S i)
      | None => if Ascii.eqb a c then Some 0 else None
      end
  end.

(** [enumerate(l, start)] *)
Fixpoint enumerate {A} (start : nat) (l : list A) : list (nat * A) :=
  match l with
  | [] => []
  | x :: r => (start, x) :: enumerate (S start) r
  end.

Definition is_empty (s : string) : bool :=
  match s with EmptyString => true | _ => false end.

End PyStr.
Import PyStr.

(* ================================================================= *)
(** ** Python values, exceptions and results *)

Inductive value :=
| VNone
| VBool (b : bool)
| VStr (s : string).

(** [bool(v)] *)
Definition truthy (v : value) : bool :=
  match v with
  | VNone => false
  | VBool b => b
  | VStr s => negb (is_empty s)
  end.

(** [str(v)], as an f-string renders it. *)
Definition pystr (v : value) : string :=
  match v with
  | VNone => "None"
  | VBool true => "True"
  | VBool false => "False"
  | VStr s => s
  end.

(** [type(v).__name__] *)
Definition type_name (v : value) : string :=
  match v with
  | VNone => "NoneType"
  | VBool _ => "bool"
  | VStr _ => "str"
  end.

(** The classes of the exceptions.  [OSError errno] is an [OSError] raised
    by the operating system, whose attribute [errno] is the number given;
    Python makes it an instance of the subclass that belongs to the number
    ([FileNotFoundError] for [ENOENT], [NotADirectoryError] for [ENOTDIR],
    [PermissionError] for [EACCES] and [EPERM], ...).  [FileNotFoundError]
    is the exception the handlers construct themselves, from a message
    alone: its [errno] is [None].  [ValidationError] is the one of
    pydantic, a subclass of [ValueError].  [OtherException] is a class that
    derives from neither [OSError] nor [ValueError]. *)
Inductive exc_type :=
| FileNotFoundError
| OSError (errno : nat)
| RuntimeError
| ValueError
| TypeError
| AttributeError
| IndexError
| ValidationError
| OtherException (class_name : string).

(** An exception: its class and [str(e)]. *)
Record exn := Exn { exn_type : exc_type; exn_msg : string }.

(** The [errno] values [pathlib] names, with their numbers on Linux. *)
Definition ENOENT : nat := 2.
Definition EBADF : nat := 9.
Definition ENOTDIR : nat := 20.
Definition ELOOP : nat := 40.

Inductive result (A : Type) :=
| Ok (a : A)
| Raise (e : exn).
Arguments Ok {A} a.
Arguments Raise {A} e.

(* ================================================================= *)
(** ** pathlib: pure POSIX paths *)

Module PurePath.

(** A parsed path: the root ([""], ["/"] or ["//"]) and the parts after it. *)
Record Path := mkPath { root : string; segs : list string }.

Fixpoint lstrip_sep (s : string) : string :=
  match s with
  | EmptyString => EmptyString
  | String c t => if Ascii.eqb c slash then lstrip_sep t else s
  end.

(** [_PosixFlavour.splitroot]: exactly two leading slashes are kept. *)
Definition splitroot (part : string) : string * string :=
  if startswith part "/" then
    let stripped := lstrip_sep part in
    if (String.length part - String.length stripped =? 2)%nat
    then ("//", stripped) else ("/", stripped)
  else (EmptyString, part).

Definition keep_part (x : string) : bool := negb (is_empty x) && negb (x =? ".").

(** [Path(s)] *)
Definition parse (s : string) : Path :=
  let '(r, rel) := splitroot s in
  mkPath r (filter keep_part (split slash rel)).

(** [p / s] for a string [s]. *)
Definition truediv (p : Path) (s : string) : Path :=
  let q := parse s in
  if is_empty (root q) then mkPath (root p) (segs p ++ segs q)%list else q.

(** The paths [iterdir], [glob] and [rglob] yield: the parts of [p]
    followed by the parts found below it. *)
Definition below (p : Path) (rel : list string) : Path :=
  mkPath (root p) (segs p ++ rel)%list.

(** [str(p)] *)
Definition to_str (p : Path) : string :=
  let s := root p ++ join "/" (segs p) in
  if is_empty s then "." else s.

(** [p.name] *)
Definition name (p : Path) : string := last (segs p) EmptyString.

(** [p.stem] *)
Definition stem (p : Path) : string :=
  let n := name p in
  match rfind dot n with
  | Some i => if ((0 <? i) && (i <? String.length n - 1))%nat then substring 0 i n else n
  | None => n
  end.

Definition abs_parts (p : Path) : list string :=
  if is_empty (root p) then segs p else EmptyString :: root p :: segs p.

(** [p.relative_to(other)]; [None] stands for the [ValueError]. *)
Definition relative_to (p other : Path) : option Path :=
  let a := abs_parts p in
  let b := abs_parts other in
  let n := List.length b in
  if (n =? 0)%nat then
    if is_empty (root p) then Some (mkPath EmptyString a) else None
  else if list_eq_dec string_dec (firstn n a) b then
    Some (if (n =? 1)%nat && negb (is_empty (root p))
          then mkPath (root p) (skipn 2 a)
          else mkPath EmptyString (skipn n a))
  else None.

End PurePath.
Import PurePath.

(* ================================================================= *)
(** ** The operating system and the handler monad *)

(** [os.stat_result], as far as the handlers read it.  [st_mtime] is a
    float; it is carried as the text [str] gives for it. *)
Record stat_result := { st_is_dir : bool; st_size : N; st_mtime : string }.

(** What starting a process comes to: [create_subprocess_exec] or
    [communicate] raised, or the process ran and exited.  The two streams are
    the captured bytes after [decode('utf-8', errors='ignore')]. *)
Inductive exec_outcome :=
| ExecRaised (e : exn)
| Exited (returncode : Z) (stdout stderr : string).

(** The ways asyncio starts a process: [create_subprocess_exec], which
    hands the program an argument vector, and [create_subprocess_shell],
    which hands one command line to the shell. *)
Inductive os_call :=
| Exec (argv : list string) (cwd : string)
| Shell (command : string) (cwd : string).

Record World := {
  os_stat : string -> result stat_result;
  os_read_text : string -> result string;
  os_listdir : string -> result (list string);
  os_glob : string -> string -> result (list (list string));
  os_rglob : string -> string -> result (list (list string));
  os_exec : list string -> string -> exec_outcome
}.

(** A handler reads the world, logs its process requests, and returns or
    raises. *)
Definition M (A : Type) : Type := World -> result A * list os_call.

Definition ret {A} (a : A) : M A := fun _ => (Ok a, []).
Definition raise {A} (e : exn) : M A := fun _ => (Raise e, []).
Definition bind {A B} (m : M A) (k : A -> M B) : M B :=
  fun w =>
    match m w with
    | (Ok a, t) => let '(r, t') := k a w in (r, (t ++ t')%list)
    | (Raise e, t) => (Raise e, t)
    end.
(** [try: body except Exception as e: handler(e)] *)
Definition try_except {A} (body : M A) (handler : exn -> M A) : M A :=
  fun w =>
    match body w with
    | (Ok a, t) => (Ok a, t)
    | (Raise e, t) => let '(r, t') := handler e w in (r, (t ++ t')%list)
    end.
Definition lift {A} (r : result A) : M A := fun _ => (r, []).
Definition ask {A} (f : World -> A) : M A := fun w => (Ok (f w), []).
Definition tell (c : os_call) : M unit := fun _ => (Ok tt, [c]).

Notation "x <- m ;; k" := (bind m (fun x => k))
  (at level 61, m at next level, right associativity).
Notation "m ;;; k" := (bind m (fun _ => k))
  (at level 61, right associativity).

(** [Path(v)]: a [TypeError] unless [v] is a string. *)
Definition Path_ (v : value) : M Path :=
  match v with
  | VStr s => ret (parse s)
  | _ => raise (Exn TypeError
           ("expected str, bytes or os.PathLike object, not " ++ type_name v))
  end.

(** [p / v] *)
Definition truediv_ (p : Path) (v : value) : M Path :=
  match v with
  | VStr s => ret (truediv p s)
  | _ => raise (Exn TypeError
           ("unsupported operand type(s) for /: 'PosixPath' and '" ++ type_name v ++ "'"))
  end.

(** [p.stat()] *)
Definition stat (p : Path) : M stat_result :=
  fun w => (os_stat w (to_str p), []).

(** [pathlib._ignore_error]: the [errno] of the exception, [None] when it
    has none, is one of [_IGNORED_ERRNOS]. *)
Definition _ignore_error (exception : exn) : bool :=
  match exn_type exception with
  | OSError errno => existsb (Nat.eqb errno) [ENOENT; ENOTDIR; EBADF; ELOOP]
  | _ => false
  end.

(** [isinstance(e, OSError)] and [isinstance(e, ValueError)], as the two
    [except] clauses of [exists] and [is_dir] test them. *)
Definition is_OSError (e : exn) : bool :=
  match exn_type e with
  | OSError _ | FileNotFoundError => true
  | _ => false
  end.

Definition is_ValueError (e : exn) : bool :=
  match exn_type e with
  | ValueError | ValidationError => true
  | _ => false
  end.

(** The [except] clauses of [exists] and [is_dir]: an [OSError] is raised
    again unless [_ignore_error] holds of it, and then the answer is
    [False]; a [ValueError] (a path that cannot be encoded) gives [False];
    any other exception is not caught. *)
Definition except_ignored (e : exn) : M bool :=
  if is_OSError e then
    if negb (_ignore_error e) then raise e else ret false
  else if is_ValueError e then ret false
  else raise e.

(** [p.exists()] *)
Definition exists_ (p : Path) : M bool :=
  try_except (stat p ;;; ret true) except_ignored.

(** [p.is_dir()] *)
Definition is_dir (p : Path) : M bool :=
  try_except (st <- stat p ;; ret (st_is_dir st)) except_ignored.

(** [p.read_text(encoding='utf-8')] *)
Definition read_text (p : Path) : M string :=
  fun w => (os_read_text w (to_str p), []).

(** [list(p.iterdir())] *)
Definition iterdir (p : Path) : M (list Path) :=
  fun w => (match os_listdir w (to_str p) with
            | Ok names => Ok (map (fun n => below p [n]) names)
            | Raise e => Raise e
            end, []).

(** [p.rglob(pattern)], iterated to its end: the paths it yields, or the
    exception that ends the iteration. *)
Definition rglob (p : Path) (pattern : string) : M (list Path) :=
  fun w => (match os_rglob w (to_str p) pattern with
            | Ok rels => Ok (map (below p) rels)
            | Raise e => Raise e
            end, []).

(* ================================================================= *)
(** ** The server: command runner and tool handlers *)

(** [ApktoolMCPServer.__init__]: the two settings of a server. *)
Record Server := { apktool_path : string; work_dir : Path }.

(** The strings of a list, or the first element that is not a string and
    its index. *)
Fixpoint all_str (i : nat) (l : list value) : list string + nat * value :=
  match l with
  | [] => inl []
  | VStr s :: r =>
      match all_str (S i) r with
      | inl ss => inl (s :: ss)
      | inr x => inr x
      end
  | v :: _ => inr (i, v)
  end.

(** [sep.join(l)] on a list of values. *)
Definition join_ (sep : string) (l : list value) : M string :=
  match all_str 0 l with
  | inl ss => ret (join sep ss)
  | inr (i, v) =>
      raise (Exn TypeError ("sequence item " ++ str_nat i
                            ++ ": expected str instance, " ++ type_name v ++ " found"))
  end.

(** [asyncio.create_subprocess_exec] on the unpacked [cmd] with both streams
    piped and [cwd], followed by [communicate()] and the decoding of both
    streams. *)
Definition create_subprocess_exec (cmd : list value) (cwd : Path)
  : M (Z * string * string) :=
  match cmd with
  | [] =>
      raise (Exn TypeError
        "create_subprocess_exec() missing 1 required positional argument: 'program'")
  | _ =>
      match all_str 0 cmd with
      | inr (_, v) =>
          raise (Exn TypeError
            ("expected str, bytes or os.PathLike object, not " ++ type_name v))
      | inl argv =>
          tell (Exec argv (to_str cwd)) ;;;
          o <- ask (fun w => os_exec w argv (to_str cwd)) ;;
          match o with
          | ExecRaised e => raise e
          | Exited returncode output error => ret (returncode, output, error)
          end
      end
  end.

(** [_run_command] *)
Definition _run_command (self : Server) (cmd : list value) (cwd : option Path)
  : M string :=
  try_except
    (p <- create_subprocess_exec cmd
            (match cwd with Some c => c | None => work_dir self end) ;;
     let '(returncode, output, error) := p in
     if negb (returncode =? 0)%Z then
       j <- join_ " " cmd ;;
       raise (Exn RuntimeError ("Command failed: " ++ j ++ nl ++ "Error: " ++ error))
     else
       ret (if negb (is_empty output) then output else error))
    (fun e =>
       j <- join_ " " cmd ;;
       raise (Exn RuntimeError
                ("Failed to execute command: " ++ j ++ nl ++ "Error: " ++ exn_msg e))).

Definition flag (v : value) (f : string) : list value :=
  if truthy v then [VStr f] else [].

(** The [cmd] list [_decode_apk] builds. *)
Definition decode_cmd (self : Server) (apk_file : Path) (force no_res no_src : value)
    (output_path : Path) : list value :=
  ([VStr (apktool_path self); VStr "d"; VStr (to_str apk_file)]
   ++ flag force "-f" ++ flag no_res "-r" ++ flag no_src "-s"
   ++ [VStr "-o"; VStr (to_str output_path)])%list.

(** [_decode_apk] *)
Definition _decode_apk (self : Server) (apk_path output_dir force no_res no_src : value)
  : M string :=
  apk_file <- Path_ apk_path ;;
  e <- exists_ apk_file ;;
  if negb e then
    raise (Exn FileNotFoundError ("APK file not found: " ++ pystr apk_path))
  else
    let output_dir := if negb (truthy output_dir) then VStr (stem apk_file) else output_dir in
    output_path <- truediv_ (work_dir self) output_dir ;;
    let cmd := decode_cmd self apk_file force no_res no_src output_path in
    result <- _run_command self cmd None ;;
    ret ("Successfully decompiled APK to: " ++ to_str output_path
         ++ nl ++ nl ++ "Output:" ++ nl ++ result).

(** The [cmd] list [_build_apk] builds. *)
Definition build_cmd (self : Server) (source_path : Path) (output_apk force : value)
  : list value :=
  ([VStr (apktool_path self); VStr "b"; VStr (to_str source_path)]
   ++ flag force "-f"
   ++ (if truthy output_apk then [VStr "-o"; output_apk] else []))%list.

(** [_build_apk] *)
Definition _build_apk (self : Server) (source_dir output_apk force : value) : M string :=
  source_path <- Path_ source_dir ;;
  e <- exists_ source_path ;;
  if negb e then
    raise (Exn FileNotFoundError ("Source directory not found: " ++ pystr source_dir))
  else
    let cmd := build_cmd self source_path output_apk force in
    result <- _run_command self cmd None ;;
    ret ("Successfully built APK from: " ++ to_str source_path
         ++ nl ++ nl ++ "Output:" ++ nl ++ result).

(** The [cmd] list [_install_framework] builds. *)
Definition install_cmd (self : Server) (framework_file : Path) (tag : value)
  : list value :=
  ([VStr (apktool_path self); VStr "if"; VStr (to_str framework_file)]
   ++ (if truthy tag then [VStr "-t"; tag] else []))%list.

(** [_install_framework] *)
Definition _install_framework (self : Server) (framework_path tag : value) : M string :=
  framework_file <- Path_ framework_path ;;
  e <- exists_ framework_file ;;
  if negb e then
    raise (Exn FileNotFoundError ("Framework file not found: " ++ pystr framework_path))
  else
    let cmd := install_cmd self framework_file tag in
    result <- _run_command self cmd None ;;
    ret ("Successfully installed framework: " ++ pystr framework_path
         ++ nl ++ nl ++ "Output:" ++ nl ++ result).

Definition newline : ascii := ascii_of_nat 10.

(** One round of the loop of [_analyze_manifest]: the entry appended for a
    line, if any. *)
Definition classify (line : string) : option string :=
  let line := strip line in
  if in_str "package=" line then Some ("Package: " ++ line)
  else if in_str "android:name=" line && in_str "activity" (lower line)
  then Some ("Activity: " ++ line)
  else if in_str "android:name=" line && in_str "service" (lower line)
  then Some ("Service: " ++ line)
  else if in_str "android:name=" line && in_str "receiver" (lower line)
  then Some ("Receiver: " ++ line)
  else if in_str "uses-permission" line then Some ("Permission: " ++ line)
  else None.

(** The list [analysis] after the loop. *)
Definition analysis_of (content : string) : list string :=
  flat_map (fun line => match classify line with Some e => [e] | None => [] end)
           (split newline content).

(** [_analyze_manifest] *)
Definition _analyze_manifest (self : Server) (apk_dir : value) : M string :=
  d <- Path_ apk_dir ;;
  let manifest_path := truediv d "AndroidManifest.xml" in
  e <- exists_ manifest_path ;;
  if negb e then
    raise (Exn FileNotFoundError ("AndroidManifest.xml not found in: " ++ pystr apk_dir))
  else
    content <- read_text manifest_path ;;
    let analysis := analysis_of content in
    let analysis_text :=
      match analysis with [] => "No key elements found" | _ => join nl analysis end in
    ret ("AndroidManifest.xml Analysis:" ++ nl ++ nl ++ analysis_text
         ++ nl ++ nl ++ "Full content:" ++ nl ++ content).

(** [p.glob(pattern)], which raises on a pattern pathlib refuses. *)
Definition glob_ (p : Path) (pattern : string) : M (list Path) :=
  fun w => (match os_glob w (to_str p) pattern with
            | Ok rels => Ok (map (below p) rels)
            | Raise e => Raise e
            end, []).

(** The loop of [_extract_strings] over the files found. *)
Fixpoint read_strings (files : list Path) : M (list string) :=
  match files with
  | [] => ret []
  | strings_file :: rest =>
      content <- read_text strings_file ;;
      more <- read_strings rest ;;
      ret ((nl ++ "--- " ++ name strings_file ++ " ---" ++ nl ++ content) :: more)
  end.

(** [_extract_strings] *)
Definition _extract_strings (self : Server) (apk_dir locale : value) : M string :=
  d <- Path_ apk_dir ;;
  let res_dir := truediv d "res" in
  e <- exists_ res_dir ;;
  if negb e then
    raise (Exn FileNotFoundError ("Resources directory not found: " ++ to_str res_dir))
  else
    strings_files <-
      (if truthy locale
       then glob_ res_dir ("values-" ++ pystr locale ++ "/strings.xml")
       else glob_ res_dir "values*/strings.xml") ;;
    match strings_files with
    | [] => ret ("No string files found for locale: "
                 ++ (if truthy locale then pystr locale else "default"))
    | _ =>
        all_strings <- read_strings strings_files ;;
        ret ("Extracted strings from " ++ str_nat (List.length strings_files)
             ++ " files:" ++ nl ++ join EmptyString all_strings)
    end.

(** The list [permissions] after the loop of [_list_permissions]. *)
Definition permissions_of (content : string) : list string :=
  map strip (filter (in_str "uses-permission") (split newline content)).

(** [_list_permissions] *)
Definition _list_permissions (self : Server) (apk_dir : value) : M string :=
  d <- Path_ apk_dir ;;
  let manifest_path := truediv d "AndroidManifest.xml" in
  e <- exists_ manifest_path ;;
  if negb e then
    raise (Exn FileNotFoundError ("AndroidManifest.xml not found in: " ++ pystr apk_dir))
  else
    content <- read_text manifest_path ;;
    let permissions := permissions_of content in
    match permissions with
    | [] => ret "No permissions found in AndroidManifest.xml"
    | _ => ret ("Found " ++ str_nat (List.length permissions) ++ " permissions:"
                ++ nl ++ nl ++ join nl permissions)
    end.

(** The entries one file adds to [matches]: the body of the [try] in
    [_find_smali_references].  Whatever is raised there ends the file
    ([except Exception: continue]): an unreadable file, a pattern that is
    not a string, a path outside [apk_path]. *)
Definition file_matches (w : World) (apk_path smali_file : Path)
    (search_pattern case_sensitive : value) : list string :=
  match os_read_text w (to_str smali_file) with
  | Raise _ => []
  | Ok content =>
      let search_content := if truthy case_sensitive then content else lower content in
      match search_pattern with
      | VStr sp =>
          if in_str sp search_content then
            match relative_to smali_file apk_path with
            | None => []
            | Some rel =>
                flat_map
                  (fun '(i, line) =>
                     let line_search := if truthy case_sensitive then line else lower line in
                     if in_str sp line_search
                     then [to_str rel ++ ":" ++ str_nat i ++ ": " ++ strip line]
                     else [])
                  (enumerate 1 (split newline content))
            end
          else []
      | _ => []
      end
  end.

(** The first loop of [_find_smali_references]: the list [smali_dirs]
    after the items.  [is_dir] is asked of every item, before its name is
    looked at. *)
Fixpoint smali_dirs_of (items : list Path) : M (list Path) :=
  match items with
  | [] => ret []
  | item :: rest =>
      d <- is_dir item ;;
      more <- smali_dirs_of rest ;;
      ret (if d && startswith (name item) "smali" then item :: more else more)
  end.

(** The second loop of [_find_smali_references]: the list [matches] after
    the smali directories.  The files of a directory are those [rglob]
    yields; an exception of [rglob] ends the search. *)
Fixpoint search_smali (apk_path : Path) (search_pattern case_sensitive : value)
    (smali_dirs : list Path) : M (list string) :=
  match smali_dirs with
  | [] => ret []
  | smali_dir :: rest =>
      files <- rglob smali_dir "*.smali" ;;
      found <- ask (fun w =>
        flat_map (fun smali_file =>
                    file_matches w apk_path smali_file search_pattern case_sensitive)
                 files) ;;
      more <- search_smali apk_path search_pattern case_sensitive rest ;;
      ret (found ++ more)%list
  end.

(** [_find_smali_references] *)
Definition _find_smali_references (self : Server) (apk_dir pattern case_sensitive : value)
  : M string :=
  apk_path <- Path_ apk_dir ;;
  items <- iterdir apk_path ;;
  smali_dirs <- smali_dirs_of items ;;
  match smali_dirs with
  | [] => ret "No smali directories found"
  | _ =>
      search_pattern <-
        (if truthy case_sensitive then ret pattern
         else match pattern with
              | VStr p => ret (VStr (lower p))
              | _ => raise (Exn AttributeError
                       ("'" ++ type_name pattern ++ "' object has no attribute 'lower'"))
              end) ;;
      matches <- search_smali apk_path search_pattern case_sensitive smali_dirs ;;
      match matches with
      | [] => ret ("Pattern '" ++ pystr pattern ++ "' not found in smali code")
      | _ => ret ("Found " ++ str_nat (List.length matches) ++ " matches for '"
                  ++ pystr pattern ++ "':" ++ nl ++ nl ++ join nl (firstn 50 matches))
      end
  end.

(** The [cmd] list [_get_apk_info] builds. *)
Definition aapt_cmd (apk_file : Path) : list value :=
  [VStr "aapt"; VStr "dump"; VStr "badging"; VStr (to_str apk_file)].

(** [_get_apk_info]; its bare [except:] takes whatever [_run_command] raises. *)
Definition _get_apk_info (self : Server) (apk_path : value) : M string :=
  apk_file <- Path_ apk_path ;;
  e <- exists_ apk_file ;;
  if negb e then
    raise (Exn FileNotFoundError ("APK file not found: " ++ pystr apk_path))
  else
    try_except
      (let cmd := aapt_cmd apk_file in
       result <- _run_command self cmd None ;;
       ret ("APK Information:" ++ nl ++ nl ++ result))
      (fun _ =>
         st <- stat apk_file ;;
         ret ("APK File Information:" ++ nl
              ++ "Path: " ++ to_str apk_file ++ nl
              ++ "Size: " ++ str_N (st_size st) ++ " bytes" ++ nl
              ++ "Modified: " ++ st_mtime st ++ nl
              ++ "Note: aapt not available for detailed analysis")).

(* ================================================================= *)
(** ** Calling a handler with [**arguments] *)

(** The parameters of a handler after [self]: name and default value
    ([None] for a parameter without default). *)
Record signature := { qualname : string; params : list (string * option value) }.

Fixpoint lookup (k : string) (l : list (string * value)) : option value :=
  match l with
  | [] => None
  | (k', v) :: r => if k' =? k then Some v else lookup k r
  end.

Definition is_bound (k : string) (slots : list (string * value)) : bool :=
  match lookup k slots with Some _ => true | None => false end.

Definition is_param (sig : signature) (k : string) : bool :=
  (k =? "self") || existsb (String.eqb k) (map fst (params sig)).

(** CPython takes the keywords in the order of the dict: a keyword that is
    no parameter, or one whose slot is taken ([self] always is), ends the
    call. *)
Fixpoint bind_keywords (sig : signature) (slots kwargs : list (string * value))
  : result (list (string * value)) :=
  match kwargs with
  | [] => Ok slots
  | (keyword, v) :: rest =>
      if is_param sig keyword then
        if (keyword =? "self") || is_bound keyword slots then
          Raise (Exn TypeError (qualname sig ++ "() got multiple values for argument '"
                                ++ keyword ++ "'"))
        else bind_keywords sig ((keyword, v) :: slots) rest
      else
        Raise (Exn TypeError (qualname sig ++ "() got an unexpected keyword argument '"
                              ++ keyword ++ "'"))
  end.

Definition quoted (s : string) : string := "'" ++ s ++ "'".

Fixpoint format_tail (names : list string) : string :=
  match names with
  | [] => EmptyString
  | [a] => ", and " ++ quoted a
  | a :: r => ", " ++ quoted a ++ format_tail r
  end.

(** The names in a "missing arguments" message. *)
Definition format_names (names : list string) : string :=
  match names with
  | [] => EmptyString
  | [a] => quoted a
  | [a; b] => quoted a ++ " and " ++ quoted b
  | a :: r => quoted a ++ format_tail r
  end.

Definition missing_message (sig : signature) (names : list string) : string :=
  qualname sig ++ "() missing " ++ str_nat (List.length names)
  ++ " required positional argument"
  ++ (if (List.length names =? 1)%nat then EmptyString else "s")
  ++ ": " ++ format_names names.

(** The required parameters no keyword has bound, in declaration order. *)
Definition missing_of (sig : signature) (slots : list (string * value)) : list string :=
  map fst (filter (fun p => match snd p with
                            | None => negb (is_bound (fst p) slots)
                            | Some _ => false
                            end) (params sig)).

(** Binding [**kwargs] to the parameters: the value of every parameter, or
    the [TypeError] of the call. *)
Definition bind_args (sig : signature) (kwargs : list (string * value))
  : result (list (string * value)) :=
  match bind_keywords sig [] kwargs with
  | Raise e => Raise e
  | Ok slots =>
      match missing_of sig slots with
      | [] =>
          Ok (map (fun p =>
                     (fst p,
                      match lookup (fst p) slots, snd p with
                      | Some v, _ => v
                      | None, Some d => d
                      | None, None => VNone
                      end)) (params sig))
      | names => Raise (Exn TypeError (missing_message sig names))
      end
  end.

(** The value bound to a parameter. *)
Definition arg (env : list (string * value)) (k : string) : value :=
  match lookup k env with Some v => v | None => VNone end.

Definition sig_decode_apk : signature :=
  {| qualname := "ApktoolMCPServer._decode_apk";
     params := [("apk_path", None); ("output_dir", Some VNone);
                ("force", Some (VBool false)); ("no_res", Some (VBool false));
                ("no_src", Some (VBool false))] |}.
Definition sig_build_apk : signature :=
  {| qualname := "ApktoolMCPServer._build_apk";
     params := [("source_dir", None); ("output_apk", Some VNone);
                ("force", Some (VBool false))] |}.
Definition sig_install_framework : signature :=
  {| qualname := "ApktoolMCPServer._install_framework";
     params := [("framework_path", None); ("tag", Some VNone)] |}.
Definition sig_analyze_manifest : signature :=
  {| qualname := "ApktoolMCPServer._analyze_manifest";
     params := [("apk_dir", None)] |}.
Definition sig_extract_strings : signature :=
  {| qualname := "ApktoolMCPServer._extract_strings";
     params := [("apk_dir", None); ("locale", Some (VStr EmptyString))] |}.
Definition sig_list_permissions : signature :=
  {| qualname := "ApktoolMCPServer._list_permissions";
     params := [("apk_dir", None)] |}.
Definition sig_find_smali_references : signature :=
  {| qualname := "ApktoolMCPServer._find_smali_references";
     params := [("apk_dir", None); ("pattern", None);
                ("case_sensitive", Some (VBool true))] |}.
Definition sig_get_apk_info : signature :=
  {| qualname := "ApktoolMCPServer._get_apk_info";
     params := [("apk_path", None)] |}.

(* ================================================================= *)
(** ** The tool registry *)

Record Property := { prop_name : string; prop_type : string; prop_default : option value }.

(** A [Tool] of [list_tools]: its name and the [properties] and [required]
    entries of its [inputSchema] (the descriptions are left out). *)
Record Tool := { tool_name : string; properties : list Property; required : list string }.

Definition list_tools : list Tool :=
  [ {| tool_name := "decode_apk";
       properties := [ Build_Property "apk_path" "string" None;
                       Build_Property "output_dir" "string" None;
                       Build_Property "force" "boolean" (Some (VBool false));
                       Build_Property "no_res" "boolean" (Some (VBool false));
                       Build_Property "no_src" "boolean" (Some (VBool false)) ];
       required := ["apk_path"] |};
    {| tool_name := "build_apk";
       properties := [ Build_Property "source_dir" "string" None;
                       Build_Property "output_apk" "string" None;
                       Build_Property "force" "boolean" (Some (VBool false)) ];
       required := ["source_dir"] |};
    {| tool_name := "install_framework";
       properties := [ Build_Property "framework_path" "string" None;
                       Build_Property "tag" "string" None ];
       required := ["framework_path"] |};
    {| tool_name := "analyze_manifest";
       properties := [ Build_Property "apk_dir" "string" None ];
       required := ["apk_dir"] |};
    {| tool_name := "extract_strings";
       properties := [ Build_Property "apk_dir" "string" None;
                       Build_Property "locale" "string" (Some (VStr EmptyString)) ];
       required := ["apk_dir"] |};
    {| tool_name := "list_permissions";
       properties := [ Build_Property "apk_dir" "string" None ];
       required := ["apk_dir"] |};
    {| tool_name := "find_smali_references";
       properties := [ Build_Property "apk_dir" "string" None;
                       Build_Property "pattern" "string" None;
                       Build_Property "case_sensitive" "boolean" (Some (VBool true)) ];
       required := ["apk_dir"; "pattern"] |};
    {| tool_name := "get_apk_info";
       properties := [ Build_Property "apk_path" "string" None ];
       required := ["apk_path"] |} ].

Definition tool_names : list string := map tool_name list_tools.

Record TextContent := { type_ : string; text : string }.
Record CallToolResult := { content : list TextContent; isError : bool }.

(** The items [mcp.types.ReadResourceResult] holds: a
    [TextResourceContents] or a [BlobResourceContents], each with the URI of
    the resource. *)
Inductive ResourceContents :=
| TextResourceContents (uri : string) (mimeType : option string) (text : string)
| BlobResourceContents (uri : string) (mimeType : option string) (blob : string).

Record ReadResourceResult := { contents : list ResourceContents }.

(** The [try] block of [call_tool] up to the result text: the handler named
    [name] called with [**arguments]. *)
Definition dispatch (self : Server) (name : string) (arguments : list (string * value))
  : M string :=
  if name =? "decode_apk" then
    a <- lift (bind_args sig_decode_apk arguments) ;;
    _decode_apk self (arg a "apk_path") (arg a "output_dir") (arg a "force")
                (arg a "no_res") (arg a "no_src")
  else if name =? "build_apk" then
    a <- lift (bind_args sig_build_apk arguments) ;;
    _build_apk self (arg a "source_dir") (arg a "output_apk") (arg a "force")
  else if name =? "install_framework" then
    a <- lift (bind_args sig_install_framework arguments) ;;
    _install_framework self (arg a "framework_path") (arg a "tag")
  else if name =? "analyze_manifest" then
    a <- lift (bind_args sig_analyze_manifest arguments) ;;
    _analyze_manifest self (arg a "apk_dir")
  else if name =? "extract_strings" then
    a <- lift (bind_args sig_extract_strings arguments) ;;
    _extract_strings self (arg a "apk_dir") (arg a "locale")
  else if name =? "list_permissions" then
    a <- lift (bind_args sig_list_permissions arguments) ;;
    _list_permissions self (arg a "apk_dir")
  else if name =? "find_smali_references" then
    a <- lift (bind_args sig_find_smali_references arguments) ;;
    _find_smali_references self (arg a "apk_dir") (arg a "pattern") (arg a "case_sensitive")
  else if name =? "get_apk_info" then
    a <- lift (bind_args sig_get_apk_info arguments) ;;
    _get_apk_info self (arg a "apk_path")
  else
    raise (Exn ValueError ("Unknown tool: " ++ name)).

Definition text_content (s : string) : TextContent := {| type_ := "text"; text := s |}.

(** [call_tool]: the result and the process requests of the call.  (The
    [logger.error] line writes to the log only.) *)
Definition call_tool (self : Server) (name : string) (arguments : list (string * value))
  : World -> CallToolResult * list os_call :=
  fun w =>
    match dispatch self name arguments w with
    | (Ok result, t) => ({| content := [text_content result]; isError := false |}, t)
    | (Raise e, t) =>
        let error_msg := "Error executing " ++ name ++ ": " ++ exn_msg e in
        ({| content := [text_content error_msg]; isError := true |}, t)
    end.

(* ================================================================= *)
(** ** Resources *)

(** [l[i]] *)
Definition index_ (l : list string) (i : nat) : M string :=
  match nth_error l i with
  | Some x => ret x
  | None => raise (Exn IndexError "list index out of range")
  end.

Definition resource_not_found {A} (uri : string) : M A :=
  raise (Exn FileNotFoundError ("Resource not found: " ++ uri)).

Section ReadResource.

(** [str] of the [ValidationError] pydantic raises for a [contents] list it
    refuses.  The text is pydantic's and changes with its release. *)
Variable validation_text : list TextContent -> string.

(** [ReadResourceResult(contents=items)] on a list of [TextContent]:
    pydantic validates every item as a [TextResourceContents] or a
    [BlobResourceContents]; a [TextContent] is an instance of neither and
    no dict, so a list that holds one is refused. *)
Definition ReadResourceResult_ (items : list TextContent) : M ReadResourceResult :=
  match items with
  | [] => ret {| contents := [] |}
  | _ => raise (Exn ValidationError (validation_text items))
  end.

(** The [try] block of [read_resource]: every path that does not return
    reaches the final [raise]. *)
Definition read_resource_try (self : Server) (uri : string) : M ReadResourceResult :=
  if startswith uri "apktool://apk/" then
    let parts := split slash uri in
    apk_name <- index_ parts 3 ;;
    resource_type <- index_ parts 4 ;;
    let apk_dir := truediv (work_dir self) apk_name in
    if resource_type =? "manifest" then
      let manifest_path := truediv apk_dir "AndroidManifest.xml" in
      e <- exists_ manifest_path ;;
      if e then
        content <- read_text manifest_path ;;
        ReadResourceResult_ [text_content content]
      else resource_not_found uri
    else if resource_type =? "apktool_yml" then
      let yml_path := truediv apk_dir "apktool.yml" in
      e <- exists_ yml_path ;;
      if e then
        content <- read_text yml_path ;;
        ReadResourceResult_ [text_content content]
      else resource_not_found uri
    else resource_not_found uri
  else resource_not_found uri.

(** [read_resource] *)
Definition read_resource (self : Server) (uri : string) : M ReadResourceResult :=
  try_except (read_resource_try self uri)
    (fun e =>
       let error_msg := "Error reading resource " ++ uri ++ ": " ++ exn_msg e in
       ReadResourceResult_ [text_content error_msg]).

End ReadResource.

(* ================================================================= *)
(** ** Definitions used in the statements *)

(** The working directory a command runs in: [cwd or self.work_dir]. *)
Definition cwd_of (self : Server) (cwd : option Path) : string :=
  to_str (match cwd with Some c => c | None => work_dir self end).

(** The two messages of [_run_command]: the outer one of its [except]
    clause, and the one raised inside the [try] on a non-zero exit status. *)
Definition failed_message (argv : list string) (detail : string) : string :=
  "Failed to execute command: " ++ join " " argv ++ nl ++ "Error: " ++ detail.
Definition nonzero_detail (argv : list string) (error : string) : string :=
  "Command failed: " ++ join " " argv ++ nl ++ "Error: " ++ error.

(** What [_run_command] makes of the outcome of the process. *)
Definition run_outcome (argv : list string) (o : exec_outcome) : result string :=
  match o with
  | ExecRaised e => Raise (Exn RuntimeError (failed_message argv (exn_msg e)))
  | Exited rc output error =>
      if (rc =? 0)%Z then Ok (if negb (is_empty output) then output else error)
      else Raise (Exn RuntimeError (failed_message argv (nonzero_detail argv error)))
  end.

Definition flag_str (v : value) (f : string) : list string :=
  if truthy v then [f] else [].

(** The argument vector of a decode command. *)
Definition decode_argv (self : Server) (apk_file : Path) (force no_res no_src : value)
    (output_path : Path) : list string :=
  ([apktool_path self; "d"; to_str apk_file]
   ++ flag_str force "-f" ++ flag_str no_res "-r" ++ flag_str no_src "-s"
   ++ ["-o"; to_str output_path])%list.

(** The output directory [_decode_apk] settles on. *)
Definition decode_output_dir (apk_file : Path) (output_dir : value) : value :=
  if negb (truthy output_dir) then VStr (stem apk_file) else output_dir.


(** The command list the handler of a tool builds when its parameters have
    the values [v]. *)
Inductive tool_cmd (self : Server) (v : string -> value) : string -> list value -> Prop :=
| cmd_decode p d :
    v "apk_path" = VStr p ->
    decode_output_dir (parse p) (v "output_dir") = VStr d ->
    tool_cmd self v "decode_apk"
      (decode_cmd self (parse p) (v "force") (v "no_res") (v "no_src")
                  (truediv (work_dir self) d))
| cmd_build p :
    v "source_dir" = VStr p ->
    tool_cmd self v "build_apk"
      (build_cmd self (parse p) (v "output_apk") (v "force"))
| cmd_install p :
    v "framework_path" = VStr p ->
    tool_cmd self v "install_framework" (install_cmd self (parse p) (v "tag"))
| cmd_aapt p :
    v "apk_path" = VStr p ->
    tool_cmd self v "get_apk_info" (aapt_cmd (parse p)).

(** The error result of [call_tool] for a message. *)
Definition error_result (name msg : string) : CallToolResult :=
  {| content := [text_content ("Error executing " ++ name ++ ": " ++ msg)];
     isError := true |}.

(** The handler [call_tool] calls for each tool name. *)
Definition handler_signatures : list (string * signature) :=
  [ ("decode_apk", sig_decode_apk); ("build_apk", sig_build_apk);
    ("install_framework", sig_install_framework);
    ("analyze_manifest", sig_analyze_manifest);
    ("extract_strings", sig_extract_strings);
    ("list_permissions", sig_list_permissions);
    ("find_smali_references", sig_find_smali_references);
    ("get_apk_info", sig_get_apk_info) ].

(** A trace a tool may leave when its parameters have the values [v]: no
    request, or the one request whose argument vector is, element by
    element, the command list of the tool, started in the work directory. *)
Definition issues (self : Server) (v : string -> value) (name : string)
    (t : list os_call) : Prop :=
  t = [] \/ exists cmd argv,
              tool_cmd self v name cmd /\ map VStr argv = cmd
              /\ t = [Exec argv (to_str (work_dir self))].

(* ================================================================= *)
(** ** A sample server and world *)

(** The [FileNotFoundError] of the operating system for a path. *)
Definition enoent (p : string) : exn :=
  Exn (OSError ENOENT) ("[Errno 2] No such file or directory: '" ++ p ++ "'").

Definition sample_server : Server :=
  {| apktool_path := "apktool"; work_dir := parse "/work" |}.

Definition sample_manifest : string :=
  "<uses-permission android:name=" ++ dquote ++ "X" ++ dquote ++ "/>" ++ nl
  ++ "<activity android:name=" ++ dquote ++ ".Main" ++ dquote ++ "/>".

Definition sample_smali_line : string := "    invoke-static {v0}, Lcom/App;->TARGET()V".

(** Sixty lines, each with the target text. *)
Definition sample_smali : string := join nl (repeat sample_smali_line 60).

Definition file_stat : stat_result :=
  {| st_is_dir := false; st_size := 1234; st_mtime := "1700000000.5" |}.
Definition dir_stat : stat_result :=
  {| st_is_dir := true; st_size := 4096; st_mtime := "1700000001.25" |}.

Definition one_of (p : string) (l : list string) : bool := existsb (String.eqb p) l.

(** Two decoded projects under [/work]: [demo] with a manifest and one
    smali file, [plain] without smali directories; an APK under [/data];
    no [aapt]; an [apktool] whose [b] fails with its message on stdout. *)
Definition sample_world : World :=
  {| os_stat := fun p =>
       if one_of p ["/data/my app;rm.apk"; "/work/demo/AndroidManifest.xml";
                    "/work/demo/smali/com/A.smali"]
       then Ok file_stat
       else if one_of p ["/work"; "/work/demo"; "/work/demo/smali"; "/work/plain";
                         "/work/plain/res"]
       then Ok dir_stat
       else Raise (enoent p);
     os_read_text := fun p =>
       if p =? "/work/demo/AndroidManifest.xml" then Ok sample_manifest
       else if p =? "/work/demo/smali/com/A.smali" then Ok sample_smali
       else Raise (enoent p);
     os_listdir := fun p =>
       if p =? "/work/demo" then Ok ["AndroidManifest.xml"; "smali"]
       else if p =? "/work/plain" then Ok ["res"]
       else Raise (enoent p);
     os_glob := fun _ _ => Ok [];
     os_rglob := fun p pattern =>
       if (p =? "/work/demo/smali") && (pattern =? "*.smali")
       then Ok [["com"; "A.smali"]] else Ok [];
     os_exec := fun argv _ =>
       match argv with
       | "aapt" :: _ => ExecRaised (enoent "aapt")
       | _ :: "b" :: _ => Exited 1 "boom" EmptyString
       | _ => Exited 0 "I: done" EmptyString
       end |}.

(** The signature of the handler [call_tool] calls for a tool name. *)
Definition signature_of (name : string) : option signature :=
  match find (fun p => name =? fst p) handler_signatures with
  | Some p => Some (snd p)
  | None => None
  end.

(** The parameters of a signature that have no default. *)
Definition required_params (sig : signature) : list string :=
  map fst (filter (fun p => match snd p with None => true | Some _ => false end)
                  (params sig)).

(** The result is an error whose text mentions the field. *)
Definition names_field (field : string) (r : CallToolResult) : Prop :=
  isError r = true
  /\ exists msg, content r = [text_content msg] /\ in_str field msg = true.

(** Whether the character occurs in the string. *)
Fixpoint has_char (c : ascii) (s : string) : bool :=
  match s with
  | EmptyString => false
  | String a t => Ascii.eqb a c || has_char c t
  end.


(** Whether the last character is no white space ([false] for the empty
    string), and the same for the first. *)
Fixpoint ends_nonspace (s : string) : bool :=
  match s with
  | EmptyString => false
  | String c EmptyString => negb (isspace c)
  | String _ t => ends_nonspace t
  end.

Definition starts_nonspace (s : string) : bool :=
  match s with
  | EmptyString => false
  | String c _ => negb (isspace c)
  end.

(** A manifest line that asks for a permission whose name holds "SERVICE". *)
Definition service_permission_line : string :=
  "<uses-permission android:name=" ++ dquote
  ++ "android.permission.FOREGROUND_SERVICE" ++ dquote ++ "/>".

(** Whether a line holds the pattern, with or without regard to case. *)
Definition line_matches (case_sensitive : bool) (pattern line : string) : bool :=
  if case_sensitive then in_str pattern line
  else in_str (lower pattern) (lower line).

(** Two characters that are equal, or the same letter A-Z in its two
    cases; and two texts of the same length that are so character by
    character. *)
Definition same_letter (c d : ascii) : bool :=
  let n := nat_of_ascii c in
  let m := nat_of_ascii d in
  (Ascii.eqb c d
   || ((65 <=? n) && (n <=? 90) && (m =? n + 32))
   || ((65 <=? m) && (m <=? 90) && (n =? m + 32)))%nat.

Fixpoint same_text (s t : string) : bool :=
  match s, t with
  | EmptyString, EmptyString => true
  | String c s', String d t' => same_letter c d && same_text s' t'
  | _, _ => false
  end.

(** An entry of the search result: [relative/path:lineNumber: lineContent]. *)
Definition format_match (rel : string) (i : nat) (line : string) : string :=
  rel ++ ":" ++ str_nat i ++ ": " ++ strip line.

(** The entries for the lines of one file that hold the pattern, lines
    counted from 1. *)
Definition matching_lines_of (case_sensitive : bool) (pattern rel content : string)
  : list string :=
  map (fun '(i, line) => format_match rel i line)
      (filter (fun '(i, line) => line_matches case_sensitive pattern line)
              (enumerate 1 (split newline content))).

(** Whether [stat] says the path is a directory. *)
Definition is_directory (w : World) (p : Path) : bool :=
  match os_stat w (to_str p) with Ok st => st_is_dir st | Raise _ => false end.

(** The entries of a listing that are directories named [smali...]. *)
Definition smali_names (w : World) (apk_path : Path) (names : list string) : list string :=
  filter (fun n => is_directory w (below apk_path [n]) && startswith n "smali") names.

(** The [*.smali] files found below a directory, as paths relative to it. *)
Definition smali_files (w : World) (smali_dir : Path) : list (list string) :=
  match os_rglob w (to_str smali_dir) "*.smali" with
  | Ok rels => rels
  | Raise _ => []
  end.

(** The entries for every line that holds the pattern, over the readable
    [*.smali] files below the smali directories among [names]. *)
Definition all_matching_lines (w : World) (apk_path : Path) (names : list string)
    (case_sensitive : bool) (pattern : string) : list string :=
  flat_map
    (fun dir_name =>
       flat_map
         (fun rel =>
            match os_read_text w (to_str (below (below apk_path [dir_name]) rel)) with
            | Ok content =>
                matching_lines_of case_sensitive pattern (join "/" (dir_name :: rel)) content
            | Raise _ => []
            end)
         (smali_files w (below apk_path [dir_name])))
    (smali_names w apk_path names).

(** The file a resource kind stands for. *)
Definition resource_file (kind : string) : option string :=
  if kind =? "manifest" then Some "AndroidManifest.xml"
  else if kind =? "apktool_yml" then Some "apktool.yml"
  else None.

(** The failures of [stat] that [exists] and [is_dir] answer [False] for:
    an [OSError] whose [errno] is [ENOENT], [ENOTDIR], [EBADF] or [ELOOP],
    and a [ValueError]. *)
Definition absent (e : exn) : bool := _ignore_error e || is_ValueError e.

(** [stat] of the path returns, or fails in a way that [is_dir] answers
    [False] for. *)
Definition can_examine (w : World) (p : Path) : bool :=
  match os_stat w (to_str p) with Ok _ => true | Raise e => absent e end.

(** An [OSError] as the operating system raises it: [str] of it starts with
    its [errno] in brackets. *)
Definition os_raised (e : exn) : bool :=
  match exn_type e with
  | OSError errno => startswith (exn_msg e) ("[Errno " ++ str_nat errno ++ "] ")
  | _ => false
  end.

(** The categories of the manifest scan in the order in which a line is
    tested for them, each with the test for its markers. *)
Definition category_tests : list (string * (string -> bool)) :=
  [ ("Package", fun line => in_str "package=" line);
    ("Activity", fun line => in_str "android:name=" line && in_str "activity" (lower line));
    ("Service", fun line => in_str "android:name=" line && in_str "service" (lower line));
    ("Receiver", fun line => in_str "android:name=" line && in_str "receiver" (lower line));
    ("Permission", fun line => in_str "uses-permission" line) ].

(** The first category whose markers the line contains. *)
Definition first_category (line : string) : option string :=
  option_map fst (find (fun c => snd c line) category_tests).

(** One entry for every line that has a category, in the order of the
    lines: the category and the stripped line. *)
Definition entries_by_category (content : string) : list string :=
  flat_map (fun line => match first_category line with
                        | Some category => [category ++ ": " ++ strip line]
                        | None => []
                        end)
           (split newline content).

(** A text in the place of the one pydantic writes. *)
Definition sample_validation_text (items : list TextContent) : string :=
  str_nat (List.length items) ++ " validation error for ReadResourceResult".

(** The [PermissionError] of the operating system for a path. *)
Definition eacces (p : string) : exn :=
  Exn (OSError 13) ("[Errno 13] Permission denied: '" ++ p ++ "'").

(** The sample world with one more project, [/work/locked], a directory
    that can be listed but not searched: [stat] of its one entry fails with
    [EACCES]. *)
Definition locked_world : World :=
  {| os_stat := fun p =>
       if p =? "/work/locked" then Ok dir_stat
       else if p =? "/work/locked/notes.txt" then Raise (eacces p)
       else os_stat sample_world p;
     os_read_text := os_read_text sample_world;
     os_listdir := fun p =>
       if p =? "/work/locked" then Ok ["notes.txt"] else os_listdir sample_world p;
     os_glob := os_glob sample_world;
     os_rglob := os_rglob sample_world;
     os_exec := os_exec sample_world |}.

(* ================================================================= *)
(** ** Prompts *)

(** An argument of a [Prompt] of [list_prompts]. *)
Record PromptArgument :=
  { argument_name : string; argument_description : string; argument_required : bool }.

Record Prompt :=
  { prompt_name : string; prompt_description : string;
    prompt_arguments : list PromptArgument }.

(** [list_prompts] *)
Definition list_prompts : list Prompt :=
  [ {| prompt_name := "analyze_security";
       prompt_description := "Analyze APK for potential security issues";
       prompt_arguments := [ Build_PromptArgument "apk_path" "Path to APK file" true ] |};
    {| prompt_name := "privacy_audit";
       prompt_description :=
         "Audit APK for privacy-related permissions and data collection";
       prompt_arguments := [ Build_PromptArgument "apk_path" "Path to APK file" true ] |};
    {| prompt_name := "reverse_engineer_guide";
       prompt_description := "Step-by-step guide for reverse engineering an APK";
       prompt_arguments :=
         [ Build_PromptArgument "apk_path" "Path to APK file" true;
           Build_PromptArgument "target_feature" "Specific feature to analyze" false ] |} ].

(** [arguments.get(key, default)] on a dict of strings. *)
Fixpoint get (arguments : list (string * string)) (key default : string) : string :=
  match arguments with
  | [] => default
  | (k, v) :: r => if k =? key then v else get r key default
  end.

(** The three prompt texts of [get_prompt]. *)
Definition analyze_security_text (apk_path : string) : string :=
  nl
  ++ "Please perform a comprehensive security analysis of the APK file: " ++ apk_path ++ nl
  ++ nl
  ++ "Steps to follow:" ++ nl
  ++ "1. Use decode_apk to decompile the APK" ++ nl
  ++ "2. Use analyze_manifest to examine permissions and components" ++ nl
  ++ "3. Use list_permissions to identify potentially dangerous permissions" ++ nl
  ++ "4. Use find_smali_references to search for:" ++ nl
  ++ "   - Crypto/encryption usage" ++ nl
  ++ "   - Network communications" ++ nl
  ++ "   - File I/O operations" ++ nl
  ++ "   - Sensitive API calls" ++ nl
  ++ "5. Look for hardcoded secrets, API keys, or credentials" ++ nl
  ++ "6. Analyze app components for potential vulnerabilities" ++ nl
  ++ nl
  ++ "Provide a detailed security assessment with:" ++ nl
  ++ "- Risk level (Low/Medium/High)" ++ nl
  ++ "- Identified vulnerabilities" ++ nl
  ++ "- Recommendations for mitigation" ++ nl.

Definition privacy_audit_text (apk_path : string) : string :=
  nl
  ++ "Conduct a privacy audit for the APK file: " ++ apk_path ++ nl
  ++ nl
  ++ "Analysis should include:" ++ nl
  ++ "1. Decompile the APK using decode_apk" ++ nl
  ++ "2. Extract and analyze all permissions with list_permissions" ++ nl
  ++ "3. Identify data collection patterns in smali code" ++ nl
  ++ "4. Check for third-party SDK integrations" ++ nl
  ++ "5. Examine network communications and endpoints" ++ nl
  ++ "6. Review privacy policy compliance indicators" ++ nl
  ++ nl
  ++ "Generate a privacy report covering:" ++ nl
  ++ "- Personal data types collected" ++ nl
  ++ "- Data sharing with third parties" ++ nl
  ++ "- User consent mechanisms" ++ nl
  ++ "- Compliance with privacy regulations (GDPR, CCPA)" ++ nl.

Definition reverse_engineer_guide_text (apk_path target_feature : string) : string :=
  nl
  ++ "Create a reverse engineering guide for APK: " ++ apk_path ++ nl
  ++ "Target analysis: " ++ target_feature ++ nl
  ++ nl
  ++ "Provide step-by-step instructions for:" ++ nl
  ++ "1. Initial APK decompilation and structure analysis" ++ nl
  ++ "2. Understanding the app architecture from AndroidManifest.xml" ++ nl
  ++ "3. Identifying key components and entry points" ++ nl
  ++ "4. Analyzing smali code for the target feature" ++ nl
  ++ "5. Resource analysis (strings, layouts, assets)" ++ nl
  ++ "6. Modification strategies if needed" ++ nl
  ++ "7. Recompilation and testing approaches" ++ nl
  ++ nl
  ++ "Include specific apktool commands and file locations to examine." ++ nl.

(** The variable [prompt_text] of [get_prompt]. *)
Definition prompt_text (name : string) (arguments : list (string * string)) : string :=
  if name =? "analyze_security" then
    analyze_security_text (get arguments "apk_path" EmptyString)
  else if name =? "privacy_audit" then
    privacy_audit_text (get arguments "apk_path" EmptyString)
  else if name =? "reverse_engineer_guide" then
    reverse_engineer_guide_text (get arguments "apk_path" EmptyString)
                                (get arguments "target_feature" "general functionality")
  else "Unknown prompt: " ++ name.

(** A message of a [GetPromptResult]: its role and its text content. *)
Record PromptMessage := { role : string; message_content : TextContent }.
Record GetPromptResult := { description : string; messages : list PromptMessage }.

(** [get_prompt] *)
Definition get_prompt (name : string) (arguments : list (string * string))
  : GetPromptResult :=
  {| description := "APK analysis prompt for " ++ name;
     messages := [ {| role := "user";
                      message_content := text_content (prompt_text name arguments) |} ] |}.

(** An optional string argument: [None] when it is left out. *)
Definition opt_value (o : option string) : value :=
  match o with Some s => VStr s | None => VNone end.

(** The arguments an optional string adds after its flag: none when it is
    left out or empty. *)
Definition opt_args (f : string) (o : option string) : list string :=
  match o with
  | Some s => if is_empty s then [] else [f; s]
  | None => []
  end.

(** The section of the result of [_extract_strings] for one file. *)
Definition strings_section (file : Path) (content : string) : string :=
  nl ++ "--- " ++ name file ++ " ---" ++ nl ++ content.

(** The glob pattern [_extract_strings] uses for a locale. *)
Definition strings_pattern (locale : string) : string :=
  if is_empty locale then "values*/strings.xml"
  else "values-" ++ locale ++ "/strings.xml".

(** The tools whose handlers only read files. *)
Definition reading_tools : list string :=
  ["analyze_manifest"; "extract_strings"; "list_permissions"; "find_smali_references"].

(** The first tool of [list_tools]. *)
Definition decode_tool : Tool :=
  {| tool_name := "decode_apk";
     properties := [ Build_Property "apk_path" "string" None;
                     Build_Property "output_dir" "string" None;
                     Build_Property "force" "boolean" (Some (VBool false));
                     Build_Property "no_res" "boolean" (Some (VBool false));
                     Build_Property "no_src" "boolean" (Some (VBool false)) ];
     required := ["apk_path"] |}.

(* ================================================================= *)
(** ** Facts about strings *)

Unset Implicit Arguments.

Section StringFacts.

Lemma append_nil_r (s : string) : s ++ EmptyString = s.
Proof. induction s as [|c s IH]; simpl; [reflexivity | now rewrite IH]. Qed.

Lemma append_assoc (a b c : string) : (a ++ b) ++ c = a ++ b ++ c.
Proof. induction a as [|x a IH]; simpl; [reflexivity | now rewrite IH]. Qed.

Lemma append_inv_head (a x y : string) : a ++ x = a ++ y -> x = y.
Proof.
  induction a as [|c a IH]; simpl; intros H; [exact H|].
  injection H as H. now apply IH.
Qed.

Lemma length_append (a b : string) :
  String.length (a ++ b) = String.length a + String.length b.
Proof. induction a as [|c a IH]; simpl; [reflexivity | now rewrite IH]. Qed.

Lemma is_empty_true (s : string) : is_empty s = true <-> s = EmptyString.
Proof. destruct s; simpl; split; intros H; try reflexivity; discriminate. Qed.

Lemma prefix_iff (p h : string) : prefix p h = true <-> exists b, h = p ++ b.
Proof.
  revert h; induction p as [|c p IH]; intros h.
  - split; [intros _; exists h; reflexivity | intros _; destruct h; reflexivity].
  - destruct h as [|d h]; cbn [prefix append].
    + split; [discriminate | intros [b Hb]; discriminate].
    + destruct (ascii_dec c d) as [->|Hne].
      * rewrite IH. split; intros [b Hb]; exists b.
        -- now rewrite Hb.
        -- now injection Hb.
      * split; [discriminate | intros [b Hb]; injection Hb as E _; congruence].
Qed.

(** [needle in hay] holds exactly when [hay] is [a ++ needle ++ b]. *)
Lemma in_str_iff (p h : string) :
  in_str p h = true <-> exists a b, h = a ++ p ++ b.
Proof.
  induction h as [|d h IH].
  - cbn [in_str]. rewrite orb_false_r, prefix_iff. split.
    + intros [b Hb]. exists EmptyString, b. exact Hb.
    + intros [a [b Hab]]. destruct a; [exists b; exact Hab | discriminate].
  - cbn [in_str]. rewrite orb_true_iff, prefix_iff, IH. split.
    + intros [[b Hb] | [a [b Hab]]].
      * exists EmptyString, b. exact Hb.
      * exists (String d a), b. simpl. now rewrite Hab.
    + intros [a [b Hab]]. destruct a as [|x a].
      * left. exists b. exact Hab.
      * right. exists a, b. simpl in Hab. now injection Hab.
Qed.

Lemma in_str_inside (p l a b : string) :
  in_str p l = true -> in_str p (a ++ l ++ b) = true.
Proof.
  rewrite !in_str_iff. intros [x [y ->]].
  exists (a ++ x), (y ++ b). now rewrite !append_assoc.
Qed.

Lemma lower_append (a b : string) : lower (a ++ b) = lower a ++ lower b.
Proof. induction a as [|c a IH]; simpl; [reflexivity | now rewrite IH]. Qed.

Lemma split_nonempty (c : ascii) (s : string) : split c s <> [].
Proof.
  induction s as [|a s IH]; simpl; [discriminate|].
  destruct (Ascii.eqb a c); [discriminate|].
  destruct (split c s); [contradiction | discriminate].
Qed.

(** The first piece of [s.split(c)] starts [s]. *)
Lemma split_head (c : ascii) (s h : string) (r : list string) :
  split c s = h :: r -> exists b, s = h ++ b.
Proof.
  revert h r; induction s as [|x s IH]; intros h r; simpl.
  - intros E; injection E as <- _. exists EmptyString. reflexivity.
  - destruct (Ascii.eqb x c).
    + intros E; injection E as <- _. exists (String x s). reflexivity.
    + destruct (split c s) as [|h' r'] eqn:E'; [now destruct (split_nonempty c s)|].
      intros E; injection E as <- _.
      destruct (IH _ _ eq_refl) as [b ->]. exists b. reflexivity.
Qed.

(** Every piece of [s.split(c)] lies inside [s]. *)
Lemma split_inside (c : ascii) (s l : string) :
  In l (split c s) -> exists a b, s = a ++ l ++ b.
Proof.
  revert l; induction s as [|x s IH]; intros l; simpl.
  - intros [<- | []]. exists EmptyString, EmptyString. reflexivity.
  - destruct (Ascii.eqb x c).
    + intros [<- | Hin].
      * exists EmptyString, (String x s). reflexivity.
      * destruct (IH _ Hin) as [a [b ->]]. exists (String x a), b. reflexivity.
    + destruct (split c s) as [|h r] eqn:E; [now destruct (split_nonempty c s)|].
      intros [<- | Hin].
      * destruct (split_head _ _ _ _ E) as [b ->].
        exists EmptyString, b. reflexivity.
      * destruct (IH _ (or_intror Hin)) as [a [b ->]]. exists (String x a), b. reflexivity.
Qed.

End StringFacts.

(* ================================================================= *)
(** ** The command runner *)

Section Runner.

Variable self : Server.
Variable w : World.

Lemma all_str_inl (l : list value) :
  forall i ss, all_str i l = inl ss -> map VStr ss = l.
Proof.
  induction l as [|v l IH]; intros i ss; simpl.
  - intros E; injection E as <-. reflexivity.
  - destruct v; try discriminate.
    destruct (all_str (S i) l) as [ss'|x] eqn:E'; [|discriminate].
    intros E; injection E as <-. simpl. f_equal. eapply IH; eassumption.
Qed.

Lemma all_str_map (ss : list string) : forall i, all_str i (map VStr ss) = inl ss.
Proof. induction ss as [|s ss IH]; intros i; simpl; [reflexivity | now rewrite IH]. Qed.

(** On a non-empty list of strings the runner asks for exactly that
    argument vector and turns the outcome into its result. *)
Lemma run_command_argv (argv : list string) (cwd : option Path) :
  argv <> [] ->
  _run_command self (map VStr argv) cwd w =
  (run_outcome argv (os_exec w argv (cwd_of self cwd)), [Exec argv (cwd_of self cwd)]).
Proof.
  intros Hne. unfold _run_command, try_except, create_subprocess_exec, join_, cwd_of.
  destruct argv as [|p args]; [congruence|].
  change (map VStr (p :: args)) with (VStr p :: map VStr args).
  cbv beta iota.
  replace (all_str 0 (VStr p :: map VStr args))
    with (@inl (list string) (nat * value) (p :: args))
    by (symmetry; apply (all_str_map (p :: args))).
  unfold bind, tell, ask, ret, raise. simpl.
  destruct (os_exec w (p :: args) _) as [e|rc out err]; simpl; [reflexivity|].
  destruct (rc =? 0)%Z; reflexivity.
Qed.

Lemma run_command_trace (cmd : list value) (cwd : option Path) :
  snd (_run_command self cmd cwd w) =
  match all_str 0 cmd with
  | inl (program :: args) => [Exec (program :: args) (cwd_of self cwd)]
  | _ => []
  end.
Proof.
  destruct (all_str 0 cmd) as [ss|[i v]] eqn:E.
  - apply all_str_inl in E. subst cmd. destruct ss as [|p args].
    + reflexivity.
    + rewrite run_command_argv by discriminate. reflexivity.
  - unfold _run_command, try_except, create_subprocess_exec, join_.
    destruct cmd as [|v0 cmd]; [discriminate|]. rewrite E.
    unfold bind, raise. simpl. reflexivity.
Qed.

End Runner.

(* ================================================================= *)
(** ** The handler monad and the traces of the handlers *)

Section Monad.
Variable w : World.
Lemma bind_ret_l {A B} (a : A) (k : A -> M B) : bind (ret a) k w = k a w.
Proof. unfold bind, ret. destruct (k a w). reflexivity. Qed.
Lemma bind_raise_l {A B} (e : exn) (k : A -> M B) : bind (raise e) k w = (Raise e, []).
Proof. reflexivity. Qed.
Lemma bind_ask {A B} (f : World -> A) (k : A -> M B) : bind (ask f) k w = k (f w) w.
Proof. unfold bind, ask. destruct (k (f w) w). reflexivity. Qed.
Lemma bind_lift {A B} (r : result A) (k : A -> M B) :
  bind (lift r) k w = match r with Ok a => k a w | Raise e => (Raise e, []) end.
Proof. unfold bind, lift. destruct r as [a|e]; [destruct (k a w)|]; reflexivity. Qed.
Lemma snd_bind_ret {A B} (m : M A) (f : A -> B) :
  snd ((x <- m ;; ret (f x)) w) = snd (m w).
Proof.
  unfold bind, ret. destruct (m w) as [[a|e] t]; simpl; [apply app_nil_r | reflexivity].
Qed.
Lemma snd_bind_Ok {A B} (m : M A) (k : A -> M B) (a : A) (t : list os_call) :
  m w = (Ok a, t) -> snd (bind m k w) = (t ++ snd (k a w))%list.
Proof. intros E. unfold bind. rewrite E. destruct (k a w). reflexivity. Qed.
Lemma bind_Raise {A B} (m : M A) (k : A -> M B) (e : exn) (t : list os_call) :
  m w = (Raise e, t) -> bind m k w = (Raise e, t).
Proof. intros E. unfold bind. rewrite E. reflexivity. Qed.
Lemma bind_pure {A B} (m : M A) (k : A -> M B) (r : result A) :
  m w = (r, []) -> bind m k w = match r with Ok a => k a w | Raise e => (Raise e, []) end.
Proof.
  intros E. unfold bind. rewrite E. destruct r as [a|e]; [|reflexivity].
  destruct (k a w). reflexivity.
Qed.

(** What [exists] and [is_dir] make of [stat]. *)
Lemma except_ignored_eq (e : exn) :
  except_ignored e w = (if absent e then Ok false else Raise e, []).
Proof.
  unfold except_ignored, absent, is_OSError, is_ValueError, _ignore_error.
  destruct e as [[] msg]; cbn [exn_type orb negb]; try reflexivity.
  destruct (existsb _ _); reflexivity.
Qed.

Lemma exists_eq (p : Path) :
  exists_ p w = (match os_stat w (to_str p) with
                 | Ok _ => Ok true
                 | Raise e => if absent e then Ok false else Raise e
                 end, []).
Proof.
  unfold exists_, try_except, bind, stat, ret.
  destruct (os_stat w (to_str p)) as [st|e]; [reflexivity|].
  rewrite except_ignored_eq. reflexivity.
Qed.

Lemma bind_exists {B} (p : Path) (k : bool -> M B) :
  bind (exists_ p) k w
  = match os_stat w (to_str p) with
    | Ok _ => k true w
    | Raise e => if absent e then k false w else (Raise e, [])
    end.
Proof.
  rewrite (bind_pure _ _ _ (exists_eq p)).
  destruct (os_stat w (to_str p)) as [st|e]; [reflexivity|].
  destruct (absent e); reflexivity.
Qed.

Lemma is_dir_eq (p : Path) :
  is_dir p w = (match os_stat w (to_str p) with
                | Ok st => Ok (st_is_dir st)
                | Raise e => if absent e then Ok false else Raise e
                end, []).
Proof.
  unfold is_dir, try_except, bind, stat, ret.
  destruct (os_stat w (to_str p)) as [st|e]; [reflexivity|].
  rewrite except_ignored_eq. reflexivity.
Qed.
End Monad.

(* ================================================================= *)
(** ** The dispatch boundary *)

Lemma dispatch_unknown (self : Server) (name : string) (arguments : list (string * value)) :
  ~ In name tool_names ->
  dispatch self name arguments = raise (Exn ValueError ("Unknown tool: " ++ name)).
Proof.
  intros Hn. unfold dispatch.
  repeat match goal with
  | |- context [if (name =? ?s) then _ else _] =>
      destruct (String.eqb_spec name s) as [->|_];
      [ exfalso; apply Hn; vm_compute; tauto | ]
  end.
  reflexivity.
Qed.

(** C2: a name that is none of the eight registered tools makes [dispatch]
    raise "Unknown tool" at once, whatever the arguments and the world, and
    [call_tool] returns the error result for it with no process request;
    for a registered tool, whatever the call of its handler raises comes
    back as the error result carrying the tool name and the message of the
    exception; [call_tool] always returns one text content. *)
Theorem dispatch_boundary (self : Server) (w : World) (name : string)
    (arguments : list (string * value)) :
  (~ In name tool_names ->
     dispatch self name arguments = raise (Exn ValueError ("Unknown tool: " ++ name))
     /\ call_tool self name arguments w = (error_result name ("Unknown tool: " ++ name), []))
  /\ (In name tool_names ->
      forall e t, dispatch self name arguments w = (Raise e, t) ->
                  call_tool self name arguments w = (error_result name (exn_msg e), t))
  /\ (exists s, content (fst (call_tool self name arguments w)) = [text_content s]).
Proof.
  split; [|split].
  - intros Hn. split; [now apply dispatch_unknown|].
    unfold call_tool. rewrite dispatch_unknown by assumption. reflexivity.
  - intros _ e t H. unfold call_tool. rewrite H. reflexivity.
  - unfold call_tool. destruct (dispatch self name arguments w) as [[r|e] t];
      eexists; reflexivity.
Qed.

Lemma dispatch_boundary_witness :
  call_tool sample_server "nope" [] sample_world
    = (error_result "nope" "Unknown tool: nope", [])
  /\ call_tool sample_server "build_apk" [("source_dir", VStr "/work/demo")] sample_world
    = (error_result "build_apk"
         (failed_message ["apktool"; "b"; "/work/demo"]
            (nonzero_detail ["apktool"; "b"; "/work/demo"] EmptyString)),
       [Exec ["apktool"; "b"; "/work/demo"] "/work"]).
Proof.
  split.
  - apply (proj1 (dispatch_boundary sample_server sample_world "nope" [])).
    vm_compute. intuition discriminate.
  - apply (proj1 (proj2 (dispatch_boundary sample_server sample_world "build_apk"
                           [("source_dir", VStr "/work/demo")]))
             ltac:(vm_compute; tauto)
             (Exn RuntimeError (failed_message ["apktool"; "b"; "/work/demo"]
                 (nonzero_detail ["apktool"; "b"; "/work/demo"] EmptyString)))).
    vm_compute. reflexivity.
Defined.

(* ================================================================= *)
(** ** Failures of the command runner *)

Lemma in_str_failed_argv (argv : list string) (detail : string) :
  in_str (join " " argv) (failed_message argv detail) = true.
Proof.
  apply in_str_iff. exists "Failed to execute command: ", (nl ++ "Error: " ++ detail).
  reflexivity.
Qed.

Lemma in_str_failed_stderr (argv : list string) (error : string) :
  in_str error (failed_message argv (nonzero_detail argv error)) = true.
Proof.
  apply in_str_iff.
  exists ("Failed to execute command: " ++ join " " argv ++ nl ++ "Error: "
          ++ "Command failed: " ++ join " " argv ++ nl ++ "Error: "), EmptyString.
  unfold failed_message, nonzero_detail.
  rewrite append_nil_r, !append_assoc. reflexivity.
Qed.

Lemma in_str_failed_detail (argv : list string) (detail : string) :
  in_str detail (failed_message argv detail) = true.
Proof.
  apply in_str_iff.
  exists ("Failed to execute command: " ++ join " " argv ++ nl ++ "Error: "), EmptyString.
  unfold failed_message. rewrite append_nil_r, !append_assoc. reflexivity.
Qed.

(** The text of an error of the operating system is no "Command failed"
    text. *)
Lemma os_raised_detail (e : exn) (argv : list string) (error : string) :
  os_raised e = true -> exn_msg e <> nonzero_detail argv error.
Proof.
  unfold os_raised, startswith. destruct (exn_type e); try discriminate.
  intros H E. apply prefix_iff in H. destruct H as [b H].
  rewrite H in E. discriminate E.
Qed.

(** C4, amended: a process that exits with a non-zero status makes
    [_run_command] fail with an error whose message carries the
    space-joined argument vector and the captured stderr; the captured
    stdout is not used.  A process that cannot be started makes it fail with
    an error whose message carries the vector and the text of the exception;
    when that is an error of the operating system, the failure differs from
    the failure the same vector has in any world where it exits with a
    non-zero status. *)
Theorem run_command_failures (self : Server) (w : World) (argv : list string)
    (cwd : option Path) :
  argv <> [] ->
  (forall rc output error,
      os_exec w argv (cwd_of self cwd) = Exited rc output error -> rc <> 0%Z ->
      let msg := failed_message argv (nonzero_detail argv error) in
      fst (_run_command self (map VStr argv) cwd w) = Raise (Exn RuntimeError msg)
      /\ in_str (join " " argv) msg = true /\ in_str error msg = true)
  /\ (forall e,
      os_exec w argv (cwd_of self cwd) = ExecRaised e ->
      let msg := failed_message argv (exn_msg e) in
      fst (_run_command self (map VStr argv) cwd w) = Raise (Exn RuntimeError msg)
      /\ in_str (join " " argv) msg = true /\ in_str (exn_msg e) msg = true
      /\ (os_raised e = true ->
          forall w' rc output error,
            os_exec w' argv (cwd_of self cwd) = Exited rc output error -> rc <> 0%Z ->
            fst (_run_command self (map VStr argv) cwd w')
            <> fst (_run_command self (map VStr argv) cwd w))).
Proof.
  intros Hne. split.
  - intros rc output error Hex Hrc msg. rewrite run_command_argv by assumption.
    rewrite Hex. cbn [fst run_outcome].
    destruct (Z.eqb_spec rc 0) as [->|_]; [congruence|].
    repeat split; [apply in_str_failed_argv | apply in_str_failed_stderr].
  - intros e Hex msg. rewrite !run_command_argv by assumption. rewrite Hex.
    cbn [fst run_outcome].
    split; [reflexivity|]. split; [apply in_str_failed_argv|].
    split; [apply in_str_failed_detail|].
    intros Hos w' rc output error Hex' Hrc. rewrite run_command_argv by assumption.
    rewrite Hex'. cbn [fst run_outcome].
    destruct (Z.eqb_spec rc 0) as [->|_]; [congruence|].
    intros E. injection E as E. unfold failed_message in E.
    repeat apply append_inv_head in E. injection E as E.
    symmetry in E. revert E. now apply os_raised_detail.
Qed.

(** C4 as stated fails: on exit status 1 with "boom" on stdout and an empty
    stderr, the message does not carry "boom". *)
Lemma run_command_drops_stdout :
  os_exec sample_world ["apktool"; "b"; "/work/demo"] "/work" = Exited 1 "boom" EmptyString
  /\ exists msg,
      fst (_run_command sample_server [VStr "apktool"; VStr "b"; VStr "/work/demo"] None
             sample_world) = Raise (Exn RuntimeError msg)
      /\ in_str "boom" msg = false.
Proof. split; [reflexivity|]. eexists. split; [vm_compute; reflexivity | vm_compute; reflexivity]. Qed.

Lemma run_command_failures_witness :
  fst (_run_command sample_server (map VStr ["apktool"; "b"; "/work/demo"]) None sample_world)
  = Raise (Exn RuntimeError
             (failed_message ["apktool"; "b"; "/work/demo"]
                (nonzero_detail ["apktool"; "b"; "/work/demo"] EmptyString)))
  /\ fst (_run_command sample_server (map VStr ["aapt"; "dump"]) None sample_world)
     = Raise (Exn RuntimeError
                ("Failed to execute command: aapt dump" ++ nl
                 ++ "Error: [Errno 2] No such file or directory: 'aapt'"))
  /\ forall w' rc output error,
       os_exec w' ["aapt"; "dump"] "/work" = Exited rc output error -> rc <> 0%Z ->
       fst (_run_command sample_server (map VStr ["aapt"; "dump"]) None w')
       <> fst (_run_command sample_server (map VStr ["aapt"; "dump"]) None sample_world).
Proof.
  split; [|split].
  - apply (proj1 (run_command_failures sample_server sample_world ["apktool"; "b"; "/work/demo"] None
                    ltac:(discriminate)) 1%Z "boom" EmptyString eq_refl ltac:(discriminate)).
  - apply (proj2 (run_command_failures sample_server sample_world ["aapt"; "dump"] None
                    ltac:(discriminate)) (enoent "aapt") eq_refl).
  - apply (proj2 (run_command_failures sample_server sample_world ["aapt"; "dump"] None
                    ltac:(discriminate)) (enoent "aapt") eq_refl).
    reflexivity.
Defined.

(* ================================================================= *)
(** ** Binding the arguments of a request *)

Section Binding.
Variable sig : signature.

Lemma is_bound_In (k : string) (l : list (string * value)) :
  is_bound k l = true <-> In k (map fst l).
Proof.
  unfold is_bound. induction l as [|[k' v] l IH]; simpl.
  - split; [discriminate | intros []].
  - destruct (String.eqb_spec k' k) as [->|Hne].
    + split; [now left | reflexivity].
    + rewrite IH. split; [now right | intros [E|H]; [congruence | exact H]].
Qed.

Lemma is_bound_false (k : string) (l : list (string * value)) :
  is_bound k l = false <-> ~ In k (map fst l).
Proof.
  rewrite <- is_bound_In. destruct (is_bound k l); split; congruence.
Qed.

Lemma bind_keywords_type (kwargs slots : list (string * value)) (e : exn) :
  bind_keywords sig slots kwargs = Raise e -> exn_type e = TypeError.
Proof.
  revert slots; induction kwargs as [|[k v] kwargs IH]; intros slots; simpl; [discriminate|].
  destruct (is_param sig k).
  - destruct ((k =? "self") || is_bound k slots).
    + intros E; injection E as <-. reflexivity.
    + apply IH.
  - intros E; injection E as <-. reflexivity.
Qed.

(** Binding the keywords binds nothing but the names of the keywords. *)
Lemma bind_keywords_unbound (f : string) (kwargs slots slots' : list (string * value)) :
  bind_keywords sig slots kwargs = Ok slots' ->
  ~ In f (map fst kwargs) -> is_bound f slots = false -> is_bound f slots' = false.
Proof.
  revert slots; induction kwargs as [|[k v] kwargs IH]; intros slots; simpl.
  - intros E; injection E as <-. auto.
  - destruct (is_param sig k); [|discriminate].
    destruct ((k =? "self") || is_bound k slots); [discriminate|].
    intros E Hn Hb. apply (IH _ E).
    + intros H. apply Hn. now right.
    + apply is_bound_false. simpl. intros [->|H].
      * apply Hn. now left.
      * apply is_bound_false in Hb. contradiction.
Qed.

Lemma missing_of_filter (slots : list (string * value)) :
  missing_of sig slots = filter (fun f => negb (is_bound f slots)) (required_params sig).
Proof.
  unfold missing_of, required_params.
  induction (params sig) as [|[n [d|]] ps IH]; simpl.
  - reflexivity.
  - exact IH.
  - destruct (is_bound n slots); simpl; [exact IH | now rewrite IH].
Qed.

(** A call that leaves a required parameter out raises a [TypeError] while
    the arguments are bound. *)
Lemma bind_args_missing (f : string) (kwargs : list (string * value)) :
  In f (required_params sig) -> ~ In f (map fst kwargs) ->
  exists e, bind_args sig kwargs = Raise e /\ exn_type e = TypeError.
Proof.
  intros Hreq Hn. unfold bind_args.
  destruct (bind_keywords sig [] kwargs) as [slots|e] eqn:E.
  - assert (Hb : is_bound f slots = false)
      by (eapply bind_keywords_unbound; eauto).
    destruct (missing_of sig slots) as [|m ms] eqn:Em.
    + exfalso. rewrite missing_of_filter in Em.
      assert (Hin : In f (filter (fun f => negb (is_bound f slots)) (required_params sig)))
        by (apply filter_In; split; [assumption | now rewrite Hb]).
      rewrite Em in Hin. destruct Hin.
    + eexists; split; reflexivity.
  - exists e. split; [reflexivity | eapply bind_keywords_type; eassumption].
Qed.

Lemma is_param_In (k : string) :
  In k (map fst (params sig)) -> is_param sig k = true.
Proof.
  intros H. unfold is_param. apply orb_true_iff. right.
  apply existsb_exists. exists k. split; [assumption | apply String.eqb_refl].
Qed.

(** Keywords that are distinct parameters are all bound. *)
Lemma bind_keywords_clean (kwargs slots : list (string * value)) :
  (forall k, In k (map fst kwargs) -> In k (map fst (params sig))) ->
  ~ In "self" (map fst (params sig)) ->
  NoDup (map fst kwargs) ->
  (forall k, In k (map fst kwargs) -> is_bound k slots = false) ->
  bind_keywords sig slots kwargs = Ok (rev kwargs ++ slots)%list.
Proof.
  intros Hpar Hself. revert slots.
  induction kwargs as [|[k v] kwargs IH]; intros slots Hnd Hfree; simpl.
  - reflexivity.
  - rewrite is_param_In by (apply Hpar; now left).
    destruct (String.eqb_spec k "self") as [->|_].
    { exfalso. apply Hself, Hpar. now left. }
    rewrite (Hfree k) by now left. simpl.
    inversion Hnd as [|? ? Hk Hnd']; subst.
    rewrite IH.
    + now rewrite <- app_assoc.
    + intros k' Hk'. apply Hpar. now right.
    + assumption.
    + intros k' Hk'. apply is_bound_false. simpl. intros [->|H].
      * contradiction.
      * specialize (Hfree k' (or_intror Hk')). apply is_bound_false in Hfree. contradiction.
Qed.

Lemma is_bound_rev (k : string) (l : list (string * value)) :
  is_bound k (rev l ++ [])%list = is_bound k l.
Proof.
  rewrite app_nil_r.
  destruct (is_bound k l) eqn:E.
  - apply is_bound_In. apply is_bound_In in E. rewrite map_rev. now apply -> in_rev.
  - apply is_bound_false. apply is_bound_false in E. rewrite map_rev.
    intros H. apply E. now apply in_rev.
Qed.

(** With distinct parameters as keywords, the call raises the "missing"
    [TypeError] for exactly the required parameters left out. *)
Lemma bind_args_clean_missing (f : string) (kwargs : list (string * value)) :
  (forall k, In k (map fst kwargs) -> In k (map fst (params sig))) ->
  ~ In "self" (map fst (params sig)) ->
  NoDup (map fst kwargs) ->
  In f (required_params sig) -> ~ In f (map fst kwargs) ->
  bind_args sig kwargs
  = Raise (Exn TypeError
             (missing_message sig
                (filter (fun f => negb (is_bound f kwargs)) (required_params sig)))).
Proof.
  intros Hpar Hself Hnd Hreq Hn. unfold bind_args.
  rewrite bind_keywords_clean by (auto; intros; reflexivity).
  rewrite missing_of_filter.
  rewrite (filter_ext _ (fun f => negb (is_bound f kwargs)))
    by (intros a; now rewrite is_bound_rev).
  destruct (filter _ _) as [|m ms] eqn:Em; [|reflexivity].
  exfalso.
  assert (Hin : In f (filter (fun f => negb (is_bound f kwargs)) (required_params sig))).
  { apply filter_In; split; [assumption|].
    apply negb_true_iff, is_bound_false. assumption. }
  rewrite Em in Hin. destruct Hin.
Qed.

End Binding.

Section MissingArgument.
Variable self : Server.
Variable w : World.

(** The schema of every tool agrees with the signature of its handler. *)
Lemma schema_signature (t : Tool) (sig : signature) :
  In t list_tools -> signature_of (tool_name t) = Some sig ->
  required t = required_params sig
  /\ map prop_name (properties t) = map fst (params sig)
  /\ ~ In "self" (map fst (params sig)).
Proof.
  intros Hin Hsig.
  repeat (destruct Hin as [<- | Hin];
          [ vm_compute in Hsig; injection Hsig as <-;
            repeat split; vm_compute; intuition discriminate | ]).
  destruct Hin.
Qed.

Lemma dispatch_bind_raise (name : string) (sig : signature)
    (arguments : list (string * value)) (e : exn) :
  signature_of name = Some sig -> bind_args sig arguments = Raise e ->
  dispatch self name arguments = raise e.
Proof.
  unfold signature_of, handler_signatures, dispatch. cbn [find fst snd].
  repeat match goal with
  | |- context [name =? ?s] =>
      destruct (String.eqb_spec name s) as [->|_];
      [ cbn [snd]; intros E Hb; injection E as <-; rewrite Hb; reflexivity | ]
  end.
  discriminate.
Qed.

(** C3, amended: for every registered tool and every request that leaves out
    a required argument, binding the arguments raises a [TypeError] before
    the handler body runs: [dispatch] is that [raise], whatever the world,
    and [call_tool] returns the error result with no process request.  When
    the names in the request are distinct properties of the tool, the
    message is the "missing ... required positional argument" one, naming
    exactly the required fields left out. *)
Theorem missing_argument_reported (t : Tool) (sig : signature)
    (arguments : list (string * value)) (field : string) :
  In t list_tools -> signature_of (tool_name t) = Some sig ->
  In field (required t) -> ~ In field (map fst arguments) ->
  (exists e, exn_type e = TypeError
             /\ dispatch self (tool_name t) arguments = raise e
             /\ call_tool self (tool_name t) arguments w
                = (error_result (tool_name t) (exn_msg e), []))
  /\ ((forall k, In k (map fst arguments) -> In k (map prop_name (properties t))) ->
      NoDup (map fst arguments) ->
      let missing := filter (fun f => negb (is_bound f arguments)) (required t) in
      In field missing
      /\ call_tool self (tool_name t) arguments w
         = (error_result (tool_name t) (missing_message sig missing), [])).
Proof.
  intros Hin Hsig Hreq Hn.
  destruct (schema_signature t sig Hin Hsig) as [Hr [Hp Hself]].
  split.
  - destruct (bind_args_missing sig field arguments) as [e [He Ht]];
      [now rewrite <- Hr | assumption |].
    exists e. split; [assumption|]. split.
    + eapply dispatch_bind_raise; eassumption.
    + unfold call_tool. erewrite dispatch_bind_raise by eassumption. reflexivity.
  - intros Hkeys Hnd missing. split.
    + apply filter_In. split; [assumption|].
      apply negb_true_iff, is_bound_false. assumption.
    + unfold call_tool, missing.
      erewrite dispatch_bind_raise; [| eassumption |].
      2:{ apply (bind_args_clean_missing sig field); auto.
          - intros k Hk. rewrite <- Hp. auto.
          - now rewrite <- Hr. }
      rewrite Hr. reflexivity.
Qed.

End MissingArgument.

(** C3 as stated fails: a request without [apk_path] but with a name that is
    no parameter is refused for that name, and the text does not mention
    [apk_path]. *)
Lemma unexpected_keyword_hides_missing :
  ~ In "apk_path" (map fst [("bogus", VStr "x")])
  /\ fst (call_tool sample_server "decode_apk" [("bogus", VStr "x")] sample_world)
     = error_result "decode_apk"
         "ApktoolMCPServer._decode_apk() got an unexpected keyword argument 'bogus'"
  /\ ~ names_field "apk_path"
         (fst (call_tool sample_server "decode_apk" [("bogus", VStr "x")] sample_world)).
Proof.
  split; [simpl; intuition discriminate|]. split; [reflexivity|].
  intros [_ [msg [Hc Hm]]]. vm_compute in Hc. injection Hc as <-.
  vm_compute in Hm. discriminate.
Qed.

Lemma missing_argument_reported_witness :
  call_tool sample_server "find_smali_references" [("case_sensitive", VBool false)] sample_world
  = (error_result "find_smali_references"
       "ApktoolMCPServer._find_smali_references() missing 2 required positional arguments: 'apk_dir' and 'pattern'",
     []).
Proof.
  pose (t := {| tool_name := "find_smali_references";
       properties := [ Build_Property "apk_dir" "string" None;
                       Build_Property "pattern" "string" None;
                       Build_Property "case_sensitive" "boolean" (Some (VBool true)) ];
       required := ["apk_dir"; "pattern"] |}).
  assert (Ht : In t list_tools) by (vm_compute; tauto).
  assert (Hf : In "pattern" (required t)) by (vm_compute; tauto).
  assert (Hn : ~ In "pattern" (map fst [("case_sensitive", VBool false)]))
    by (simpl; intuition discriminate).
  assert (Hk : forall k, In k (map fst [("case_sensitive", VBool false)]) ->
                         In k (map prop_name (properties t)))
    by (intros k [<-|[]]; vm_compute; tauto).
  assert (Hd : NoDup (map fst [("case_sensitive", VBool false)]))
    by (repeat constructor; simpl; tauto).
  exact (proj2 (proj2 (missing_argument_reported sample_server sample_world t
                         sig_find_smali_references [("case_sensitive", VBool false)]
                         "pattern" Ht eq_refl Hf Hn) Hk Hd)).
Defined.

(* ================================================================= *)
(** ** Paths and the handlers that run a command *)

Section PathFacts.

Lemma split_no_sep (c : ascii) (s x : string) :
  In x (split c s) -> has_char c x = false.
Proof.
  revert x; induction s as [|a s IH]; intros x; simpl.
  - intros [<-|[]]. reflexivity.
  - destruct (Ascii.eqb a c) eqn:E.
    + intros [<-|H]; [reflexivity | now apply IH].
    + destruct (split c s) as [|h r] eqn:Es; [now destruct (split_nonempty c s)|].
      intros [<-|H].
      * simpl. rewrite E. apply IH. now left.
      * apply IH. now right.
Qed.

Lemma split_plain (c : ascii) (s : string) :
  has_char c s = false -> split c s = [s].
Proof.
  induction s as [|a s IH]; simpl; [reflexivity|].
  intros H. apply orb_false_iff in H. destruct H as [E H].
  rewrite E, (IH H). reflexivity.
Qed.


(** The parts of a parsed path hold no separator and are neither empty nor ".". *)
Lemma parse_segs (s x : string) :
  In x (segs (parse s)) -> has_char slash x = false /\ keep_part x = true.
Proof.
  unfold parse. destruct (splitroot s) as [r rel]. cbn [segs].
  intros H. apply filter_In in H. destruct H as [H K].
  split; [eapply split_no_sep; eassumption | assumption].
Qed.




(** [Path(s)] for a plain name is the one part [s]. *)
Lemma parse_plain (s : string) :
  has_char slash s = false -> s <> EmptyString -> s <> "." ->
  parse s = mkPath EmptyString [s].
Proof.
  intros H Hne Hdot. unfold parse, splitroot, startswith.
  destruct s as [|a s]; [congruence|].
  simpl in H. apply orb_false_iff in H. destruct H as [E H].
  destruct (prefix "/" (String a s)) eqn:Hp.
  { apply prefix_iff in Hp. destruct Hp as [b Hb]. injection Hb as -> _. discriminate E. }
  rewrite split_plain by (cbn [has_char]; now rewrite E, H).
  cbn [filter]. unfold keep_part. cbn [is_empty negb andb].
  destruct (String.eqb_spec (String a s) "."); [congruence|]. reflexivity.
Qed.

Lemma truediv_plain (p : Path) (s : string) :
  has_char slash s = false -> s <> EmptyString -> s <> "." ->
  truediv p s = below p [s].
Proof. intros. unfold truediv. rewrite parse_plain by assumption. reflexivity. Qed.

Lemma join_snoc (sep : string) (l : list string) (s : string) :
  l <> [] -> join sep (l ++ [s]) = join sep l ++ sep ++ s.
Proof.
  induction l as [|a l IH]; [congruence|]. intros _.
  destruct l as [|b l].
  - simpl. reflexivity.
  - change (join sep ((a :: b :: l) ++ [s])) with (a ++ sep ++ join sep ((b :: l) ++ [s])).
    rewrite IH by discriminate.
    change (join sep (a :: b :: l)) with (a ++ sep ++ join sep (b :: l)).
    now rewrite !append_assoc.
Qed.

Lemma is_empty_append (a b : string) : is_empty (a ++ b) = is_empty a && is_empty b.
Proof. destruct a; reflexivity. Qed.

Lemma join_nonempty (sep : string) (l : list string) :
  l <> [] -> (forall x, In x l -> is_empty x = false) -> is_empty (join sep l) = false.
Proof.
  destruct l as [|a l]; [congruence|]. intros _ H.
  destruct l as [|b l]; simpl.
  - apply H. now left.
  - rewrite is_empty_append, (H a) by now left. reflexivity.
Qed.

(** Below a path with parts, [str] puts the separator and the name. *)
Lemma to_str_below (wd : string) (s : string) :
  segs (parse wd) <> [] ->
  to_str (below (parse wd) [s]) = to_str (parse wd) ++ "/" ++ s.
Proof.
  intros Hne. unfold to_str, below. cbn [root segs].
  rewrite join_snoc by assumption.
  assert (Hj : is_empty (join "/" (segs (parse wd))) = false).
  { apply join_nonempty; [assumption|]. intros x Hx.
    destruct (parse_segs wd x Hx) as [_ K]. unfold keep_part in K.
    apply andb_true_iff in K. destruct K as [K _]. now apply negb_true_iff in K. }
  rewrite !is_empty_append, Hj, !andb_false_r.
  now rewrite !append_assoc.
Qed.

End PathFacts.

Ltac eval_dispatch :=
  unfold dispatch;
  repeat match goal with
  | |- context [if (?a =? ?b) then _ else _] =>
      let r := eval vm_compute in (a =? b) in
      change (a =? b) with r; cbv iota
  end;
  rewrite bind_lift;
  match goal with
  | |- context [bind_args ?sg ?args] =>
      let r := eval cbv in (bind_args sg args) in
      change (bind_args sg args) with r; cbv iota
  end;
  cbv [arg lookup String.eqb Ascii.eqb Bool.eqb].

Section CommandHandlers.
Variable self : Server.
Variable w : World.

Lemma decode_cmd_argv (apk_file : Path) (force no_res no_src : value) (output_path : Path) :
  decode_cmd self apk_file force no_res no_src output_path
  = map VStr (decode_argv self apk_file force no_res no_src output_path).
Proof.
  unfold decode_cmd, decode_argv, flag, flag_str.
  destruct (truthy force), (truthy no_res), (truthy no_src); reflexivity.
Qed.

Lemma decode_apk_eq (p : string) (output_dir force no_res no_src : value) :
  _decode_apk self (VStr p) output_dir force no_res no_src w =
  match os_stat w (to_str (parse p)) with
  | Raise e =>
      (Raise (if absent e then Exn FileNotFoundError ("APK file not found: " ++ p) else e), [])
  | Ok _ =>
      match decode_output_dir (parse p) output_dir with
      | VStr d =>
          let output_path := truediv (work_dir self) d in
          let argv := decode_argv self (parse p) force no_res no_src output_path in
          (match run_outcome argv (os_exec w argv (to_str (work_dir self))) with
           | Ok result => Ok ("Successfully decompiled APK to: " ++ to_str output_path
                              ++ nl ++ nl ++ "Output:" ++ nl ++ result)
           | Raise e => Raise e
           end, [Exec argv (to_str (work_dir self))])
      | v => (Raise (Exn TypeError ("unsupported operand type(s) for /: 'PosixPath' and '"
                                     ++ type_name v ++ "'")), [])
      end
  end.
Proof.
  unfold _decode_apk, Path_, truediv_, decode_output_dir.
  rewrite bind_ret_l, bind_exists.
  destruct (os_stat w (to_str (parse p))) as [st|e]; cbn [negb];
    [|destruct (absent e); reflexivity].
  destruct (if negb (truthy output_dir) then VStr (stem (parse p)) else output_dir) as [| b | d];
    try reflexivity.
  rewrite bind_ret_l, decode_cmd_argv. unfold bind.
  rewrite run_command_argv by (unfold decode_argv; discriminate).
  unfold cwd_of.
  destruct (run_outcome _ _); unfold ret; simpl; reflexivity.
Qed.






End CommandHandlers.

Section Smali.
Variable self : Server.
Variable w : World.

Lemma name_below (p : Path) (n : string) : name (below p [n]) = n.
Proof.
  unfold name, below. cbn [segs]. induction (segs p) as [|a l IH]; [reflexivity|].
  simpl. destruct (l ++ [n])%list eqn:E; [now destruct l | exact IH].
Qed.

Lemma filter_none {A} (f : A -> bool) (l : list A) :
  (forall x, In x l -> f x = false) -> filter f l = [].
Proof.
  induction l as [|a l IH]; intros H; [reflexivity|]. simpl.
  rewrite (H a) by now left. apply IH. intros x Hx. apply H. now right.
Qed.

Lemma smali_dirs_of_trace (items : list Path) : snd (smali_dirs_of items w) = [].
Proof.
  induction items as [|item items IH]; [reflexivity|].
  cbn [smali_dirs_of]. rewrite (bind_pure w _ _ _ (is_dir_eq w item)).
  destruct (os_stat w (to_str item)) as [st|e]; [|destruct (absent e)]; try reflexivity;
    unfold bind, ret; destruct (smali_dirs_of items w) as [[more|e'] t];
    cbn [snd] in *; subst; reflexivity.
Qed.

(** The first loop, when every entry can be examined. *)
Lemma smali_dirs_of_eq (p : Path) (names : list string) :
  (forall n, In n names -> can_examine w (below p [n]) = true) ->
  smali_dirs_of (map (fun n => below p [n]) names) w
  = (Ok (map (fun n => below p [n]) (smali_names w p names)), []).
Proof.
  induction names as [|n names IH]; intros Hex; [reflexivity|].
  cbn [map smali_dirs_of]. rewrite (bind_pure w _ _ _ (is_dir_eq w (below p [n]))).
  pose proof (Hex n (or_introl eq_refl)) as Hn. unfold can_examine in Hn.
  assert (Hd : match os_stat w (to_str (below p [n])) with
               | Ok st => Ok (st_is_dir st)
               | Raise e => if absent e then Ok false else Raise e
               end = Ok (is_directory w (below p [n]))).
  { unfold is_directory. destruct (os_stat w (to_str (below p [n]))); [reflexivity|].
    now rewrite Hn. }
  rewrite Hd. rewrite (bind_pure w _ _ _ (IH (fun m Hm => Hex m (or_intror Hm)))).
  unfold ret. rewrite name_below. unfold smali_names. cbn [filter].
  destruct (is_directory w (below p [n]) && startswith n "smali"); reflexivity.
Qed.

(** The first loop, when an entry cannot be examined: the error of the
    first such entry. *)
Lemma smali_dirs_of_raise (p : Path) (pre post : list string) (n : string) (e : exn) :
  (forall m, In m pre -> can_examine w (below p [m]) = true) ->
  os_stat w (to_str (below p [n])) = Raise e -> absent e = false ->
  smali_dirs_of (map (fun n => below p [n]) (pre ++ n :: post)) w = (Raise e, []).
Proof.
  intros Hpre He Ha. induction pre as [|m pre IH].
  - cbn [app map smali_dirs_of]. rewrite (bind_pure w _ _ _ (is_dir_eq w (below p [n]))).
    now rewrite He, Ha.
  - cbn [app map smali_dirs_of]. rewrite (bind_pure w _ _ _ (is_dir_eq w (below p [m]))).
    pose proof (Hpre m (or_introl eq_refl)) as Hm. unfold can_examine in Hm.
    assert (Hd : exists d, match os_stat w (to_str (below p [m])) with
                           | Ok st => Ok (st_is_dir st)
                           | Raise e => if absent e then Ok false else Raise e
                           end = Ok d).
    { destruct (os_stat w (to_str (below p [m]))); [eexists; reflexivity|].
      rewrite Hm. eexists; reflexivity. }
    destruct Hd as [d ->].
    now rewrite (bind_pure w _ _ _ (IH (fun x Hx => Hpre x (or_intror Hx)))).
Qed.

Lemma search_smali_trace (apk_path : Path) (sp cs : value) (dirs : list Path) :
  snd (search_smali apk_path sp cs dirs w) = [].
Proof.
  induction dirs as [|d dirs IH]; [reflexivity|].
  cbn [search_smali]. unfold rglob, bind at 1.
  destruct (os_rglob w (to_str d) "*.smali") as [rels|e]; [|reflexivity].
  rewrite bind_ask. unfold bind, ret.
  destruct (search_smali apk_path sp cs dirs w) as [[more|e'] t];
    cbn [snd] in *; subst; reflexivity.
Qed.

(** The second loop, when [rglob] raises on none of the directories. *)
Lemma search_smali_eq (apk_path : Path) (sp cs : value) (dirs : list Path) :
  (forall d, In d dirs -> exists rels, os_rglob w (to_str d) "*.smali" = Ok rels) ->
  search_smali apk_path sp cs dirs w
  = (Ok (flat_map (fun smali_dir =>
                     flat_map (fun smali_file => file_matches w apk_path smali_file sp cs)
                              (map (below smali_dir) (smali_files w smali_dir)))
                  dirs), []).
Proof.
  induction dirs as [|d dirs IH]; intros Hg; [reflexivity|].
  cbn [search_smali flat_map]. unfold rglob, bind at 1, smali_files at 1.
  destruct (Hg d (or_introl eq_refl)) as [rels ->].
  rewrite bind_ask. rewrite (bind_pure w _ _ _ (IH (fun x Hx => Hg x (or_intror Hx)))).
  reflexivity.
Qed.

(** [_find_smali_references] after the listing. *)
Lemma find_smali_references_eq (p : string) (pattern case_sensitive : value) :
  _find_smali_references self (VStr p) pattern case_sensitive w =
  match os_listdir w (to_str (parse p)) with
  | Raise e => (Raise e, [])
  | Ok names =>
      (smali_dirs <- smali_dirs_of (map (fun n => below (parse p) [n]) names) ;;
       match smali_dirs with
       | [] => ret "No smali directories found"
       | _ =>
           search_pattern <-
             (if truthy case_sensitive then ret pattern
              else match pattern with
                   | VStr s => ret (VStr (lower s))
                   | _ => raise (Exn AttributeError
                            ("'" ++ type_name pattern ++ "' object has no attribute 'lower'"))
                   end) ;;
           matches <- search_smali (parse p) search_pattern case_sensitive smali_dirs ;;
           match matches with
           | [] => ret ("Pattern '" ++ pystr pattern ++ "' not found in smali code")
           | _ => ret ("Found " ++ str_nat (List.length matches) ++ " matches for '"
                       ++ pystr pattern ++ "':" ++ nl ++ nl ++ join nl (firstn 50 matches))
           end
       end) w
  end.
Proof.
  unfold _find_smali_references, Path_, iterdir.
  rewrite bind_ret_l.
  match goal with |- bind ?m ?k w = _ =>
    rewrite (bind_pure w m k
               (match os_listdir w (to_str (parse p)) with
                | Ok names => Ok (map (fun n => below (parse p) [n]) names)
                | Raise e => Raise e
                end) eq_refl)
  end.
  destruct (os_listdir w (to_str (parse p))); reflexivity.
Qed.

Lemma dispatch_find_smali_references (a p c : value) :
  dispatch self "find_smali_references"
    [("apk_dir", a); ("pattern", p); ("case_sensitive", c)] w
  = _find_smali_references self a p c w.
Proof. eval_dispatch. reflexivity. Qed.


End Smali.




(* ================================================================= *)
(** ** The manifest scan *)

Section StripFacts.

Lemma prefix_nil (s : string) : prefix EmptyString s = true.
Proof. destruct s; reflexivity. Qed.

Lemma prefix_cons (c a : ascii) (n t : string) :
  prefix (String c n) (String a t) = Ascii.eqb c a && prefix n t.
Proof.
  cbn [prefix]. destruct (ascii_dec c a) as [->|Hne].
  - now rewrite Ascii.eqb_refl.
  - apply Ascii.eqb_neq in Hne. now rewrite Hne.
Qed.

Lemma prefix_of_nil (n : string) : prefix n EmptyString = is_empty n.
Proof. destruct n; reflexivity. Qed.

Lemma in_str_lstrip (n s : string) :
  starts_nonspace n = true -> in_str n (lstrip s) = in_str n s.
Proof.
  intros Hn. induction s as [|a t IH]; [reflexivity|].
  cbn [lstrip]. destruct (isspace a) eqn:Ea; [|reflexivity].
  rewrite IH. cbn [in_str].
  destruct n as [|c n]; [discriminate|]. rewrite prefix_cons.
  destruct (Ascii.eqb_spec c a) as [->|_]; [|reflexivity].
  simpl in Hn. rewrite Ea in Hn. discriminate.
Qed.

Lemma ends_nonspace_cons (c : ascii) (n : string) :
  ends_nonspace (String c n) = true ->
  (n = EmptyString /\ isspace c = false) \/ ends_nonspace n = true.
Proof.
  destruct n as [|d n]; simpl.
  - intros H. left. split; [reflexivity | now apply negb_true_iff].
  - intros H. right. exact H.
Qed.

Lemma prefix_rstrip (t : string) :
  forall n, n = EmptyString \/ ends_nonspace n = true ->
            prefix n (rstrip t) = prefix n t.
Proof.
  induction t as [|a t IH]; intros n Hn; [reflexivity|].
  destruct n as [|c n]; [now rewrite !prefix_nil|].
  destruct Hn as [Hn|Hn]; [discriminate|].
  rewrite prefix_cons. cbn [rstrip].
  destruct (ends_nonspace_cons _ _ Hn) as [[-> Hc] | Hn'].
  - rewrite prefix_nil, andb_true_r.
    destruct (rstrip t) as [|r0 r].
    + destruct (isspace a) eqn:Ea.
      * destruct (Ascii.eqb_spec c a) as [->|_]; [congruence | reflexivity].
      * now rewrite prefix_cons, prefix_nil, andb_true_r.
    + now rewrite prefix_cons, prefix_nil, andb_true_r.
  - specialize (IH n (or_intror Hn')).
    destruct (rstrip t) as [|r0 r] eqn:Er.
    + rewrite <- IH, prefix_of_nil.
      destruct n as [|d n]; [discriminate|]. cbn [is_empty]. rewrite andb_false_r.
      destruct (isspace a); [reflexivity|].
      now rewrite prefix_cons, prefix_of_nil, andb_false_r.
    + now rewrite prefix_cons, IH.
Qed.

Lemma ends_nonspace_nonempty (n : string) : ends_nonspace n = true -> is_empty n = false.
Proof. destruct n; [discriminate | reflexivity]. Qed.

Lemma in_str_rstrip (n s : string) :
  ends_nonspace n = true -> in_str n (rstrip s) = in_str n s.
Proof.
  intros Hn. induction s as [|a t IH]; [reflexivity|].
  cbn [in_str]. rewrite <- IH, <- (prefix_rstrip (String a t) n (or_intror Hn)).
  cbn [rstrip]. destruct (rstrip t) as [|r0 r] eqn:Er.
  - destruct (isspace a); cbn [in_str];
      rewrite ?orb_false_r, ?prefix_of_nil, ?(ends_nonspace_nonempty n Hn); reflexivity.
  - reflexivity.
Qed.

Lemma in_str_strip (n s : string) :
  starts_nonspace n = true -> ends_nonspace n = true ->
  in_str n (strip s) = in_str n s.
Proof.
  intros Hs He. unfold strip. now rewrite in_str_rstrip, in_str_lstrip.
Qed.

Lemma isspace_lower_char (c : ascii) : isspace (lower_char c) = isspace c.
Proof.
  destruct c as [[] [] [] [] [] [] [] []]; reflexivity.
Qed.

Lemma lower_lstrip (s : string) : lower (lstrip s) = lstrip (lower s).
Proof.
  induction s as [|a t IH]; [reflexivity|].
  cbn [lstrip lower]. rewrite isspace_lower_char.
  destruct (isspace a); [exact IH | reflexivity].
Qed.

Lemma lower_rstrip (s : string) : lower (rstrip s) = rstrip (lower s).
Proof.
  induction s as [|a t IH]; [reflexivity|].
  cbn [rstrip lower]. rewrite <- IH, isspace_lower_char.
  destruct (rstrip t); [destruct (isspace a)|]; reflexivity.
Qed.

Lemma lower_strip (s : string) : lower (strip s) = strip (lower s).
Proof. unfold strip. now rewrite lower_rstrip, lower_lstrip. Qed.

End StripFacts.

Section Manifest.

(** The tests of [classify] see the same markers in the stripped line as in
    the line itself. *)
Lemma classify_raw (line : string) :
  classify line =
  if in_str "package=" line then Some ("Package: " ++ strip line)
  else if in_str "android:name=" line && in_str "activity" (lower line)
  then Some ("Activity: " ++ strip line)
  else if in_str "android:name=" line && in_str "service" (lower line)
  then Some ("Service: " ++ strip line)
  else if in_str "android:name=" line && in_str "receiver" (lower line)
  then Some ("Receiver: " ++ strip line)
  else if in_str "uses-permission" line then Some ("Permission: " ++ strip line)
  else None.
Proof.
  unfold classify.
  rewrite !lower_strip, !in_str_strip by reflexivity. reflexivity.
Qed.

Lemma analysis_of_In (content line entry : string) :
  In line (split newline content) -> classify line = Some entry ->
  In entry (analysis_of content).
Proof.
  intros Hl Hc. unfold analysis_of. apply in_flat_map.
  exists line. split; [assumption|]. rewrite Hc. now left.
Qed.

Lemma analyze_manifest_eq (self : Server) (w : World) (p : string) :
  _analyze_manifest self (VStr p) w =
  match os_stat w (to_str (truediv (parse p) "AndroidManifest.xml")) with
  | Raise e =>
      (Raise (if absent e
              then Exn FileNotFoundError ("AndroidManifest.xml not found in: " ++ p)
              else e), [])
  | Ok _ =>
      match os_read_text w (to_str (truediv (parse p) "AndroidManifest.xml")) with
      | Raise e => (Raise e, [])
      | Ok content =>
          (Ok ("AndroidManifest.xml Analysis:" ++ nl ++ nl
               ++ match analysis_of content with
                  | [] => "No key elements found"
                  | _ => join nl (analysis_of content)
                  end
               ++ nl ++ nl ++ "Full content:" ++ nl ++ content), [])
      end
  end.
Proof.
  unfold _analyze_manifest, Path_, read_text.
  rewrite bind_ret_l, bind_exists.
  destruct (os_stat w _) as [st|e]; cbn [negb]; [|destruct (absent e); reflexivity].
  unfold bind. destruct (os_read_text w _); reflexivity.
Qed.

(** The entry of a line is the one of its first category. *)
Lemma classify_first_category (line : string) :
  classify line
  = option_map (fun category => category ++ ": " ++ strip line) (first_category line).
Proof.
  rewrite classify_raw. unfold first_category, category_tests. cbn [find snd fst].
  destruct (in_str "package=" line); [reflexivity|].
  destruct (in_str "android:name=" line && in_str "activity" (lower line)); [reflexivity|].
  destruct (in_str "android:name=" line && in_str "service" (lower line)); [reflexivity|].
  destruct (in_str "android:name=" line && in_str "receiver" (lower line)); [reflexivity|].
  destruct (in_str "uses-permission" line); reflexivity.
Qed.

Lemma analysis_by_category (content : string) :
  analysis_of content = entries_by_category content.
Proof.
  unfold analysis_of, entries_by_category. apply flat_map_ext. intros line.
  rewrite classify_first_category. destruct (first_category line); reflexivity.
Qed.

(** C6, amended: [_analyze_manifest] reports each line at most once: its
    entries are, in the order of the lines, one entry for every line that
    has a category, under the first category whose markers the line
    contains when they are tested in the order package, activity, service,
    receiver, permission.  "package=" gives a Package entry; without it,
    "android:name=" with "activity", else "service", else "receiver" in the
    lower-cased line gives that entry; a "uses-permission" line is a
    Permission entry when, and only when, none of the earlier tests holds.
    Every entry carries the stripped line.  The manifest of the two sample
    lines gives one Permission and one Activity entry, and the handler
    returns the entries joined by newlines before the full content. *)
Theorem manifest_categories (content line : string) :
  analysis_of content = entries_by_category content
  /\ (first_category line = Some "Permission" <->
      in_str "uses-permission" line = true
      /\ in_str "package=" line = false
      /\ (in_str "android:name=" line = false
          \/ (in_str "activity" (lower line) = false
              /\ in_str "service" (lower line) = false
              /\ in_str "receiver" (lower line) = false)))
  /\ (In line (split newline content) ->
      let reported category := In (category ++ ": " ++ strip line) (analysis_of content) in
      (in_str "package=" line = true -> reported "Package")
      /\ (in_str "package=" line = false -> in_str "android:name=" line = true ->
          (in_str "activity" (lower line) = true -> reported "Activity")
          /\ (in_str "activity" (lower line) = false ->
              in_str "service" (lower line) = true -> reported "Service")
          /\ (in_str "activity" (lower line) = false ->
              in_str "service" (lower line) = false ->
              in_str "receiver" (lower line) = true -> reported "Receiver"))
      /\ (in_str "package=" line = false ->
          in_str "android:name=" line = false
          \/ (in_str "activity" (lower line) = false
              /\ in_str "service" (lower line) = false
              /\ in_str "receiver" (lower line) = false) ->
          in_str "uses-permission" line = true -> reported "Permission"))
  /\ analysis_of sample_manifest
     = [ "Permission: <uses-permission android:name=" ++ dquote ++ "X" ++ dquote ++ "/>";
         "Activity: <activity android:name=" ++ dquote ++ ".Main" ++ dquote ++ "/>" ]
  /\ forall self w p st,
       os_stat w (to_str (truediv (parse p) "AndroidManifest.xml")) = Ok st ->
       os_read_text w (to_str (truediv (parse p) "AndroidManifest.xml")) = Ok content ->
       analysis_of content <> [] ->
       fst (_analyze_manifest self (VStr p) w)
       = Ok ("AndroidManifest.xml Analysis:" ++ nl ++ nl ++ join nl (analysis_of content)
             ++ nl ++ nl ++ "Full content:" ++ nl ++ content).
Proof.
  split; [apply analysis_by_category|]. split; [|split; [|split]].
  - unfold first_category, category_tests. cbn [find snd fst].
    destruct (in_str "package=" line); [split; [discriminate | intros [_ [H _]]; discriminate]|].
    destruct (in_str "android:name=" line); cbn [andb].
    + destruct (in_str "activity" (lower line));
        [split; [discriminate | intros [_ [_ [H | [H _]]]]; discriminate]|].
      destruct (in_str "service" (lower line));
        [split; [discriminate | intros [_ [_ [H | [_ [H _]]]]]; discriminate]|].
      destruct (in_str "receiver" (lower line));
        [split; [discriminate | intros [_ [_ [H | [_ [_ H]]]]]; discriminate]|].
      destruct (in_str "uses-permission" line); cbn [option_map fst];
        [tauto | split; [discriminate | intros [H _]; discriminate]].
    + destruct (in_str "uses-permission" line); cbn [option_map fst];
        [tauto | split; [discriminate | intros [H _]; discriminate]].
  - intros Hl reported. unfold reported.
    repeat split.
    + intros H. apply (analysis_of_In content line); [assumption|].
      rewrite classify_raw, H. reflexivity.
    + intros H3. apply (analysis_of_In content line); [assumption|].
      rewrite classify_raw, H, H0, H3. reflexivity.
    + intros H3 H4. apply (analysis_of_In content line); [assumption|].
      rewrite classify_raw, H, H0, H3, H4. reflexivity.
    + intros H3 H4 H5. apply (analysis_of_In content line); [assumption|].
      rewrite classify_raw, H, H0, H3, H4, H5. reflexivity.
    + intros Hp Hn Hu. apply (analysis_of_In content line); [assumption|].
      rewrite classify_raw, Hp, Hu.
      destruct Hn as [Hn | [Ha [Hs Hr]]].
      * rewrite Hn. reflexivity.
      * rewrite Ha, Hs, Hr, !andb_false_r. reflexivity.
  - reflexivity.
  - intros self w p st Hst Hrd Hne. rewrite analyze_manifest_eq, Hst, Hrd.
    destruct (analysis_of content); [congruence | reflexivity].
Qed.

End Manifest.

(** C6 as stated fails: a "uses-permission" line whose permission name holds
    "SERVICE" is reported as a Service entry, not as a Permission entry. *)
Lemma permission_reported_as_service :
  In service_permission_line (split newline service_permission_line)
  /\ in_str "uses-permission" service_permission_line = true
  /\ analysis_of service_permission_line = ["Service: " ++ service_permission_line]
  /\ ~ In ("Permission: " ++ strip service_permission_line)
         (analysis_of service_permission_line).
Proof.
  split; [vm_compute; now left|]. split; [reflexivity|]. split; [reflexivity|].
  vm_compute. intros [H|[]]. discriminate H.
Qed.

Lemma manifest_categories_witness :
  In ("Activity: " ++ strip ("<activity android:name=" ++ dquote ++ ".Main" ++ dquote ++ "/>"))
     (analysis_of sample_manifest)
  /\ In ("Permission: " ++ strip ("<uses-permission android:name=" ++ dquote ++ "X" ++ dquote ++ "/>"))
     (analysis_of sample_manifest)
  /\ analysis_of service_permission_line = entries_by_category service_permission_line
  /\ first_category service_permission_line <> Some "Permission".
Proof.
  split; [|split; [|split]].
  - refine (proj1 (proj1 (proj2 (proj1 (proj2 (proj2 (manifest_categories sample_manifest
             ("<activity android:name=" ++ dquote ++ ".Main" ++ dquote ++ "/>")))) _))
             eq_refl eq_refl) eq_refl).
    vm_compute. right. now left.
  - refine (proj2 (proj2 (proj1 (proj2 (proj2 (manifest_categories sample_manifest
             ("<uses-permission android:name=" ++ dquote ++ "X" ++ dquote ++ "/>")))) _))
             eq_refl (or_intror (conj eq_refl (conj eq_refl eq_refl))) eq_refl).
    vm_compute. now left.
  - exact (proj1 (manifest_categories service_permission_line EmptyString)).
  - intros H.
    apply (proj1 (proj1 (proj2 (manifest_categories EmptyString service_permission_line)))) in H.
    destruct H as [_ [_ [H | [_ [H _]]]]]; discriminate H.
Defined.

(* ================================================================= *)
(** ** The search in smali code *)

Section Search.
Variable self : Server.
Variable w : World.

Lemma firstn_length_app {A} (b rel : list A) : firstn (List.length b) (b ++ rel) = b.
Proof. now rewrite firstn_app, Nat.sub_diag, firstn_all, firstn_O, app_nil_r. Qed.

Lemma skipn_length_app {A} (b rel : list A) : skipn (List.length b) (b ++ rel) = rel.
Proof. now rewrite skipn_app, Nat.sub_diag, skipn_all. Qed.

Lemma abs_parts_below (p : Path) (rel : list string) :
  abs_parts (below p rel) = (abs_parts p ++ rel)%list.
Proof. unfold abs_parts, below. cbn [root segs]. now destruct (is_empty (root p)). Qed.

(** A path found below [p] is relative to [p] by the parts found. *)
Lemma relative_to_below (p : Path) (rel : list string) :
  relative_to (below p rel) p = Some (mkPath EmptyString rel).
Proof.
  unfold relative_to. rewrite abs_parts_below.
  change (root (below p rel)) with (root p).
  rewrite firstn_length_app, skipn_length_app.
  destruct (list_eq_dec string_dec (abs_parts p) (abs_parts p)) as [_|N]; [|congruence].
  unfold abs_parts. destruct (is_empty (root p)) eqn:Er.
  - destruct (segs p) as [|a l]; [reflexivity|].
    cbn [List.length Nat.eqb]. now rewrite andb_false_r.
  - reflexivity.
Qed.

Lemma enumerate_In {A} (l : list A) :
  forall start i x, In (i, x) (enumerate start l) -> In x l.
Proof.
  induction l as [|a l IH]; intros start i x; simpl; [tauto|].
  intros [E|H]; [left; congruence | right; eapply IH; eassumption].
Qed.

Lemma flat_map_if_filter {A B} (f : A -> bool) (g : A -> B) (l : list A) :
  flat_map (fun x => if f x then [g x] else []) l = map g (filter f l).
Proof.
  induction l as [|a l IH]; [reflexivity|]. simpl.
  destruct (f a); simpl; now rewrite IH.
Qed.

(** No line holds what the whole text does not hold: the test on the whole
    file in [_find_smali_references] drops no matching line. *)
Lemma no_line_matches (cs : bool) (sp content : string) :
  in_str sp (if cs then content else lower content) = false ->
  forall line, In line (split newline content) ->
               in_str sp (if cs then line else lower line) = false.
Proof.
  intros H line Hl. destruct (split_inside _ _ _ Hl) as [a [b ->]].
  destruct (in_str sp (if cs then line else lower line)) eqn:E; [|reflexivity].
  rewrite <- H. symmetry. destruct cs.
  - now apply in_str_inside.
  - rewrite !lower_append. now apply in_str_inside.
Qed.

Lemma join_cons_nonempty (sep a : string) (l : list string) :
  is_empty a = false -> is_empty (join sep (a :: l)) = false.
Proof.
  intros H. destruct l; simpl; [assumption|].
  destruct a; [discriminate | reflexivity].
Qed.

Lemma startswith_nonempty (n : string) : startswith n "smali" = true -> is_empty n = false.
Proof.
  unfold startswith. intros H. apply prefix_iff in H. destruct H as [b ->]. reflexivity.
Qed.

(** The entries of one file, as [file_matches] collects them. *)
Lemma file_matches_eq (apk_path : Path) (n : string) (rel : list string)
    (pattern : string) (case_sensitive : value) :
  startswith n "smali" = true ->
  file_matches w apk_path (below (below apk_path [n]) rel)
    (VStr (if truthy case_sensitive then pattern else lower pattern)) case_sensitive
  = match os_read_text w (to_str (below (below apk_path [n]) rel)) with
    | Ok content =>
        matching_lines_of (truthy case_sensitive) pattern (join "/" (n :: rel)) content
    | Raise _ => []
    end.
Proof.
  intros Hn. unfold file_matches.
  destruct (os_read_text w _) as [content|e]; [|reflexivity].
  assert (Hb : below (below apk_path [n]) rel = below apk_path (n :: rel)).
  { unfold below. cbn [root segs]. now rewrite <- app_assoc. }
  rewrite Hb, relative_to_below.
  assert (Hs : to_str (mkPath EmptyString (n :: rel)) = join "/" (n :: rel)).
  { unfold to_str. cbn [root segs append].
    now rewrite join_cons_nonempty by (now apply startswith_nonempty). }
  rewrite Hs.
  set (sp := if truthy case_sensitive then pattern else lower pattern).
  assert (Hm : forall line,
             in_str sp (if truthy case_sensitive then line else lower line)
             = line_matches (truthy case_sensitive) pattern line).
  { intros line. unfold line_matches, sp. now destruct (truthy case_sensitive). }
  assert (Hfm : flat_map
                  (fun '(i, line) =>
                     if in_str sp (if truthy case_sensitive then line else lower line)
                     then [join "/" (n :: rel) ++ ":" ++ str_nat i ++ ": " ++ strip line]
                     else [])
                  (enumerate 1 (split newline content))
                = matching_lines_of (truthy case_sensitive) pattern (join "/" (n :: rel)) content).
  { unfold matching_lines_of.
    rewrite <- (flat_map_if_filter
                  (fun '(i, line) => line_matches (truthy case_sensitive) pattern line)
                  (fun '(i, line) => format_match (join "/" (n :: rel)) i line)).
    apply flat_map_ext. intros [i line]. now rewrite Hm. }
  destruct (in_str sp (if truthy case_sensitive then content else lower content)) eqn:Ec.
  - exact Hfm.
  - unfold matching_lines_of. rewrite filter_none; [reflexivity|].
    intros [i line] Hin. rewrite <- Hm.
    apply (no_line_matches _ _ _ Ec). eapply enumerate_In; eassumption.
Qed.

Lemma flat_map_map {A B C} (g : A -> B) (f : B -> list C) (l : list A) :
  flat_map f (map g l) = flat_map (fun x => f (g x)) l.
Proof. induction l as [|a l IH]; [reflexivity|]. simpl. now rewrite IH. Qed.

Lemma flat_map_ext_In {A B} (f g : A -> list B) (l : list A) :
  (forall x, In x l -> f x = g x) -> flat_map f l = flat_map g l.
Proof.
  induction l as [|a l IH]; intros H; [reflexivity|]. cbn [flat_map].
  rewrite (H a) by now left. rewrite IH; [reflexivity|].
  intros x Hx. apply H. now right.
Qed.

(** The list [matches] is the list of all matching lines. *)
Lemma matches_eq (p : Path) (names : list string) (pattern : string) (case_sensitive : value) :
  flat_map (fun smali_dir =>
     flat_map (fun smali_file =>
                 file_matches w p smali_file
                   (VStr (if truthy case_sensitive then pattern else lower pattern))
                   case_sensitive)
              (map (below smali_dir) (smali_files w smali_dir)))
    (map (fun n => below p [n]) (smali_names w p names))
  = all_matching_lines w p names (truthy case_sensitive) pattern.
Proof.
  unfold all_matching_lines. rewrite flat_map_map.
  apply flat_map_ext_In. intros n Hn.
  apply filter_In in Hn. destruct Hn as [_ Hn].
  apply andb_true_iff in Hn. destruct Hn as [_ Hn].
  rewrite flat_map_map.
  apply flat_map_ext. intros rel. now apply file_matches_eq.
Qed.

Lemma matching_lines_of_lower (pattern pattern' rel content : string) :
  lower pattern' = lower pattern ->
  matching_lines_of false pattern' rel content = matching_lines_of false pattern rel content.
Proof.
  intros H. unfold matching_lines_of. f_equal. apply filter_ext.
  intros [i line]. unfold line_matches. now rewrite H.
Qed.

(** The two cases of a letter have one lower case. *)
Lemma lower_char_capital (n : nat) :
  65 <= n -> n <= 90 -> lower_char (ascii_of_nat n) = lower_char (ascii_of_nat (n + 32)).
Proof.
  intros Hlo Hhi.
  do 65 (destruct n as [|n]; [exfalso; lia|]).
  do 26 (destruct n as [|n]; [reflexivity|]).
  exfalso; lia.
Qed.

Lemma same_letter_lower (c d : ascii) :
  same_letter c d = true -> lower_char c = lower_char d.
Proof.
  unfold same_letter. intros H.
  apply orb_true_iff in H. destruct H as [H|H]; [apply orb_true_iff in H; destruct H as [H|H]|].
  - apply Ascii.eqb_eq in H. now subst.
  - apply andb_true_iff in H. destruct H as [H Hm].
    apply andb_true_iff in H. destruct H as [Hlo Hhi].
    apply Nat.leb_le in Hlo, Hhi. apply Nat.eqb_eq in Hm.
    rewrite <- (ascii_nat_embedding c), <- (ascii_nat_embedding d), Hm.
    now apply lower_char_capital.
  - apply andb_true_iff in H. destruct H as [H Hm].
    apply andb_true_iff in H. destruct H as [Hlo Hhi].
    apply Nat.leb_le in Hlo, Hhi. apply Nat.eqb_eq in Hm.
    rewrite <- (ascii_nat_embedding c), <- (ascii_nat_embedding d), Hm.
    symmetry. now apply lower_char_capital.
Qed.

Lemma same_text_lower (s : string) : forall t, same_text s t = true -> lower s = lower t.
Proof.
  induction s as [|c s IH]; intros [|d t]; cbn [same_text lower]; try discriminate;
    [reflexivity|].
  intros H. apply andb_true_iff in H. destruct H as [Hc Hs].
  now rewrite (same_letter_lower c d Hc), (IH t Hs).
Qed.

(** [enumerate] numbers the elements from [start] on. *)
Lemma enumerate_nth {A} (l : list A) :
  forall start i x,
    In (i, x) (enumerate start l) <-> start <= i /\ nth_error l (i - start) = Some x.
Proof.
  induction l as [|a l IH]; intros start i x; cbn [enumerate In].
  - split; [tauto|]. intros [_ H]. destruct (i - start); discriminate H.
  - rewrite IH. split.
    + intros [E | [Hle Hn]].
      * injection E as <- <-. rewrite Nat.sub_diag. split; [apply le_n | reflexivity].
      * split; [lia|]. replace (i - start) with (S (i - S start)) by lia. exact Hn.
    + intros [Hle Hn]. destruct (Nat.eq_dec i start) as [->|Hne].
      * left. rewrite Nat.sub_diag in Hn. injection Hn as <-. reflexivity.
      * right. split; [lia|].
        replace (i - start) with (S (i - S start)) in Hn by lia. exact Hn.
Qed.

(** The entries of a file are those of its matching lines, each under the
    number of the line. *)
Lemma matching_lines_of_In (cs : bool) (pattern rel content e : string) :
  In e (matching_lines_of cs pattern rel content) <->
  exists i line, 1 <= i /\ nth_error (split newline content) (i - 1) = Some line
                 /\ line_matches cs pattern line = true
                 /\ e = rel ++ ":" ++ str_nat i ++ ": " ++ strip line.
Proof.
  unfold matching_lines_of. rewrite in_map_iff. split.
  - intros [[i line] [<- H]]. apply filter_In in H. destruct H as [H1 H2].
    apply enumerate_nth in H1. exists i, line. tauto.
  - intros [i [line [Hi [Hn [Hm ->]]]]]. exists (i, line). split; [reflexivity|].
    apply filter_In. split; [|assumption]. apply enumerate_nth. tauto.
Qed.

(** The lines found are the matching lines of the readable smali files. *)
Lemma all_matching_lines_In (p : Path) (names : list string) (cs : bool)
    (pattern e : string) :
  In e (all_matching_lines w p names cs pattern) <->
  exists n rel content i line,
    In n (smali_names w p names)
    /\ In rel (smali_files w (below p [n]))
    /\ os_read_text w (to_str (below (below p [n]) rel)) = Ok content
    /\ 1 <= i /\ nth_error (split newline content) (i - 1) = Some line
    /\ line_matches cs pattern line = true
    /\ e = join "/" (n :: rel) ++ ":" ++ str_nat i ++ ": " ++ strip line.
Proof.
  unfold all_matching_lines. rewrite in_flat_map. split.
  - intros [n [Hn He]]. apply in_flat_map in He. destruct He as [rel [Hrel He]].
    destruct (os_read_text w _) as [content|] eqn:Er; [|destruct He].
    apply matching_lines_of_In in He. destruct He as [i [line [Hi [Hl [Hm ->]]]]].
    exists n, rel, content, i, line. tauto.
  - intros [n [rel [content [i [line [Hn [Hrel [Er [Hi [Hl [Hm ->]]]]]]]]]]].
    exists n. split; [assumption|]. apply in_flat_map. exists rel. split; [assumption|].
    rewrite Er. apply matching_lines_of_In. exists i, line. tauto.
Qed.

(** The result of the search on a project that can be listed, examined and
    searched for files. *)
Lemma find_smali_references_found (p pattern : string) (case_sensitive : value)
    (names : list string) :
  os_listdir w (to_str (parse p)) = Ok names ->
  (forall n, In n names -> can_examine w (below (parse p) [n]) = true) ->
  (forall n, In n (smali_names w (parse p) names) ->
     exists rels, os_rglob w (to_str (below (parse p) [n])) "*.smali" = Ok rels) ->
  _find_smali_references self (VStr p) (VStr pattern) case_sensitive w
  = (Ok match smali_names w (parse p) names with
        | [] => "No smali directories found"
        | _ =>
            match all_matching_lines w (parse p) names (truthy case_sensitive) pattern with
            | [] => "Pattern '" ++ pattern ++ "' not found in smali code"
            | found => "Found " ++ str_nat (List.length found) ++ " matches for '" ++ pattern
                       ++ "':" ++ nl ++ nl ++ join nl (firstn 50 found)
            end
        end, []).
Proof.
  intros Hls Hex Hglob.
  rewrite find_smali_references_eq, Hls.
  rewrite (bind_pure w _ _ _ (smali_dirs_of_eq w (parse p) names Hex)).
  pose proof (matches_eq (parse p) names pattern case_sensitive) as Hm.
  assert (Hg : forall d, In d (map (fun n => below (parse p) [n])
                                   (smali_names w (parse p) names)) ->
                         exists rels, os_rglob w (to_str d) "*.smali" = Ok rels).
  { intros d Hd. apply in_map_iff in Hd. destruct Hd as [n [<- Hn]]. now apply Hglob. }
  pose proof (search_smali_eq w (parse p)
                (VStr (if truthy case_sensitive then pattern else lower pattern))
                case_sensitive _ Hg) as Hs.
  rewrite Hm in Hs. clear Hm Hg.
  destruct (smali_names w (parse p) names) as [|d ds]; [reflexivity|].
  cbn [map] in Hs |- *. cbv iota.
  assert (Hsp : (if truthy case_sensitive then ret (VStr pattern)
                 else ret (VStr (lower pattern)))
                = (ret (VStr (if truthy case_sensitive then pattern else lower pattern))
                   : M value))
    by (now destruct (truthy case_sensitive)).
  rewrite Hsp, bind_ret_l. rewrite (bind_pure w _ _ _ Hs).
  cbn [pystr]. destruct (all_matching_lines _ _ _ _ _); reflexivity.
Qed.

(** C7: on a project that can be listed, whose entries can be examined and
    whose smali directories can be searched for files,
    [_find_smali_references] reports the number of all matching lines and
    lists the first fifty of them at most.  The matching lines are the lines
    of the readable smali files that hold the pattern; each is listed as
    [relative/path:lineNumber: line] with the number of the line in its
    file and the stripped line; with no matching line the result says so.
    Without regard to case, a line matches whatever the casing of the line
    and of the pattern: a line that holds the pattern with some of its
    letters in the other case matches. *)
Theorem find_smali_references_total (p pattern : string) (case_sensitive : value)
    (names : list string) :
  os_listdir w (to_str (parse p)) = Ok names ->
  (forall n, In n names -> can_examine w (below (parse p) [n]) = true) ->
  smali_names w (parse p) names <> [] ->
  (forall n, In n (smali_names w (parse p) names) ->
     exists rels, os_rglob w (to_str (below (parse p) [n])) "*.smali" = Ok rels) ->
  let found := all_matching_lines w (parse p) names (truthy case_sensitive) pattern in
  fst (_find_smali_references self (VStr p) (VStr pattern) case_sensitive w)
  = Ok (match found with
        | [] => "Pattern '" ++ pattern ++ "' not found in smali code"
        | _ => "Found " ++ str_nat (List.length found) ++ " matches for '" ++ pattern
               ++ "':" ++ nl ++ nl ++ join nl (firstn 50 found)
        end)
  /\ List.length (firstn 50 found) <= 50
  /\ (forall e, In e found <->
        exists n rel content i line,
          In n (smali_names w (parse p) names)
          /\ In rel (smali_files w (below (parse p) [n]))
          /\ os_read_text w (to_str (below (below (parse p) [n]) rel)) = Ok content
          /\ 1 <= i /\ nth_error (split newline content) (i - 1) = Some line
          /\ line_matches (truthy case_sensitive) pattern line = true
          /\ e = join "/" (n :: rel) ++ ":" ++ str_nat i ++ ": " ++ strip line)
  /\ (truthy case_sensitive = false ->
      (forall line line', lower line = lower line' ->
                          line_matches false pattern line = line_matches false pattern line')
      /\ (forall pattern', lower pattern' = lower pattern ->
            all_matching_lines w (parse p) names false pattern' = found)
      /\ (forall a m b, same_text m pattern = true ->
                        line_matches false pattern (a ++ m ++ b) = true)).
Proof.
  intros Hls Hex Hdirs Hglob found. split; [|split; [|split]].
  - rewrite (find_smali_references_found p pattern case_sensitive names Hls Hex Hglob).
    fold found. cbn [fst]. destruct (smali_names w (parse p) names); [congruence|].
    destruct found; reflexivity.
  - rewrite length_firstn. apply Nat.le_min_l.
  - intros e. apply all_matching_lines_In.
  - intros Hcs. split; [|split].
    + intros line line' H. unfold line_matches. now rewrite H.
    + intros pattern' H. unfold found. rewrite Hcs. unfold all_matching_lines.
      apply flat_map_ext. intros n.
      apply flat_map_ext. intros rel. destruct (os_read_text w _); [|reflexivity].
      now apply matching_lines_of_lower.
    + intros a m b H. unfold line_matches. rewrite !lower_append.
      rewrite (same_text_lower m pattern H).
      apply in_str_iff. exists (lower a), (lower b). reflexivity.
Qed.

End Search.

(** Sixty matching lines in the sample project: the count is 60 and the
    first fifty are listed. *)
Lemma sixty_matches_fifty_listed :
  fst (_find_smali_references sample_server (VStr "/work/demo") (VStr "target") (VBool false)
         sample_world)
  = Ok ("Found 60 matches for 'target':" ++ nl ++ nl
        ++ join nl (map (fun i => "smali/com/A.smali:" ++ str_nat i
                                  ++ ": invoke-static {v0}, Lcom/App;->TARGET()V")
                        (seq 1 50))).
Proof. vm_compute. reflexivity. Qed.

Lemma find_smali_references_total_witness :
  fst (_find_smali_references sample_server (VStr "/work/demo") (VStr "TaRgEt") (VBool false)
         sample_world)
  = Ok ("Found 60 matches for 'TaRgEt':" ++ nl ++ nl
        ++ join nl (map (fun i => "smali/com/A.smali:" ++ str_nat i
                                  ++ ": invoke-static {v0}, Lcom/App;->TARGET()V")
                        (seq 1 50)))
  /\ all_matching_lines sample_world (parse "/work/demo")
       ["AndroidManifest.xml"; "smali"] false "TaRgEt"
     = all_matching_lines sample_world (parse "/work/demo")
         ["AndroidManifest.xml"; "smali"] false "target"
  /\ In ("smali/com/A.smali:60: invoke-static {v0}, Lcom/App;->TARGET()V")
        (all_matching_lines sample_world (parse "/work/demo")
           ["AndroidManifest.xml"; "smali"] false "target").
Proof.
  assert (Hex : forall n, In n ["AndroidManifest.xml"; "smali"] ->
                          can_examine sample_world (below (parse "/work/demo") [n]) = true)
    by (intros n [<-|[<-|[]]]; reflexivity).
  assert (Hglob : forall n,
             In n (smali_names sample_world (parse "/work/demo")
                     ["AndroidManifest.xml"; "smali"]) ->
             exists rels, os_rglob sample_world (to_str (below (parse "/work/demo") [n]))
                            "*.smali" = Ok rels)
    by (intros n [<-|[]]; eexists; reflexivity).
  pose proof (find_smali_references_total sample_server sample_world "/work/demo" "TaRgEt"
                (VBool false) ["AndroidManifest.xml"; "smali"] eq_refl Hex
                ltac:(vm_compute; discriminate) Hglob) as [H1 _].
  pose proof (find_smali_references_total sample_server sample_world "/work/demo" "target"
                (VBool false) ["AndroidManifest.xml"; "smali"] eq_refl Hex
                ltac:(vm_compute; discriminate) Hglob) as [_ [_ [H3 H4]]].
  split; [|split].
  - rewrite H1. vm_compute. reflexivity.
  - exact (proj1 (proj2 (H4 eq_refl)) "TaRgEt" eq_refl).
  - apply H3. exists "smali", ["com"; "A.smali"], sample_smali, 60, sample_smali_line.
    repeat split; try reflexivity.
    + left. reflexivity.
    + left. reflexivity.
    + repeat constructor.
Defined.

(* ================================================================= *)
(** ** Reading a resource *)

Section Resources.
Variable validation_text : list TextContent -> string.
Variable self : Server.
Variable w : World.

(** A file that exists and can be read takes the [try] block to the
    constructor of the result. *)
Lemma read_resource_try_file (uri project kind f content : string) (st : stat_result) :
  startswith uri "apktool://apk/" = true ->
  nth_error (split slash uri) 3 = Some project ->
  nth_error (split slash uri) 4 = Some kind ->
  resource_file kind = Some f ->
  os_stat w (to_str (truediv (truediv (work_dir self) project) f)) = Ok st ->
  os_read_text w (to_str (truediv (truediv (work_dir self) project) f)) = Ok content ->
  read_resource_try validation_text self uri w
  = ReadResourceResult_ validation_text [text_content content] w.
Proof.
  intros Hpre Hp Hk Hf Hst Hrd.
  unfold read_resource_try, index_. rewrite Hpre, Hp, Hk, !bind_ret_l.
  unfold resource_file in Hf.
  destruct (kind =? "manifest").
  - injection Hf as <-. rewrite bind_exists, Hst. unfold read_text, bind. now rewrite Hrd.
  - destruct (kind =? "apktool_yml"); [|discriminate].
    injection Hf as <-. rewrite bind_exists, Hst. unfold read_text, bind. now rewrite Hrd.
Qed.

(** Every path of the [try] block ends in an exception. *)
Lemma read_resource_try_raises (uri : string) :
  exists e, read_resource_try validation_text self uri w = (Raise e, []).
Proof.
  assert (Hfile : forall path,
            exists e,
              (e <- exists_ path ;;
               if e then
                 content <- read_text path ;;
                 ReadResourceResult_ validation_text [text_content content]
               else resource_not_found uri) w = (Raise e, [])).
  { intros path. rewrite bind_exists.
    destruct (os_stat w (to_str path)) as [st|e].
    - unfold read_text, bind. destruct (os_read_text w (to_str path)); eexists; reflexivity.
    - destruct (absent e); eexists; reflexivity. }
  unfold read_resource_try, index_.
  destruct (startswith uri "apktool://apk/"); [|eexists; reflexivity].
  destruct (nth_error (split slash uri) 3) as [project|]; [|eexists; reflexivity].
  rewrite bind_ret_l.
  destruct (nth_error (split slash uri) 4) as [kind|]; [|eexists; reflexivity].
  rewrite bind_ret_l.
  destruct (kind =? "manifest"); [apply Hfile|].
  destruct (kind =? "apktool_yml"); [apply Hfile|].
  eexists; reflexivity.
Qed.

(** C8, the behaviour of the code: [read_resource] never returns a result.
    It builds [ReadResourceResult] from a [TextContent], which the type
    refuses, on every path: in the [try] block with the text of the file,
    and in the [except] clause with the error text.  The exception of the
    [try] block is caught, and the [ValidationError] of the [except] clause
    leaves the function; for a file that exists and can be read its text
    carries the text of the first [ValidationError]. *)
Theorem read_resource_raises (uri : string) :
  (exists s, read_resource validation_text self uri w
             = (Raise (Exn ValidationError
                         (validation_text
                            [text_content ("Error reading resource " ++ uri ++ ": " ++ s)])),
                []))
  /\ (forall r, fst (read_resource validation_text self uri w) <> Ok r)
  /\ (forall project kind f st content,
        startswith uri "apktool://apk/" = true ->
        nth_error (split slash uri) 3 = Some project ->
        nth_error (split slash uri) 4 = Some kind ->
        resource_file kind = Some f ->
        os_stat w (to_str (truediv (truediv (work_dir self) project) f)) = Ok st ->
        os_read_text w (to_str (truediv (truediv (work_dir self) project) f)) = Ok content ->
        read_resource validation_text self uri w
        = (Raise (Exn ValidationError
                    (validation_text
                       [text_content ("Error reading resource " ++ uri ++ ": "
                                      ++ validation_text [text_content content])])),
           [])).
Proof.
  assert (H : exists s, read_resource validation_text self uri w
                        = (Raise (Exn ValidationError
                                    (validation_text
                                       [text_content ("Error reading resource " ++ uri
                                                      ++ ": " ++ s)])), [])).
  { destruct (read_resource_try_raises uri) as [e He].
    exists (exn_msg e). unfold read_resource, try_except. rewrite He. reflexivity. }
  split; [exact H|]. split.
  - intros r. destruct H as [s ->]. discriminate.
  - intros project kind f st content Hpre Hp Hk Hf Hst Hrd.
    unfold read_resource, try_except.
    rewrite (read_resource_try_file uri project kind f content st) by assumption.
    reflexivity.
Qed.

End Resources.

Lemma read_resource_raises_witness :
  read_resource sample_validation_text sample_server "apktool://apk/demo/manifest" sample_world
  = (Raise (Exn ValidationError "1 validation error for ReadResourceResult"), [])
  /\ os_read_text sample_world "/work/demo/AndroidManifest.xml" = Ok sample_manifest.
Proof.
  split; [|reflexivity].
  exact (proj2 (proj2 (read_resource_raises sample_validation_text sample_server sample_world
                         "apktool://apk/demo/manifest"))
           "demo" "manifest" "AndroidManifest.xml" file_stat sample_manifest
           eq_refl eq_refl eq_refl eq_refl eq_refl eq_refl).
Defined.

(* ================================================================= *)
(** ** The commands of a tool call *)

Section BoundValues.
Variable sig : signature.

Lemma bind_keywords_Ok (kwargs : list (string * value)) :
  forall slots slots',
    bind_keywords sig slots kwargs = Ok slots' ->
    slots' = (rev kwargs ++ slots)%list
    /\ NoDup (map fst kwargs)
    /\ forall k, In k (map fst kwargs) ->
                 In k (map fst (params sig)) /\ is_bound k slots = false.
Proof.
  induction kwargs as [|[k v] kwargs IH]; intros slots slots'; simpl.
  - intros E; injection E as <-. repeat split; [constructor | destruct H | destruct H].
  - destruct (is_param sig k) eqn:Ep; [|discriminate].
    destruct (String.eqb_spec k "self") as [->|Hself]; [discriminate|].
    destruct (is_bound k slots) eqn:Eb; [discriminate|]. cbn [orb].
    intros E. destruct (IH _ _ E) as [-> [Hnd Hk]]. split; [|split].
    + now rewrite <- app_assoc.
    + constructor; [|assumption]. intros Hin.
      destruct (Hk k Hin) as [_ Hb]. unfold is_bound in Hb. simpl in Hb.
      now rewrite String.eqb_refl in Hb.
    + intros k' [<-|Hin].
      * split; [|assumption]. unfold is_param in Ep. apply orb_true_iff in Ep.
        destruct Ep as [Ep|Ep]; [apply String.eqb_eq in Ep; congruence|].
        apply existsb_exists in Ep. destruct Ep as [x [Hx Ex]].
        apply String.eqb_eq in Ex. now subst x.
      * destruct (Hk k' Hin) as [Hp Hb]. split; [assumption|].
        apply is_bound_false. apply is_bound_false in Hb. simpl in Hb. tauto.
Qed.

Lemma lookup_NoDup (l : list (string * value)) (k : string) (v : value) :
  NoDup (map fst l) -> In (k, v) l -> lookup k l = Some v.
Proof.
  induction l as [|[k' v'] l IH]; simpl; [tauto|].
  intros Hnd [E|Hin].
  - injection E as -> ->. now rewrite String.eqb_refl.
  - inversion Hnd as [|? ? Hn Hnd']; subst.
    destruct (String.eqb_spec k' k) as [->|_]; [|now apply IH].
    exfalso. apply Hn. apply in_map_iff. exists (k, v). split; [reflexivity | assumption].
Qed.

Lemma lookup_map_params (ps : list (string * option value))
    (f : string * option value -> value) (k : string) (v : value) :
  (forall p, In p ps -> fst p = k -> f p = v) -> In k (map fst ps) ->
  lookup k (map (fun p => (fst p, f p)) ps) = Some v.
Proof.
  induction ps as [|p ps IH]; simpl; [tauto|].
  intros Hf Hin. destruct (String.eqb_spec (fst p) k) as [E|Hne].
  - f_equal. apply Hf; [now left | assumption].
  - apply IH; [intros q Hq; apply Hf; now right | tauto].
Qed.

(** A parameter named in the request has the value of the request. *)
Lemma bind_args_value (kwargs a : list (string * value)) (k : string) (v : value) :
  bind_args sig kwargs = Ok a -> In (k, v) kwargs -> arg a k = v.
Proof.
  unfold bind_args. destruct (bind_keywords sig [] kwargs) as [slots|e] eqn:E; [|discriminate].
  destruct (bind_keywords_Ok _ _ _ E) as [-> [Hnd Hk]].
  destruct (missing_of sig _); [|discriminate].
  intros Ha Hin. injection Ha as <-. unfold arg.
  assert (Hl : lookup k (rev kwargs ++ [])%list = Some v).
  { rewrite app_nil_r. apply lookup_NoDup.
    - rewrite map_rev. now apply NoDup_rev.
    - now apply -> in_rev. }
  rewrite (lookup_map_params (params sig) _ k v); [reflexivity | |].
  - intros p _ Hp. rewrite Hp, Hl. reflexivity.
  - apply Hk. apply in_map_iff. exists (k, v). split; [reflexivity | assumption].
Qed.

End BoundValues.

Section Handlers.
Variable self : Server.
Variable w : World.

Lemma run_command_issues (v : string -> value) (name : string) (cmd : list value) :
  tool_cmd self v name cmd ->
  issues self v name (snd (_run_command self cmd None w)).
Proof.
  intros Hcmd. rewrite run_command_trace.
  destruct (all_str 0 cmd) as [[|p args]|x] eqn:E; try (left; reflexivity).
  right. exists cmd, (p :: args).
  repeat split; [assumption | eapply all_str_inl; eassumption].
Qed.

Lemma decode_apk_trace (v : string -> value) :
  issues self v "decode_apk"
    (snd (_decode_apk self (v "apk_path") (v "output_dir") (v "force") (v "no_res")
            (v "no_src") w)).
Proof.
  unfold _decode_apk, Path_, truediv_.
  destruct (v "apk_path") as [| b | p] eqn:Ep; try (left; reflexivity).
  rewrite bind_ret_l, bind_exists.
  destruct (os_stat w (to_str (parse p))) as [st|e]; cbn [negb];
    [|destruct (absent e); left; reflexivity].
  fold (decode_output_dir (parse p) (v "output_dir")).
  destruct (decode_output_dir (parse p) (v "output_dir")) as [| b | d] eqn:Ed;
    try (left; reflexivity).
  rewrite bind_ret_l, snd_bind_ret.
  apply run_command_issues. now constructor.
Qed.

Lemma build_apk_trace (v : string -> value) :
  issues self v "build_apk"
    (snd (_build_apk self (v "source_dir") (v "output_apk") (v "force") w)).
Proof.
  unfold _build_apk, Path_.
  destruct (v "source_dir") as [| b | p] eqn:Ep; try (left; reflexivity).
  rewrite bind_ret_l, bind_exists.
  destruct (os_stat w (to_str (parse p))) as [st|e]; cbn [negb];
    [|destruct (absent e); left; reflexivity].
  rewrite snd_bind_ret. apply run_command_issues. now constructor.
Qed.

Lemma install_framework_trace (v : string -> value) :
  issues self v "install_framework"
    (snd (_install_framework self (v "framework_path") (v "tag") w)).
Proof.
  unfold _install_framework, Path_.
  destruct (v "framework_path") as [| b | p] eqn:Ep; try (left; reflexivity).
  rewrite bind_ret_l, bind_exists.
  destruct (os_stat w (to_str (parse p))) as [st|e]; cbn [negb];
    [|destruct (absent e); left; reflexivity].
  rewrite snd_bind_ret. apply run_command_issues. now constructor.
Qed.

Lemma get_apk_info_trace (v : string -> value) :
  issues self v "get_apk_info" (snd (_get_apk_info self (v "apk_path") w)).
Proof.
  unfold _get_apk_info, Path_.
  destruct (v "apk_path") as [| b | p] eqn:Ep; try (left; reflexivity).
  rewrite bind_ret_l, bind_exists.
  destruct (os_stat w (to_str (parse p))) as [st|e] eqn:Est; cbn [negb];
    [|destruct (absent e); left; reflexivity].
  unfold try_except.
  pose proof (snd_bind_ret w (_run_command self (aapt_cmd (parse p)) None)
                (fun result => "APK Information:" ++ nl ++ nl ++ result)) as Hs.
  cbv beta in Hs.
  destruct ((result <- _run_command self (aapt_cmd (parse p)) None ;;
             ret ("APK Information:" ++ nl ++ nl ++ result)) w) as [[a|e] t] eqn:E.
  - simpl in *. rewrite Hs. apply run_command_issues. now constructor.
  - unfold bind, stat, ret. rewrite Est. simpl in *. rewrite app_nil_r, Hs.
    apply run_command_issues. now constructor.
Qed.
Lemma analyze_manifest_trace (apk_dir : value) :
  snd (_analyze_manifest self apk_dir w) = [].
Proof.
  destruct apk_dir as [| b | p]; try reflexivity.
  unfold _analyze_manifest, Path_, read_text. rewrite bind_ret_l, bind_exists.
  destruct (os_stat w _) as [st|e]; cbn [negb]; [|destruct (absent e); reflexivity].
  unfold bind, ret. destruct (os_read_text w _); reflexivity.
Qed.

Lemma list_permissions_trace (apk_dir : value) :
  snd (_list_permissions self apk_dir w) = [].
Proof.
  destruct apk_dir as [| b | p]; try reflexivity.
  unfold _list_permissions, Path_, read_text. rewrite bind_ret_l, bind_exists.
  destruct (os_stat w _) as [st|e]; cbn [negb]; [|destruct (absent e); reflexivity].
  unfold bind, ret. destruct (os_read_text w _) as [content|]; try reflexivity.
  destruct (permissions_of content); reflexivity.
Qed.

Lemma read_strings_trace (files : list Path) : snd (read_strings files w) = [].
Proof.
  induction files as [|f files IH]; [reflexivity|].
  cbn [read_strings]. unfold read_text, bind, ret in *.
  destruct (os_read_text w (to_str f)); [|reflexivity].
  destruct (read_strings files w) as [[more|e] t]; simpl in *; subst; reflexivity.
Qed.

Lemma extract_strings_trace (apk_dir locale : value) :
  snd (_extract_strings self apk_dir locale w) = [].
Proof.
  unfold _extract_strings, Path_.
  destruct apk_dir as [| b | p]; try reflexivity.
  rewrite bind_ret_l, bind_exists.
  destruct (os_stat w _) as [st|e0]; cbn [negb]; [|destruct (absent e0); reflexivity].
  set (g := if truthy locale then _ else _).
  assert (Hg : exists r, g w = (r, [])).
  { subst g. unfold glob_. destruct (truthy locale); eexists; reflexivity. }
  destruct Hg as [r Hg].
  destruct r as [files|e]; [|now erewrite bind_Raise by exact Hg].
  erewrite snd_bind_Ok by exact Hg. cbn [app].
  destruct files as [|f files]; [reflexivity|].
  rewrite snd_bind_ret. apply (read_strings_trace (f :: files)).
Qed.

Lemma find_smali_references_trace (apk_dir pattern case_sensitive : value) :
  snd (_find_smali_references self apk_dir pattern case_sensitive w) = [].
Proof.
  destruct apk_dir as [| b | p]; try reflexivity.
  rewrite find_smali_references_eq.
  destruct (os_listdir w (to_str (parse p))) as [names|e]; [|reflexivity].
  pose proof (smali_dirs_of_trace w (map (fun n => below (parse p) [n]) names)) as Hd.
  destruct (smali_dirs_of (map (fun n => below (parse p) [n]) names) w) as [[dirs|e] t] eqn:E;
    cbn [snd] in Hd; subst t; [|now erewrite bind_Raise by exact E].
  erewrite snd_bind_Ok by exact E. cbn [app].
  destruct dirs as [|d ds]; [reflexivity|].
  assert (Hs : forall sp,
             snd ((matches <- search_smali (parse p) sp case_sensitive (d :: ds) ;;
                   match matches with
                   | [] => ret ("Pattern '" ++ pystr pattern ++ "' not found in smali code")
                   | _ => ret ("Found " ++ str_nat (List.length matches) ++ " matches for '"
                               ++ pystr pattern ++ "':" ++ nl ++ nl
                               ++ join nl (firstn 50 matches))
                   end) w) = []).
  { intros sp. pose proof (search_smali_trace w (parse p) sp case_sensitive (d :: ds)) as Ht.
    unfold bind. destruct (search_smali (parse p) sp case_sensitive (d :: ds) w) as [[m|e] t];
      cbn [snd] in Ht; subst t; [|reflexivity].
    destruct m; reflexivity. }
  destruct (truthy case_sensitive).
  - rewrite bind_ret_l. apply Hs.
  - destruct pattern as [| b | s0]; try reflexivity.
    rewrite bind_ret_l. apply Hs.
Qed.

Lemma call_tool_trace (name : string) (arguments : list (string * value)) :
  snd (call_tool self name arguments w) = snd (dispatch self name arguments w).
Proof. unfold call_tool. destruct (dispatch self name arguments w) as [[r|e] t]; reflexivity. Qed.

(** A call that leaves a request in the trace has bound its arguments, and
    the trace is the one the handler leaves for the values bound. *)
Lemma dispatch_trace (name : string) (arguments : list (string * value)) (c : os_call) :
  In c (snd (dispatch self name arguments w)) ->
  exists sig a,
    signature_of name = Some sig /\ bind_args sig arguments = Ok a
    /\ issues self (arg a) name (snd (dispatch self name arguments w)).
Proof.
  unfold dispatch.
  repeat match goal with
  | |- context [if (name =? ?s) then _ else _] =>
      destruct (String.eqb_spec name s) as [->|_];
      [ rewrite bind_lift;
        match goal with |- context [bind_args ?sg arguments] =>
          destruct (bind_args sg arguments) as [a|e] eqn:Eb; [|intros []];
          intros Hin; exists sg, a; split; [reflexivity|]; split; [exact Eb|]
        end
      | ]
  end; try (intros []).
  - apply decode_apk_trace.
  - apply build_apk_trace.
  - apply install_framework_trace.
  - rewrite analyze_manifest_trace in Hin. destruct Hin.
  - rewrite extract_strings_trace in Hin. destruct Hin.
  - rewrite list_permissions_trace in Hin. destruct Hin.
  - rewrite find_smali_references_trace in Hin. destruct Hin.
  - apply get_apk_info_trace.
Qed.

(** C1: every request for a process that a tool call makes is an [Exec] of
    an argument vector, started in the work directory.  The call has bound
    the arguments of the request, every parameter named in the request to
    the value given; the argument vector is, element by element, the command
    list the handler of the tool builds from those values; it is the only
    request of the call, and the one [_run_command] makes for that list.  No
    [Shell] request is ever made. *)
Theorem command_is_discrete_argv (name : string) (arguments : list (string * value))
    (c : os_call) :
  In c (snd (call_tool self name arguments w)) ->
  exists sig a argv,
    signature_of name = Some sig
    /\ bind_args sig arguments = Ok a
    /\ (forall k v, In (k, v) arguments -> arg a k = v)
    /\ tool_cmd self (arg a) name (map VStr argv)
    /\ c = Exec argv (to_str (work_dir self))
    /\ snd (call_tool self name arguments w) = [c]
    /\ snd (_run_command self (map VStr argv) None w) = [c].
Proof.
  rewrite call_tool_trace. intros Hin.
  destruct (dispatch_trace _ _ _ Hin) as [sig [a [Hsig [Ha [Hnil | [cmd [argv [Hcmd [<- Ht]]]]]]]]].
  - rewrite Hnil in Hin. destruct Hin.
  - rewrite Ht in Hin |- *. destruct Hin as [<- | []].
    exists sig, a, argv. repeat split; try assumption.
    + intros k v. now apply (bind_args_value sig arguments).
    + rewrite run_command_trace, all_str_map.
      destruct argv as [|p args]; [|reflexivity].
      exfalso. inversion Hcmd; discriminate.
Qed.

End Handlers.

Lemma command_is_discrete_argv_witness :
  exists sig a argv,
    signature_of "install_framework" = Some sig
    /\ bind_args sig [("framework_path", VStr "/data/my app;rm.apk"); ("tag", VStr "a b;c")]
       = Ok a
    /\ (forall k v,
          In (k, v) [("framework_path", VStr "/data/my app;rm.apk"); ("tag", VStr "a b;c")] ->
          arg a k = v)
    /\ tool_cmd sample_server (arg a) "install_framework" (map VStr argv)
    /\ Exec ["apktool"; "if"; "/data/my app;rm.apk"; "-t"; "a b;c"] "/work"
       = Exec argv (to_str (work_dir sample_server))
    /\ snd (call_tool sample_server "install_framework"
              [("framework_path", VStr "/data/my app;rm.apk"); ("tag", VStr "a b;c")]
              sample_world)
       = [Exec ["apktool"; "if"; "/data/my app;rm.apk"; "-t"; "a b;c"] "/work"]
    /\ snd (_run_command sample_server (map VStr argv) None sample_world)
       = [Exec ["apktool"; "if"; "/data/my app;rm.apk"; "-t"; "a b;c"] "/work"].
Proof.
  apply (command_is_discrete_argv sample_server sample_world "install_framework"
           [("framework_path", VStr "/data/my app;rm.apk"); ("tag", VStr "a b;c")]).
  vm_compute. left. reflexivity.
Defined.

(* ================================================================= *)
(** ** The results of the command runner *)

Section RunnerResult.
Variable self : Server.
Variable w : World.

Lemma failed_message_prefix (argv : list string) (detail : string) :
  prefix ("Failed to execute command: " ++ join " " argv) (failed_message argv detail) = true.
Proof.
  apply prefix_iff. exists (nl ++ "Error: " ++ detail).
  unfold failed_message. now rewrite !append_assoc.
Qed.

(** X1: on a list of strings [_run_command] returns only when the process
    exited with status 0, and then stdout, or stderr when stdout is empty;
    whatever it raises is a [RuntimeError] whose message starts with
    "Failed to execute command: " and the joined list.  On a list with an
    element that is no string it starts no process and raises the
    [TypeError] of the join. *)
Theorem run_command_result (cmd : list value) (cwd : option Path) :
  (forall argv, all_str 0 cmd = inl argv ->
     (forall s, fst (_run_command self cmd cwd w) = Ok s ->
        exists output error,
          os_exec w argv (cwd_of self cwd) = Exited 0 output error
          /\ s = if negb (is_empty output) then output else error)
     /\ (forall e, fst (_run_command self cmd cwd w) = Raise e ->
           exn_type e = RuntimeError
           /\ prefix ("Failed to execute command: " ++ join " " argv) (exn_msg e) = true))
  /\ (forall i v, all_str 0 cmd = inr (i, v) ->
        _run_command self cmd cwd w
        = (Raise (Exn TypeError ("sequence item " ++ str_nat i
                                 ++ ": expected str instance, " ++ type_name v ++ " found")),
           [])).
Proof.
  split.
  - intros argv Ha. apply all_str_inl in Ha. subst cmd.
    destruct argv as [|p args].
    + split; intros x; vm_compute; intros E; [discriminate|].
      injection E as <-. split; reflexivity.
    + rewrite run_command_argv by discriminate. cbn [fst]. split.
      * intros s. destruct (os_exec w (p :: args) _) as [e|rc output error];
          cbn [run_outcome]; [discriminate|].
        destruct (Z.eqb_spec rc 0) as [->|_]; [|discriminate].
        intros E; injection E as <-. eauto.
      * intros e. destruct (os_exec w (p :: args) _) as [e'|rc output error];
          cbn [run_outcome].
        -- intros E; injection E as <-. split; [reflexivity | apply failed_message_prefix].
        -- destruct (rc =? 0)%Z; [discriminate|].
           intros E; injection E as <-. split; [reflexivity | apply failed_message_prefix].
  - intros i v E. unfold _run_command, try_except, create_subprocess_exec, join_.
    destruct cmd as [|v0 cmd']; [discriminate|]. rewrite E. reflexivity.
Qed.

End RunnerResult.

(* ================================================================= *)
(** ** Build, install and the explicit output directory *)

Section BuildInstall.
Variable self : Server.
Variable w : World.

Lemma build_cmd_argv (source_path : Path) (output_apk : option string) (force : value) :
  build_cmd self source_path (opt_value output_apk) force
  = map VStr ([apktool_path self; "b"; to_str source_path]
              ++ flag_str force "-f" ++ opt_args "-o" output_apk).
Proof.
  unfold build_cmd, flag, flag_str, opt_args, opt_value.
  destruct (truthy force), output_apk as [[|c s]|]; reflexivity.
Qed.

Lemma install_cmd_argv (framework_file : Path) (tag : option string) :
  install_cmd self framework_file (opt_value tag)
  = map VStr ([apktool_path self; "if"; to_str framework_file] ++ opt_args "-t" tag).
Proof.
  unfold install_cmd, opt_args, opt_value. destruct tag as [[|c s]|]; reflexivity.
Qed.

(** X2: [_build_apk] on a missing source directory, one of which [exists]
    says [False], raises [FileNotFoundError] and starts no process; a
    failure of [stat] that [exists] does not take for an absent path is
    passed on, with no process either; on an existing one it runs
    [apktool b <path>], with [-f] when forced and [-o <name>] when an output
    name is given, the name as given, and returns the output of the tool
    after the line naming the source path. *)
Theorem build_apk_command (p : string) (output_apk : option string) (force : value) :
  let argv := ([apktool_path self; "b"; to_str (parse p)]
               ++ flag_str force "-f" ++ opt_args "-o" output_apk)%list in
  (forall e, os_stat w (to_str (parse p)) = Raise e -> absent e = true ->
     _build_apk self (VStr p) (opt_value output_apk) force w
     = (Raise (Exn FileNotFoundError ("Source directory not found: " ++ p)), []))
  /\ (forall e, os_stat w (to_str (parse p)) = Raise e -> absent e = false ->
     _build_apk self (VStr p) (opt_value output_apk) force w = (Raise e, []))
  /\ (forall st, os_stat w (to_str (parse p)) = Ok st ->
      _build_apk self (VStr p) (opt_value output_apk) force w
      = (match run_outcome argv (os_exec w argv (to_str (work_dir self))) with
         | Ok result => Ok ("Successfully built APK from: " ++ to_str (parse p)
                            ++ nl ++ nl ++ "Output:" ++ nl ++ result)
         | Raise e => Raise e
         end, [Exec argv (to_str (work_dir self))])).
Proof.
  intros argv. unfold _build_apk, Path_.
  rewrite bind_ret_l, bind_exists. split; [|split].
  - intros e -> ->. reflexivity.
  - intros e -> ->. reflexivity.
  - intros st ->. cbn [negb]. rewrite build_cmd_argv. fold argv. unfold bind.
    rewrite run_command_argv by (unfold argv; discriminate). unfold cwd_of.
    destruct (run_outcome _ _); reflexivity.
Qed.

(** X3: [_install_framework] on a missing file, one of which [exists] says
    [False], raises [FileNotFoundError] and starts no process; a failure of
    [stat] that [exists] does not take for an absent path is passed on, with
    no process either; on an existing one it runs [apktool if <path>],
    with [-t <tag>] when a tag is given, the tag as given. *)
Theorem install_framework_command (p : string) (tag : option string) :
  let argv := ([apktool_path self; "if"; to_str (parse p)] ++ opt_args "-t" tag)%list in
  (forall e, os_stat w (to_str (parse p)) = Raise e -> absent e = true ->
     _install_framework self (VStr p) (opt_value tag) w
     = (Raise (Exn FileNotFoundError ("Framework file not found: " ++ p)), []))
  /\ (forall e, os_stat w (to_str (parse p)) = Raise e -> absent e = false ->
     _install_framework self (VStr p) (opt_value tag) w = (Raise e, []))
  /\ (forall st, os_stat w (to_str (parse p)) = Ok st ->
      _install_framework self (VStr p) (opt_value tag) w
      = (match run_outcome argv (os_exec w argv (to_str (work_dir self))) with
         | Ok result => Ok ("Successfully installed framework: " ++ p
                            ++ nl ++ nl ++ "Output:" ++ nl ++ result)
         | Raise e => Raise e
         end, [Exec argv (to_str (work_dir self))])).
Proof.
  intros argv. unfold _install_framework, Path_.
  rewrite bind_ret_l, bind_exists. split; [|split].
  - intros e -> ->. reflexivity.
  - intros e -> ->. reflexivity.
  - intros st ->. cbn [negb]. rewrite install_cmd_argv. fold argv. unfold bind.
    rewrite run_command_argv by (unfold argv; discriminate). unfold cwd_of.
    destruct (run_outcome _ _); reflexivity.
Qed.

Lemma parse_absolute (d : string) :
  startswith d "/" = true -> is_empty (root (parse d)) = false.
Proof.
  intros H. unfold parse, splitroot. rewrite H.
  destruct (_ =? 2)%nat; reflexivity.
Qed.

Lemma to_str_absolute (d : string) :
  startswith d "/" = true -> startswith (to_str (parse d)) "/" = true.
Proof.
  intros H. unfold parse, splitroot. rewrite H. unfold to_str, startswith.
  destruct (_ =? 2)%nat; cbn [root segs append is_empty];
    apply prefix_iff; eexists; reflexivity.
Qed.

(** X4: an explicit output directory of [_decode_apk]: one that starts with
    a slash is the output path itself, whatever the work directory; a plain
    name is resolved to [<work_dir>/<name>]; the empty string is as good as
    none. *)
Theorem decode_apk_explicit_output (p d : string) (force no_res no_src : value)
    (st : stat_result) :
  os_stat w (to_str (parse p)) = Ok st ->
  let request output_path :=
    [Exec ([apktool_path self; "d"; to_str (parse p)]
           ++ flag_str force "-f" ++ flag_str no_res "-r" ++ flag_str no_src "-s"
           ++ ["-o"; output_path])%list
          (to_str (work_dir self))] in
  (startswith d "/" = true ->
   snd (_decode_apk self (VStr p) (VStr d) force no_res no_src w)
   = request (to_str (parse d))
   /\ startswith (to_str (parse d)) "/" = true)
  /\ (has_char slash d = false -> d <> EmptyString -> d <> "." ->
      forall wd, work_dir self = parse wd -> segs (parse wd) <> [] ->
      snd (_decode_apk self (VStr p) (VStr d) force no_res no_src w)
      = request (to_str (work_dir self) ++ "/" ++ d))
  /\ _decode_apk self (VStr p) (VStr EmptyString) force no_res no_src w
     = _decode_apk self (VStr p) VNone force no_res no_src w.
Proof.
  intros Hst request. split; [|split].
  - intros Hd. split; [|now apply to_str_absolute].
    rewrite decode_apk_eq, Hst. unfold decode_output_dir.
    assert (Ht : truthy (VStr d) = true).
    { destruct d; [discriminate Hd | reflexivity]. }
    rewrite Ht. cbn [negb snd]. unfold truediv.
    now rewrite (parse_absolute d Hd).
  - intros Hs Hne Hdot wd Hwd Hsegs.
    rewrite decode_apk_eq, Hst. unfold decode_output_dir.
    assert (Ht : truthy (VStr d) = true).
    { destruct d; [congruence | reflexivity]. }
    rewrite Ht. cbn [negb snd].
    rewrite truediv_plain by assumption. unfold request, decode_argv.
    rewrite Hwd. now rewrite to_str_below.
  - now rewrite !decode_apk_eq.
Qed.

End BuildInstall.

Lemma build_apk_command_witness :
  _build_apk sample_server (VStr "/work/demo") (opt_value (Some "out dir/app.apk")) (VBool true)
    sample_world
  = (Raise (Exn RuntimeError
       (failed_message ["apktool"; "b"; "/work/demo"; "-f"; "-o"; "out dir/app.apk"]
          (nonzero_detail ["apktool"; "b"; "/work/demo"; "-f"; "-o"; "out dir/app.apk"]
             EmptyString))),
     [Exec ["apktool"; "b"; "/work/demo"; "-f"; "-o"; "out dir/app.apk"] "/work"])
  /\ _build_apk sample_server (VStr "/work/none") (opt_value None) VNone sample_world
     = (Raise (Exn FileNotFoundError "Source directory not found: /work/none"), []).
Proof.
  split.
  - exact (proj2 (proj2 (build_apk_command sample_server sample_world "/work/demo"
                           (Some "out dir/app.apk") (VBool true))) dir_stat eq_refl).
  - exact (proj1 (build_apk_command sample_server sample_world "/work/none" None VNone)
             (enoent "/work/none") eq_refl eq_refl).
Defined.

Lemma install_framework_command_witness :
  _install_framework sample_server (VStr "/data/my app;rm.apk") (opt_value (Some "a b;c"))
    sample_world
  = (Ok ("Successfully installed framework: /data/my app;rm.apk"
         ++ nl ++ nl ++ "Output:" ++ nl ++ "I: done"),
     [Exec ["apktool"; "if"; "/data/my app;rm.apk"; "-t"; "a b;c"] "/work"])
  /\ _install_framework sample_server (VStr "/data/none.apk") (opt_value None) sample_world
     = (Raise (Exn FileNotFoundError "Framework file not found: /data/none.apk"), []).
Proof.
  split.
  - exact (proj2 (proj2 (install_framework_command sample_server sample_world
                           "/data/my app;rm.apk" (Some "a b;c"))) file_stat eq_refl).
  - exact (proj1 (install_framework_command sample_server sample_world "/data/none.apk" None)
             (enoent "/data/none.apk") eq_refl eq_refl).
Defined.

Lemma decode_apk_explicit_output_witness :
  snd (_decode_apk sample_server (VStr "/data/my app;rm.apk") (VStr "/etc/out") VNone VNone
         VNone sample_world)
  = [Exec ["apktool"; "d"; "/data/my app;rm.apk"; "-o"; "/etc/out"] "/work"]
  /\ snd (_decode_apk sample_server (VStr "/data/my app;rm.apk") (VStr "out dir") VNone VNone
            VNone sample_world)
     = [Exec ["apktool"; "d"; "/data/my app;rm.apk"; "-o"; "/work/out dir"] "/work"].
Proof.
  destruct (decode_apk_explicit_output sample_server sample_world "/data/my app;rm.apk"
              "/etc/out" VNone VNone VNone file_stat eq_refl) as [H1 _].
  destruct (decode_apk_explicit_output sample_server sample_world "/data/my app;rm.apk"
              "out dir" VNone VNone VNone file_stat eq_refl) as [_ [H2 _]].
  split.
  - exact (proj1 (H1 eq_refl)).
  - exact (H2 eq_refl ltac:(discriminate) ltac:(discriminate) "/work" eq_refl
             ltac:(vm_compute; discriminate)).
Defined.

(* ================================================================= *)
(** ** Permissions and the edges of the manifest scan *)

Section Permissions.
Variable self : Server.
Variable w : World.

Lemma list_permissions_eq (p : string) :
  _list_permissions self (VStr p) w =
  match os_stat w (to_str (truediv (parse p) "AndroidManifest.xml")) with
  | Raise e =>
      (Raise (if absent e
              then Exn FileNotFoundError ("AndroidManifest.xml not found in: " ++ p)
              else e), [])
  | Ok _ =>
      match os_read_text w (to_str (truediv (parse p) "AndroidManifest.xml")) with
      | Raise e => (Raise e, [])
      | Ok content =>
          (Ok match permissions_of content with
              | [] => "No permissions found in AndroidManifest.xml"
              | _ => "Found " ++ str_nat (List.length (permissions_of content))
                     ++ " permissions:" ++ nl ++ nl ++ join nl (permissions_of content)
              end, [])
      end
  end.
Proof.
  unfold _list_permissions, Path_, read_text.
  rewrite bind_ret_l, bind_exists.
  destruct (os_stat w _) as [st|e]; cbn [negb]; [|destruct (absent e); reflexivity].
  unfold bind. destruct (os_read_text w _) as [content|]; [|reflexivity].
  destruct (permissions_of content); reflexivity.
Qed.

(** X5: [_list_permissions] counts and lists, stripped and in order, every
    line of the manifest that holds "uses-permission", all of them; every
    entry still holds the marker; with no such line it says so. *)
Theorem list_permissions_complete (p content : string) (st : stat_result) :
  os_stat w (to_str (truediv (parse p) "AndroidManifest.xml")) = Ok st ->
  os_read_text w (to_str (truediv (parse p) "AndroidManifest.xml")) = Ok content ->
  let marked := filter (in_str "uses-permission") (split newline content) in
  _list_permissions self (VStr p) w
  = (Ok match marked with
        | [] => "No permissions found in AndroidManifest.xml"
        | _ => "Found " ++ str_nat (List.length marked) ++ " permissions:"
               ++ nl ++ nl ++ join nl (map strip marked)
        end, [])
  /\ (forall line, In line (split newline content) ->
                   in_str "uses-permission" line = true ->
                   In (strip line) (permissions_of content))
  /\ (forall entry, In entry (permissions_of content) ->
                    in_str "uses-permission" entry = true).
Proof.
  intros Hst Hrd marked. split; [|split].
  - rewrite list_permissions_eq, Hst, Hrd. unfold permissions_of. fold marked.
    rewrite length_map. destruct marked; reflexivity.
  - intros line Hl Hm. unfold permissions_of. apply in_map.
    apply filter_In. now split.
  - intros entry He. unfold permissions_of in He. apply in_map_iff in He.
    destruct He as [line [<- Hl]]. apply filter_In in Hl. destruct Hl as [_ Hm].
    now rewrite in_str_strip by reflexivity.
Qed.

Lemma classify_cases (line entry : string) :
  classify line = Some entry ->
  entry = "Package: " ++ strip line
  \/ entry = "Activity: " ++ strip line
  \/ entry = "Service: " ++ strip line
  \/ entry = "Receiver: " ++ strip line
  \/ (entry = "Permission: " ++ strip line /\ in_str "uses-permission" line = true).
Proof.
  rewrite classify_raw.
  destruct (in_str "package=" line); [intros E; injection E as <-; tauto|].
  destruct (in_str "android:name=" line && in_str "activity" (lower line));
    [intros E; injection E as <-; tauto|].
  destruct (in_str "android:name=" line && in_str "service" (lower line));
    [intros E; injection E as <-; tauto|].
  destruct (in_str "android:name=" line && in_str "receiver" (lower line));
    [intros E; injection E as <-; tauto|].
  destruct (in_str "uses-permission" line) eqn:Eu; [|discriminate].
  intros E; injection E as <-. tauto.
Qed.

(** X6: every Permission entry of the analysis of a manifest is an entry of
    [_list_permissions] on the same manifest. *)
Theorem permission_entries_are_listed (content s : string) :
  In ("Permission: " ++ s) (analysis_of content) -> In s (permissions_of content).
Proof.
  unfold analysis_of. intros H. apply in_flat_map in H. destruct H as [line [Hl He]].
  destruct (classify line) as [entry|] eqn:Ec; [|destruct He].
  destruct He as [He|[]]. subst entry.
  destruct (classify_cases _ _ Ec) as [E|[E|[E|[E|[E Hm]]]]];
    try (cbn [append] in E; discriminate E).
  apply append_inv_head in E. subst s.
  unfold permissions_of. apply in_map. apply filter_In. now split.
Qed.

(** X7: [_analyze_manifest] raises [FileNotFoundError] when the manifest is
    missing, which is when [exists] says [False] of it; it passes on a
    failure of [stat] that [exists] does not take for an absent path, and
    the error of a manifest that cannot be read; when no line holds
    "package=", "android:name=" or "uses-permission" it answers "No key
    elements found" before the full content. *)
Theorem analyze_manifest_edges (p : string) :
  let manifest_path := to_str (truediv (parse p) "AndroidManifest.xml") in
  (forall e, os_stat w manifest_path = Raise e -> absent e = true ->
     _analyze_manifest self (VStr p) w
     = (Raise (Exn FileNotFoundError ("AndroidManifest.xml not found in: " ++ p)), []))
  /\ (forall e, os_stat w manifest_path = Raise e -> absent e = false ->
     _analyze_manifest self (VStr p) w = (Raise e, []))
  /\ (forall st e,
        os_stat w manifest_path = Ok st -> os_read_text w manifest_path = Raise e ->
        _analyze_manifest self (VStr p) w = (Raise e, []))
  /\ (forall st content,
        os_stat w manifest_path = Ok st -> os_read_text w manifest_path = Ok content ->
        (forall line, In line (split newline content) ->
           in_str "package=" line = false
           /\ in_str "android:name=" line = false
           /\ in_str "uses-permission" line = false) ->
        _analyze_manifest self (VStr p) w
        = (Ok ("AndroidManifest.xml Analysis:" ++ nl ++ nl ++ "No key elements found"
               ++ nl ++ nl ++ "Full content:" ++ nl ++ content), [])).
Proof.
  intros manifest_path. unfold manifest_path. split; [|split; [|split]].
  - intros e He Ha. now rewrite analyze_manifest_eq, He, Ha.
  - intros e He Ha. now rewrite analyze_manifest_eq, He, Ha.
  - intros st e Hst He. now rewrite analyze_manifest_eq, Hst, He.
  - intros st content Hst Hrd Hnone. rewrite analyze_manifest_eq, Hst, Hrd.
    assert (Ha : analysis_of content = []).
    { unfold analysis_of. induction (split newline content) as [|l ls IH]; [reflexivity|].
      cbn [flat_map]. rewrite IH by (intros x Hx; apply Hnone; now right).
      destruct (Hnone l (or_introl eq_refl)) as [H1 [H2 H3]].
      rewrite classify_raw, H1, H2, H3. reflexivity. }
    rewrite Ha. reflexivity.
Qed.

End Permissions.

Lemma list_permissions_complete_witness :
  _list_permissions sample_server (VStr "/work/demo") sample_world
  = (Ok ("Found 1 permissions:" ++ nl ++ nl
         ++ "<uses-permission android:name=" ++ dquote ++ "X" ++ dquote ++ "/>"), []).
Proof.
  exact (proj1 (list_permissions_complete sample_server sample_world "/work/demo"
                  sample_manifest file_stat eq_refl eq_refl)).
Defined.

Lemma permission_entries_are_listed_witness :
  In ("<uses-permission android:name=" ++ dquote ++ "X" ++ dquote ++ "/>")
     (permissions_of sample_manifest).
Proof.
  apply (permission_entries_are_listed sample_manifest). vm_compute. now left.
Defined.

Lemma analyze_manifest_edges_witness :
  _analyze_manifest sample_server (VStr "/work/plain") sample_world
  = (Raise (Exn FileNotFoundError "AndroidManifest.xml not found in: /work/plain"), []).
Proof.
  exact (proj1 (analyze_manifest_edges sample_server sample_world "/work/plain")
           (enoent "/work/plain/AndroidManifest.xml") eq_refl eq_refl).
Defined.

(* ================================================================= *)
(** ** String resources and the tools that only read *)

Section Strings.
Variable self : Server.
Variable w : World.

Lemma read_strings_Ok (files : list Path) (contents : list string) :
  Forall2 (fun f c => os_read_text w (to_str f) = Ok c) files contents ->
  read_strings files w
  = (Ok (map (fun fc => strings_section (fst fc) (snd fc)) (combine files contents)), []).
Proof.
  induction 1 as [|f c files contents Hf _ IH]; [reflexivity|].
  cbn [read_strings]. unfold read_text, bind at 1. rewrite Hf.
  unfold bind. rewrite IH. reflexivity.
Qed.

Lemma read_strings_Raise (pre post : list Path) (f : Path) (e : exn) :
  Forall (fun g => exists c, os_read_text w (to_str g) = Ok c) pre ->
  os_read_text w (to_str f) = Raise e ->
  read_strings (pre ++ f :: post) w = (Raise e, []).
Proof.
  intros Hpre Hf. induction Hpre as [|g pre [c Hg] _ IH].
  - cbn [app read_strings]. unfold read_text, bind. now rewrite Hf.
  - cbn [app read_strings]. unfold read_text, bind at 1. rewrite Hg.
    unfold bind. rewrite IH. reflexivity.
Qed.

Lemma extract_strings_eq (p l : string) :
  _extract_strings self (VStr p) (VStr l) w =
  match os_stat w (to_str (truediv (parse p) "res")) with
  | Raise e =>
      (Raise (if absent e
              then Exn FileNotFoundError ("Resources directory not found: "
                                          ++ to_str (truediv (parse p) "res"))
              else e), [])
  | Ok _ =>
      match os_glob w (to_str (truediv (parse p) "res")) (strings_pattern l) with
      | Raise e => (Raise e, [])
      | Ok [] => (Ok ("No string files found for locale: "
                      ++ (if is_empty l then "default" else l)), [])
      | Ok rels =>
          match read_strings (map (below (truediv (parse p) "res")) rels) w with
          | (Ok all_strings, _) =>
              (Ok ("Extracted strings from " ++ str_nat (List.length rels) ++ " files:"
                   ++ nl ++ join EmptyString all_strings), [])
          | (Raise e, _) => (Raise e, [])
          end
      end
  end.
Proof.
  unfold _extract_strings, Path_.
  rewrite bind_ret_l, bind_exists.
  destruct (os_stat w _) as [st|e0]; cbn [negb]; [|destruct (absent e0); reflexivity].
  assert (Hg : (if truthy (VStr l)
                then glob_ (truediv (parse p) "res") ("values-" ++ pystr (VStr l) ++ "/strings.xml")
                else glob_ (truediv (parse p) "res") "values*/strings.xml")
               = glob_ (truediv (parse p) "res") (strings_pattern l)).
  { unfold strings_pattern. cbn [truthy pystr]. now destruct (is_empty l). }
  rewrite Hg. cbn [truthy pystr]. unfold bind at 1, glob_.
  destruct (os_glob w _ _) as [rels|e]; [|reflexivity].
  destruct rels as [|r rels]; [now destruct (is_empty l)|].
  cbn [map]. set (files := below _ r :: map _ rels).
  pose proof (read_strings_trace w files) as Ht.
  unfold bind, ret. destruct (read_strings files w) as [[all|e] t].
  - cbn [snd] in Ht. subst t. unfold files. cbn [List.length]. rewrite length_map. reflexivity.
  - cbn [snd] in Ht. subst t. reflexivity.
Qed.

(** X8: [_extract_strings] raises [FileNotFoundError] for a project without
    [res], which is when [exists] says [False] of it, and passes on a
    failure of [stat] that [exists] does not take for an absent path; it
    globs [values-<locale>/strings.xml], or [values*/strings.xml]
    for the empty locale; with no file found it returns the "No string files
    found" text, which is no error; with files found it returns their number
    and a section per file, and the first file that cannot be read makes the
    whole call raise. *)
Theorem extract_strings_cases (p l : string) :
  let res_dir := truediv (parse p) "res" in
  (forall e, os_stat w (to_str res_dir) = Raise e -> absent e = true ->
     _extract_strings self (VStr p) (VStr l) w
     = (Raise (Exn FileNotFoundError ("Resources directory not found: " ++ to_str res_dir)),
        []))
  /\ (forall e, os_stat w (to_str res_dir) = Raise e -> absent e = false ->
     _extract_strings self (VStr p) (VStr l) w = (Raise e, []))
  /\ (forall st rels,
        os_stat w (to_str res_dir) = Ok st ->
        os_glob w (to_str res_dir) (strings_pattern l) = Ok rels ->
        (rels = [] ->
         _extract_strings self (VStr p) (VStr l) w
         = (Ok ("No string files found for locale: "
                ++ (if is_empty l then "default" else l)), []))
        /\ (rels <> [] -> forall contents,
              Forall2 (fun f c => os_read_text w (to_str f) = Ok c)
                      (map (below res_dir) rels) contents ->
              _extract_strings self (VStr p) (VStr l) w
              = (Ok ("Extracted strings from " ++ str_nat (List.length rels) ++ " files:"
                     ++ nl
                     ++ join EmptyString
                          (map (fun fc => strings_section (fst fc) (snd fc))
                               (combine (map (below res_dir) rels) contents))), []))
        /\ (forall pre f post e,
              map (below res_dir) rels = (pre ++ f :: post)%list ->
              Forall (fun g => exists c, os_read_text w (to_str g) = Ok c) pre ->
              os_read_text w (to_str f) = Raise e ->
              _extract_strings self (VStr p) (VStr l) w = (Raise e, []))).
Proof.
  intros res_dir. split; [|split].
  - intros e He Ha. rewrite extract_strings_eq. fold res_dir. now rewrite He, Ha.
  - intros e He Ha. rewrite extract_strings_eq. fold res_dir. now rewrite He, Ha.
  - intros st rels Hst Hg. rewrite extract_strings_eq. fold res_dir. rewrite Hst, Hg.
    split; [|split].
    + intros ->. reflexivity.
    + intros Hne contents Hc. destruct rels as [|r rels]; [congruence|].
      now rewrite (read_strings_Ok _ _ Hc).
    + intros pre f post e Hm Hpre Hf. destruct rels as [|r rels].
      * destruct pre; discriminate Hm.
      * now rewrite Hm, (read_strings_Raise pre post f e Hpre Hf).
Qed.

(** X9: the tools [analyze_manifest], [extract_strings], [list_permissions]
    and [find_smali_references] never start a process. *)
Theorem reading_tools_start_no_process (name : string)
    (arguments : list (string * value)) :
  In name reading_tools -> snd (call_tool self name arguments w) = [].
Proof.
  intros Hin. rewrite call_tool_trace.
  destruct Hin as [<-|[<-|[<-|[<-|[]]]]]; unfold dispatch;
    cbn [String.eqb Ascii.eqb Bool.eqb]; rewrite bind_lift;
    match goal with |- context [bind_args ?sg arguments] =>
      destruct (bind_args sg arguments) as [a|e] end; try reflexivity.
  - apply analyze_manifest_trace.
  - apply extract_strings_trace.
  - apply list_permissions_trace.
  - apply find_smali_references_trace.
Qed.

(** X10: on a directory that cannot be listed [_find_smali_references]
    raises the error of the listing, and [call_tool] reports its text. *)
Theorem find_smali_references_unlistable (p : string) (pattern case_sensitive : value)
    (e : exn) :
  os_listdir w (to_str (parse p)) = Raise e ->
  _find_smali_references self (VStr p) pattern case_sensitive w = (Raise e, [])
  /\ call_tool self "find_smali_references"
       [("apk_dir", VStr p); ("pattern", pattern); ("case_sensitive", case_sensitive)] w
     = (error_result "find_smali_references" (exn_msg e), []).
Proof.
  intros He.
  assert (H : _find_smali_references self (VStr p) pattern case_sensitive w = (Raise e, []))
    by now rewrite find_smali_references_eq, He.
  split; [exact H|].
  unfold call_tool. now rewrite dispatch_find_smali_references, H.
Qed.

(** X16: [_find_smali_references] asks [is_dir] of every entry of the
    project, whatever its name.  When [stat] of an entry fails with an error
    that [is_dir] does not answer [False] for, as [EACCES] in a directory
    that can be listed but not searched, the handler raises the error of
    the first such entry, and [call_tool] returns it as an error. *)
Theorem find_smali_references_unexaminable (p : string) (pattern case_sensitive : value)
    (pre post : list string) (n : string) (e : exn) :
  os_listdir w (to_str (parse p)) = Ok (pre ++ n :: post)%list ->
  (forall m, In m pre -> can_examine w (below (parse p) [m]) = true) ->
  os_stat w (to_str (below (parse p) [n])) = Raise e -> absent e = false ->
  _find_smali_references self (VStr p) pattern case_sensitive w = (Raise e, [])
  /\ call_tool self "find_smali_references"
       [("apk_dir", VStr p); ("pattern", pattern); ("case_sensitive", case_sensitive)] w
     = (error_result "find_smali_references" (exn_msg e), []).
Proof.
  intros Hls Hpre He Ha.
  assert (H : _find_smali_references self (VStr p) pattern case_sensitive w = (Raise e, [])).
  { rewrite find_smali_references_eq, Hls.
    apply bind_Raise. now apply smali_dirs_of_raise. }
  split; [exact H|].
  unfold call_tool. now rewrite dispatch_find_smali_references, H.
Qed.

End Strings.

Lemma extract_strings_cases_witness :
  _extract_strings sample_server (VStr "/work/plain") (VStr "fr") sample_world
  = (Ok "No string files found for locale: fr", [])
  /\ _extract_strings sample_server (VStr "/work/demo") (VStr EmptyString) sample_world
     = (Raise (Exn FileNotFoundError "Resources directory not found: /work/demo/res"), []).
Proof.
  split.
  - exact (proj1 (proj2 (proj2 (extract_strings_cases sample_server sample_world
                                  "/work/plain" "fr"))
                    dir_stat [] eq_refl eq_refl) eq_refl).
  - exact (proj1 (extract_strings_cases sample_server sample_world "/work/demo" EmptyString)
             (enoent "/work/demo/res") eq_refl eq_refl).
Defined.

Lemma reading_tools_start_no_process_witness :
  snd (call_tool sample_server "find_smali_references"
         [("apk_dir", VStr "/work/demo"); ("pattern", VStr "target")] sample_world) = [].
Proof.
  apply reading_tools_start_no_process. vm_compute. tauto.
Defined.

Lemma find_smali_references_unexaminable_witness :
  call_tool sample_server "find_smali_references"
    [("apk_dir", VStr "/work/locked"); ("pattern", VStr "x"); ("case_sensitive", VBool true)]
    locked_world
  = (error_result "find_smali_references"
       "[Errno 13] Permission denied: '/work/locked/notes.txt'", []).
Proof.
  refine (proj2 (find_smali_references_unexaminable sample_server locked_world "/work/locked"
                   (VStr "x") (VBool true) [] [] "notes.txt"
                   (eacces "/work/locked/notes.txt") eq_refl _ eq_refl eq_refl)).
  intros m [].
Defined.

Lemma find_smali_references_unlistable_witness :
  _find_smali_references sample_server (VStr "/work/none") (VStr "x") (VBool true) sample_world
  = (Raise (enoent "/work/none"), []).
Proof.
  exact (proj1 (find_smali_references_unlistable sample_server sample_world "/work/none"
                  (VStr "x") (VBool true) (enoent "/work/none") eq_refl)).
Defined.

(* ================================================================= *)
(** ** Requests that fit the schema *)

Section ValidRequests.
Variable self : Server.
Variable w : World.

(** The defaults of the schema are the defaults of the handler, and no
    handler has two parameters of one name. *)
Lemma schema_defaults (t : Tool) (sig : signature) :
  In t list_tools -> signature_of (tool_name t) = Some sig ->
  NoDup (map fst (params sig))
  /\ forall pr d, In pr (properties t) -> prop_default pr = Some d ->
                  In (prop_name pr, Some d) (params sig).
Proof.
  intros Hin Hsig.
  repeat (destruct Hin as [<- | Hin];
          [ vm_compute in Hsig; injection Hsig as <-; split;
            [ repeat constructor; cbn; intuition discriminate
            | intros pr d Hpr Hd; cbn in Hpr;
              repeat (destruct Hpr as [<- | Hpr]; [cbn in Hd; try discriminate Hd;
                                                   injection Hd as <-; cbn; tauto |]);
              destruct Hpr ]
          | ]).
  destruct Hin.
Qed.

Lemma NoDup_fst_unique {A B} (ps : list (A * B)) (p q : A * B) :
  NoDup (map fst ps) -> In p ps -> In q ps -> fst p = fst q -> p = q.
Proof.
  induction ps as [|x ps IH]; [intros _ []|].
  cbn [map]. intros Hnd Hp Hq E. inversion Hnd as [|? ? Hx Hnd']; subst.
  destruct Hp as [Hp|Hp], Hq as [Hq|Hq].
  - congruence.
  - exfalso. apply Hx. subst x. rewrite E. now apply in_map.
  - exfalso. apply Hx. subst x. rewrite <- E. now apply in_map.
  - now apply IH.
Qed.

Lemma lookup_None (k : string) (l : list (string * value)) :
  ~ In k (map fst l) -> lookup k l = None.
Proof.
  intros H. apply is_bound_false in H. unfold is_bound in H.
  destruct (lookup k l); [discriminate | reflexivity].
Qed.

(** X13: a request for a registered tool whose names are distinct properties
    of its schema and include every required field is bound without error:
    a parameter named in the request has the value given, every other one
    the default of the handler, which is the default of the schema where the
    schema has one. *)
Theorem schema_valid_request_binds (t : Tool) (sig : signature)
    (arguments : list (string * value)) :
  In t list_tools -> signature_of (tool_name t) = Some sig ->
  NoDup (map fst arguments) ->
  (forall k, In k (map fst arguments) -> In k (map prop_name (properties t))) ->
  (forall f, In f (required t) -> In f (map fst arguments)) ->
  exists a,
    bind_args sig arguments = Ok a
    /\ (forall k v, In (k, v) arguments -> arg a k = v)
    /\ (forall k d, In (k, Some d) (params sig) -> ~ In k (map fst arguments) ->
                    arg a k = d)
    /\ (forall pr d, In pr (properties t) -> prop_default pr = Some d ->
                     ~ In (prop_name pr) (map fst arguments) -> arg a (prop_name pr) = d).
Proof.
  intros Hin Hsig Hnd Hkeys Hreq.
  destruct (schema_signature t sig Hin Hsig) as [Hr [Hp Hself]].
  destruct (schema_defaults t sig Hin Hsig) as [Hnp Hdef].
  assert (Hbk : bind_keywords sig [] arguments = Ok (rev arguments ++ [])%list).
  { apply bind_keywords_clean; auto. intros k Hk. rewrite <- Hp. auto. }
  assert (Hm : missing_of sig (rev arguments ++ [])%list = []).
  { rewrite missing_of_filter. apply filter_none. intros f Hf.
    rewrite is_bound_rev. apply negb_false_iff. apply is_bound_In.
    apply Hreq. now rewrite Hr. }
  assert (Hb : exists a, bind_args sig arguments = Ok a).
  { unfold bind_args. rewrite Hbk, Hm. eexists; reflexivity. }
  destruct Hb as [a Ha]. exists a. split; [exact Ha|].
  assert (Hdflt : forall k d, In (k, Some d) (params sig) -> ~ In k (map fst arguments) ->
                              arg a k = d).
  { intros k d Hk Hn. unfold bind_args in Ha. rewrite Hbk, Hm in Ha. injection Ha as <-.
    unfold arg.
    rewrite (lookup_map_params (params sig) _ k d); [reflexivity | |].
    - intros p Hpin Hpk.
      assert (Hl : lookup (fst p) (rev arguments ++ [])%list = None).
      { apply lookup_None. rewrite app_nil_r, map_rev, <- in_rev. now rewrite Hpk. }
      rewrite Hl.
      assert (Heq : p = (k, Some d))
        by (apply (NoDup_fst_unique (params sig)); assumption).
      now rewrite Heq.
    - change k with (fst (k, Some d)). now apply in_map. }
  split; [|split].
  - intros k v. now apply (bind_args_value sig arguments).
  - exact Hdflt.
  - intros pr d Hpr Hd Hn. apply Hdflt; [|assumption]. now apply Hdef.
Qed.

(** X14: a request for a registered tool with a name that is no property of
    its schema is refused with a [TypeError] before the handler body runs,
    with no process started. *)
Theorem unknown_argument_is_refused (t : Tool) (sig : signature)
    (arguments : list (string * value)) (k : string) :
  In t list_tools -> signature_of (tool_name t) = Some sig ->
  In k (map fst arguments) -> ~ In k (map prop_name (properties t)) ->
  exists e, exn_type e = TypeError
            /\ dispatch self (tool_name t) arguments = raise e
            /\ call_tool self (tool_name t) arguments w
               = (error_result (tool_name t) (exn_msg e), []).
Proof.
  intros Hin Hsig Hk Hnp.
  destruct (schema_signature t sig Hin Hsig) as [Hr [Hp Hself]].
  assert (Hb : exists e, bind_args sig arguments = Raise e /\ exn_type e = TypeError).
  { unfold bind_args. destruct (bind_keywords sig [] arguments) as [slots|e] eqn:E.
    - exfalso. destruct (bind_keywords_Ok sig _ _ _ E) as [_ [_ Hall]].
      apply Hnp. rewrite Hp. now apply Hall.
    - exists e. split; [reflexivity | eapply bind_keywords_type; eassumption]. }
  destruct Hb as [e [He Ht]]. exists e. split; [assumption|]. split.
  - eapply dispatch_bind_raise; eassumption.
  - unfold call_tool. erewrite dispatch_bind_raise by eassumption. reflexivity.
Qed.

End ValidRequests.

Lemma schema_valid_request_binds_witness :
  exists a,
    bind_args sig_decode_apk [("no_res", VBool true); ("apk_path", VStr "/data/my app;rm.apk")]
    = Ok a
    /\ arg a "apk_path" = VStr "/data/my app;rm.apk"
    /\ arg a "no_res" = VBool true
    /\ arg a "force" = VBool false.
Proof.
  destruct (schema_valid_request_binds decode_tool sig_decode_apk
              [("no_res", VBool true); ("apk_path", VStr "/data/my app;rm.apk")])
    as [a [Ha [Hv [Hd _]]]].
  - vm_compute. tauto.
  - reflexivity.
  - repeat constructor; cbn; intuition discriminate.
  - intros k [<-|[<-|[]]]; vm_compute; tauto.
  - intros f [<-|[]]. vm_compute. tauto.
  - exists a. split; [exact Ha|]. split; [|split].
    + apply Hv. cbn. tauto.
    + apply Hv. cbn. tauto.
    + apply Hd; [cbn; tauto | cbn; intuition discriminate].
Defined.

Lemma unknown_argument_is_refused_witness :
  exists e, exn_type e = TypeError
            /\ dispatch sample_server "decode_apk"
                 [("apk_path", VStr "/data/my app;rm.apk"); ("verbose", VBool true)]
               = raise e
            /\ call_tool sample_server "decode_apk"
                 [("apk_path", VStr "/data/my app;rm.apk"); ("verbose", VBool true)]
                 sample_world
               = (error_result "decode_apk" (exn_msg e), []).
Proof.
  apply (unknown_argument_is_refused sample_server sample_world decode_tool sig_decode_apk
           [("apk_path", VStr "/data/my app;rm.apk"); ("verbose", VBool true)] "verbose").
  - vm_compute. tauto.
  - reflexivity.
  - cbn. tauto.
  - cbn. intuition discriminate.
Defined.

(* ================================================================= *)
(** ** Prompts *)

Section Prompts.

Lemma get_absent (arguments : list (string * string)) (key default : string) :
  ~ In key (map fst arguments) -> get arguments key default = default.
Proof.
  induction arguments as [|[k v] r IH]; [reflexivity|]. cbn [map fst In get].
  intros H. destruct (String.eqb_spec k key) as [->|_]; [tauto|]. apply IH. tauto.
Qed.

Lemma get_present (arguments : list (string * string)) (key default v : string) :
  NoDup (map fst arguments) -> In (key, v) arguments -> get arguments key default = v.
Proof.
  induction arguments as [|[k v'] r IH]; [intros _ []|]. cbn [map fst get].
  intros Hnd [E|Hin].
  - injection E as -> ->. now rewrite String.eqb_refl.
  - inversion Hnd as [|? ? Hk Hnd']; subst.
    destruct (String.eqb_spec k key) as [->|_]; [|now apply IH].
    exfalso. apply Hk. change key with (fst (key, v)). now apply in_map.
Qed.

Lemma prompt_text_known (name : string) (arguments : list (string * string)) :
  In name (map prompt_name list_prompts) ->
  in_str (get arguments "apk_path" EmptyString) (prompt_text name arguments) = true
  /\ prompt_text name arguments <> "Unknown prompt: " ++ name.
Proof.
  intros [<-|[<-|[<-|[]]]]; (split; [|vm_compute; discriminate]);
    apply in_str_iff; unfold prompt_text; cbn [String.eqb Ascii.eqb Bool.eqb].
  - exists (nl ++ "Please perform a comprehensive security analysis of the APK file: ").
    eexists. unfold analyze_security_text. rewrite !append_assoc. reflexivity.
  - exists (nl ++ "Conduct a privacy audit for the APK file: ").
    eexists. unfold privacy_audit_text. rewrite !append_assoc. reflexivity.
  - exists (nl ++ "Create a reverse engineering guide for APK: ").
    eexists. unfold reverse_engineer_guide_text. rewrite !append_assoc. reflexivity.
Qed.

(** X15: [get_prompt] returns one user message and the description naming
    the prompt; for a name [list_prompts] does not list the text is "Unknown
    prompt: <name>", for a listed one it holds the given APK path (the empty
    string when none is given), and the guide holds the target feature,
    "general functionality" when none is given. *)
Theorem get_prompt_text (name : string) (arguments : list (string * string)) :
  get_prompt name arguments
  = {| description := "APK analysis prompt for " ++ name;
       messages := [ {| role := "user";
                        message_content := text_content (prompt_text name arguments) |} ] |}
  /\ (~ In name (map prompt_name list_prompts) ->
      prompt_text name arguments = "Unknown prompt: " ++ name)
  /\ (In name (map prompt_name list_prompts) ->
      in_str (get arguments "apk_path" EmptyString) (prompt_text name arguments) = true
      /\ prompt_text name arguments <> "Unknown prompt: " ++ name)
  /\ (name = "reverse_engineer_guide" ->
      in_str ("Target analysis: " ++ get arguments "target_feature" "general functionality"
              ++ nl)
             (prompt_text name arguments) = true)
  /\ (~ In "target_feature" (map fst arguments) ->
      get arguments "target_feature" "general functionality" = "general functionality")
  /\ (forall key v, NoDup (map fst arguments) -> In (key, v) arguments ->
                    forall default, get arguments key default = v).
Proof.
  split; [reflexivity|]. split; [|split; [|split; [|split]]].
  - intros Hn. unfold prompt_text.
    repeat match goal with
    | |- context [if (name =? ?s) then _ else _] =>
        destruct (String.eqb_spec name s) as [->|_];
        [ exfalso; apply Hn; vm_compute; tauto | ]
    end.
    reflexivity.
  - apply prompt_text_known.
  - intros ->. apply in_str_iff. unfold prompt_text. cbn [String.eqb Ascii.eqb Bool.eqb].
    exists (nl ++ "Create a reverse engineering guide for APK: "
            ++ get arguments "apk_path" EmptyString ++ nl).
    eexists. unfold reverse_engineer_guide_text. rewrite !append_assoc. reflexivity.
  - apply get_absent.
  - intros key v Hnd Hin default. now apply get_present.
Qed.

End Prompts.

Lemma get_prompt_text_witness :
  prompt_text "no_such_prompt" [("apk_path", "/data/app.apk")]
  = "Unknown prompt: no_such_prompt"
  /\ in_str "/data/my app;rm.apk"
       (prompt_text "privacy_audit" [("apk_path", "/data/my app;rm.apk")]) = true
  /\ in_str ("Target analysis: general functionality" ++ nl)
       (prompt_text "reverse_engineer_guide" [("apk_path", "/data/app.apk")]) = true.
Proof.
  split; [|split].
  - apply (proj1 (proj2 (get_prompt_text "no_such_prompt" [("apk_path", "/data/app.apk")]))).
    vm_compute. intuition discriminate.
  - apply (proj1 (proj1 (proj2 (proj2 (get_prompt_text "privacy_audit"
             [("apk_path", "/data/my app;rm.apk")]))) ltac:(vm_compute; tauto))).
  - apply (proj1 (proj2 (proj2 (proj2 (get_prompt_text "reverse_engineer_guide"
             [("apk_path", "/data/app.apk")])))) eq_refl).
Defined.

Lemma run_command_result_witness :
  (exists output error,
      os_exec sample_world ["apktool"; "d"] (cwd_of sample_server None)
      = Exited 0 output error
      /\ "I: done" = if negb (is_empty output) then output else error)
  /\ _run_command sample_server [VStr "apktool"; VBool true] None sample_world
     = (Raise (Exn TypeError "sequence item 1: expected str instance, bool found"), []).
Proof.
  split.
  - apply (proj1 (proj1 (run_command_result sample_server sample_world
                           [VStr "apktool"; VStr "d"] None) ["apktool"; "d"] eq_refl)
             "I: done").
    reflexivity.
  - apply (proj2 (run_command_result sample_server sample_world
                    [VStr "apktool"; VBool true] None) 1 (VBool true)).
    reflexivity.
Defined.
